(** * setup-irc: IRC channel set-up for breakout sessions

    A shallow embedding of [tools/setup-irc.mjs] and the properties of its
    channel grouping, of its per-channel bot commands and of its event
    handlers.

    Conventions of the embedding:
    - a JavaScript string is a [string]; a property that may be [undefined]
      is an [option string], with JavaScript truthiness ([truthy]) and
      template rendering ([show]) written out;
    - a JavaScript number that holds an issue number or an index is a [Z],
      the integer that the number holds; a template literal prints it as
      JavaScript prints a double ([show_number]);
    - everything the script does to the outside world (lines printed with
      [console.log], calls on the IRC client [bot]) is an [Effect]; a
      function of the script that has effects or can throw is a [Run],
      a pair of the trace of effects and of the outcome;
    - the functions declared inside [main] read [project], [onlyCommands],
      [dismissBots] and [sessions] from the enclosing scope: here they are
      section variables, or arguments where the value changes over time. *)

From Stdlib Require Import String Ascii List ZArith Bool Lia.
From Stdlib Require Import Permutation Sorted DecimalString.
Import ListNotations.
Local Open Scope list_scope.
Local Open Scope Z_scope.
Local Open Scope string_scope.

(* ================================================================= *)
(** ** JavaScript values used by the script *)

(** [value ? .. : ..] on a string that may be undefined: [undefined] and
    the empty string are falsy. *)
Definition truthy (v : option string) : bool :=
  match v with
  | Some s => negb (s =? "")
  | None => false
  end.

(** [`${v}`] in a template literal. *)
Definition show (v : option string) : string :=
  match v with
  | Some s => s
  | None => "undefined"
  end.

(** [a === v] for a string [a] and a value [v] that may be undefined. *)
Definition strict_eq (a : string) (v : option string) : bool :=
  match v with
  | Some b => a =? b
  | None => false
  end.

(** The decimal digits of an integer. *)
Definition decimal (n : Z) : string :=
  NilZero.string_of_int (Z.to_int n).

(** A JavaScript number is a double: the integers it holds exactly are
    those below 2^53 and, beyond, the multiples of a power of two with 53
    significant bits. [double_of n] is the double nearest to a positive
    integer [n], with ties to the even significand: [n] itself when a
    double holds it. *)
Definition double_of (n : Z) : Z :=
  if (n <? 2 ^ 53)%Z then n
  else
    let e := (Z.log2 n - 52)%Z in
    let q := (n / 2 ^ e)%Z in
    let r := (n mod 2 ^ e)%Z in
    let half := (2 ^ (e - 1))%Z in
    let q' :=
      if (r <? half)%Z then q
      else if (half <? r)%Z then (q + 1)%Z
      else if Z.even q then q else (q + 1)%Z in
    (q' * 2 ^ e)%Z.

(** The decimal that [Number::toString] prints for a double [v] of [D]
    digits that is 2^53 or more: the one with the fewest significant
    digits [k] that reads back as [v], the nearest to [v] when there are
    two of them, the one with the even last digit when they are as near. *)
Fixpoint shortest (fuel : nat) (k : Z) (D : Z) (v : Z) : Z :=
  match fuel with
  | O => v
  | S fuel' =>
      let p := (D - k)%Z in
      if (p <? 0)%Z then v
      else
        let unit := (10 ^ p)%Z in
        let low := (v / unit * unit)%Z in
        let high := (low + unit)%Z in
        let low_ok := (double_of low =? v)%Z in
        let high_ok := (double_of high =? v)%Z in
        if low_ok && high_ok then
          if (v - low <? high - v)%Z then low
          else if (high - v <? v - low)%Z then high
          else if Z.even (v / unit) then low else high
        else if low_ok then low
        else if high_ok then high
        else shortest fuel' (k + 1)%Z D v
  end.

(** A string of digits without its zeros at the end. *)
Fixpoint strip_zeros (digits : string) : string :=
  match digits with
  | EmptyString => EmptyString
  | String c rest =>
      let rest' := strip_zeros rest in
      if (rest' =? "") && Ascii.eqb c "0" then EmptyString
      else String c rest'
  end.

(** [`${n}`] for a number that holds a positive integer: the decimal digits
    below 2^53 (there every integer is a double, and no shorter decimal
    reads back as it); the shortest decimal that reads back as the number,
    completed with zeros, below 10^21; the exponent notation from 10^21;
    [Infinity] from 2^1024. *)
Definition show_positive (n : Z) : string :=
  let v := double_of n in
  if (2 ^ 1024 <=? v)%Z then "Infinity"
  else if (v <? 2 ^ 53)%Z then decimal v
  else
    let c := shortest 17 1 (Z.of_nat (String.length (decimal v))) v in
    let digits := decimal c in
    if (c <? 10 ^ 21)%Z then digits
    else
      match strip_zeros digits with
      | EmptyString => digits
      | String d EmptyString =>
          String d "e+" ++ decimal (Z.of_nat (String.length digits) - 1)
      | String d more =>
          String d ("." ++ more) ++ "e+"
          ++ decimal (Z.of_nat (String.length digits) - 1)
      end.

(** [`${n}`] for a number that holds an integer. *)
Definition show_number (n : Z) : string :=
  if (n <? 0)%Z then "-" ++ show_positive (- n) else show_positive n.

(** [s.startsWith(p)]. *)
Fixpoint startsWith (s p : string) {struct p} : bool :=
  match p with
  | EmptyString => true
  | String c p' =>
      match s with
      | EmptyString => false
      | String d s' => Ascii.eqb d c && startsWith s' p'
      end
  end.

(** [array.includes(v)] on an array of strings. *)
Definition includes (array : list string) (v : option string) : bool :=
  match v with
  | Some s => existsb (String.eqb s) array
  | None => false
  end.

(** [array.findIndex(p)]: the index of the first element that satisfies
    [p], and -1 when there is none. *)
Fixpoint findIndex {A : Type} (p : A -> bool) (array : list A) : Z :=
  match array with
  | [] => -1
  | x :: rest =>
      if p x then 0
      else let i := findIndex p rest in if (i <? 0)%Z then -1 else i + 1
  end.

(** [array.sort((a, b) => key(a) - key(b))]: the sort of JavaScript is
    stable, so that the result is the insertion of the elements, in their
    order, each one behind the elements whose key is not greater. *)
Section Sort.
Context {A : Type} (key : A -> Z).

Fixpoint insert_by (x : A) (l : list A) : list A :=
  match l with
  | [] => [x]
  | y :: l' => if (key y <=? key x)%Z then y :: insert_by x l' else x :: l
  end.

Definition sort_by (l : list A) : list A :=
  fold_left (fun sorted x => insert_by x sorted) l [].
End Sort.

(* ================================================================= *)
(** ** Data model *)

Module Chair.
Record t := mk { name : string; login : string }.
End Chair.

Module Room.
Record t := mk { name : string; label : string }.
End Room.

Module Slot.
Record t := mk { name : string }.
End Slot.

Module Materials.
Record t := mk { agenda : option string; slides : option string }.
End Materials.

Module Description.
Record t := mk {
  shortname : string;
  attendance : option string;
  materials : Materials.t
}.
End Description.

Module Session.
Record t := mk {
  number : Z;
  title : string;
  slot : option string;
  room : option string;
  repository : string;
  chairs : list Chair.t;
  description : Description.t;
  (** [done] is absent (falsy) until the [part] listener sets it. *)
  done : bool
}.

Definition set_done (s : t) : t :=
  mk (number s) (title s) (slot s) (room s) (repository s) (chairs s)
     (description s) true.
End Session.

Module Project.
Record t := mk {
  sessions : list Session.t;
  rooms : list Room.t;
  slots : list Slot.t
}.
End Project.

(** A finding of [validateSession]. *)
Module Finding.
Record t := mk { severity : string; message : string }.
End Finding.

(** The error object of the IRC client's [error] event. *)
Module IrcError.
Record t := mk { command : string; args : list string }.
End IrcError.

Definition botName : string := "tpac-breakout-bot".

(** Helper function to generate a shortname from the session's title *)
Definition getChannel (session : Session.t) : string :=
  Description.shortname (Session.description session).

(* ================================================================= *)
(** ** Effects and outcomes *)

Inductive Effect : Type :=
| ConsoleLog (line : string)
| BotConnect (server nick : string)
| BotJoin (channel : string)
| BotSend (command : string) (args : list string)
| BotSay (channel msg : string)
| BotPart (channel : string)
| BotDisconnect
| PromiseResolve.

Inductive Exception : Type :=
| Error (message : string)
| TypeError (message : string)
| Rethrown (err : IrcError.t).

Inductive Outcome (A : Type) : Type :=
| Return (a : A)
| Throw (e : Exception).
Arguments Return {A} a.
Arguments Throw {A} e.

Definition Run (A : Type) : Type := (list Effect * Outcome A)%type.

Definition trace {A} (r : Run A) : list Effect := fst r.
Definition outcome {A} (r : Run A) : Outcome A := snd r.

Definition ret {A} (a : A) : Run A := ([], Return a).
Definition throw {A} (e : Exception) : Run A := ([], Throw e).
Definition emit (e : Effect) : Run unit := ([e], Return tt).

Definition bind {A B} (r : Run A) (k : A -> Run B) : Run B :=
  match outcome r with
  | Return a => ((trace r ++ trace (k a))%list, outcome (k a))
  | Throw e => (trace r, Throw e)
  end.

Declare Scope run_scope.
Delimit Scope run_scope with run.
Notation "x <- r ;; k" := (bind r (fun x => k))
  (at level 61, r at next level, right associativity) : run_scope.
Notation "r ;; k" := (bind r (fun _ => k))
  (at level 61, right associativity) : run_scope.
Local Open Scope run_scope.

(** [for (const x of xs) body(x)] *)
Fixpoint for_of {A} (xs : list A) (body : A -> Run unit) : Run unit :=
  match xs with
  | [] => ret tt
  | x :: rest => body x ;; for_of rest body
  end.

(** [console.log(line)] *)
Definition console_log (line : string) : Run unit := emit (ConsoleLog line).

(* ================================================================= *)
(** ** The functions declared inside [main] *)

Section Commands.
(** [todoStrings] is imported from [lib/todostrings.mjs]. *)
Variable todoStrings : list string.
Variable project : Project.t.
Variable onlyCommands : bool.
Variable dismissBots : bool.

(** [bot] is [undefined] exactly when [onlyCommands] is set: both
    [if (!onlyCommands) bot.f(..)] and [if (bot) bot.f(..)] are
    [with_bot]. *)
Definition with_bot (call : Effect) : Run unit :=
  if onlyCommands then ret tt else emit call.

Definition joinChannel (session : Session.t) : Run unit :=
  let channel := getChannel session in
  console_log ("/join " ++ channel) ;;
  with_bot (BotJoin channel).

Definition inviteBot (session : Session.t) (name : string) : Run unit :=
  let channel := getChannel session in
  console_log ("/invite " ++ name ++ " " ++ channel) ;;
  with_bot (BotSend "INVITE" [name; channel]).

Definition setTopic (session : Session.t) : Run unit :=
  let channel := getChannel session in
  let room :=
    find (fun r => strict_eq (Room.name r) (Session.room session))
         (Project.rooms project) in
  let roomLabel :=
    match room with
    | Some room => "- " ++ Room.label room ++ " "
    | None => ""
    end in
  let topic :=
    "TPAC breakout: " ++ Session.title session ++ " " ++ roomLabel
      ++ "- " ++ show (Session.slot session) in
  console_log ("/topic " ++ channel ++ " " ++ topic) ;;
  with_bot (BotSend "TOPIC" [channel; topic]).

Definition say (channel msg : string) : Run unit :=
  console_log ("/msg " ++ channel ++ " " ++ msg) ;;
  with_bot (BotSay channel msg).

(** [sessions] holds the representative session of each channel; its
    [done] flags change during a live run, so that it is an argument.
    The [room] and [roomLabel] that the source computes here are not
    used in the function and are left out. *)
Definition sendChannelBotCommands
    (sessions : list Session.t) (channel nick : string) : Run unit :=
  match find (fun s => channel =? getChannel s) sessions with
  | None => ret tt
  | Some session =>
      let materials :=
        Description.materials (Session.description session) in
      if nick =? botName then
        if dismissBots then
          say channel "RRSAgent, draft minutes" ;;
          say channel "RRSAgent, bye" ;;
          say channel "Zakim, bye" ;;
          with_bot (BotPart channel)
        else
          setTopic session ;;
          inviteBot session "Zakim" ;;
          inviteBot session "RRSAgent"
      else if nick =? "RRSAgent" then
        say channel "RRSAgent, do not leave" ;;
        say channel
          ("RRSAgent, make logs " ++
           (if strict_eq "restricted"
                 (Description.attendance (Session.description session))
            then "member" else "public")) ;;
        say channel ("Meeting: " ++ Session.title session) ;;
        say channel
          ("Chair: " ++
           String.concat ", " (map Chair.name (Session.chairs session))) ;;
        (if truthy (Materials.agenda materials) &&
            negb (includes todoStrings (Materials.agenda materials))
         then say channel ("Agenda: " ++ show (Materials.agenda materials))
         else say channel
                ("Agenda: https://github.com/" ++ Session.repository session
                 ++ "/issues/" ++ show_number (Session.number session))) ;;
        (if truthy (Materials.slides materials) &&
            negb (includes todoStrings (Materials.slides materials))
         then say channel ("Slideset: " ++ show (Materials.slides materials))
         else ret tt) ;;
        say channel "clear agenda" ;;
        say channel "agenda+ Pick a scribe" ;;
        say channel "agenda+ Reminders: code of conduct, health policies, recorded session policy" ;;
        say channel "agenda+ Goal of this session" ;;
        say channel "agenda+ Discussion" ;;
        say channel "agenda+ Next steps / where discussion continues" ;;
        with_bot (BotPart channel)
      else if nick =? "Zakim" then
        (* No specific command to send when Zakim joins *)
        ret tt
      else ret tt
  end.

End Commands.

(* ================================================================= *)
(** ** The object [channels] *)

(** A JavaScript object used as a map from property names to values: its
    own properties, in the order of their creation. *)
Definition JSObject (V : Type) : Type := list (string * V).

(** The properties that [{}] inherits from [Object.prototype]. Reading
    one of them on [channels] gives a function (an object for
    [__proto__]): a truthy value that has no [push]. *)
Definition Object_prototype_keys : list string :=
  [ "constructor"; "__defineGetter__"; "__defineSetter__"; "hasOwnProperty";
    "__lookupGetter__"; "__lookupSetter__"; "isPrototypeOf";
    "propertyIsEnumerable"; "toString"; "valueOf"; "__proto__";
    "toLocaleString" ].

Definition inherited (key : string) : bool :=
  existsb (String.eqb key) Object_prototype_keys.

Fixpoint get_own {V} (o : JSObject V) (key : string) : option V :=
  match o with
  | [] => None
  | (k, v) :: rest => if key =? k then Some v else get_own rest key
  end.

(** [o[key] = v]: an existing property keeps its place, a new one comes
    last. *)
Fixpoint set_own {V} (o : JSObject V) (key : string) (v : V) : JSObject V :=
  match o with
  | [] => [(key, v)]
  | (k, w) :: rest =>
      if key =? k then (k, v) :: rest else (k, w) :: set_own rest key v
  end.

(** A property name is an array index when it is the canonical decimal
    form of an integer below 2^32 - 1. *)
Definition array_index (key : string) : option Z :=
  match NilZero.uint_of_string key with
  | Some d =>
      let n := Z.of_uint d in
      if (show_number n =? key) && (n <? 2 ^ 32 - 1)%Z then Some n else None
  | None => None
  end.

Definition is_array_index {V} (entry : string * V) : bool :=
  match array_index (fst entry) with Some _ => true | None => false end.

Definition index_of_entry {V} (entry : string * V) : Z :=
  match array_index (fst entry) with Some n => n | None => 0 end.

(** The order in which [Object.keys] and [Object.values] enumerate the
    own properties: array indices first, in ascending order, then the
    other names in the order of their creation. *)
Definition own_entries {V} (o : JSObject V) : JSObject V :=
  (sort_by index_of_entry (filter is_array_index o)
   ++ filter (fun entry => negb (is_array_index entry)) o)%list.

Definition Object_keys {V} (o : JSObject V) : list string :=
  map fst (own_entries o).

Definition Object_values {V} (o : JSObject V) : list V :=
  map snd (own_entries o).

(* ================================================================= *)
(** ** Channel grouping (the loop of [main] over the valid sessions) *)

(** [project.slots.findIndex(slot => slot.name === s.slot)] *)
Definition slotIndex (project : Project.t) (s : Session.t) : Z :=
  findIndex (fun slot => strict_eq (Slot.name slot) (Session.slot s))
            (Project.slots project).

(** The body of the loop: create the channel's array when the property is
    falsy, push the session, sort the array. An array is truthy even when
    empty, so that an own property is never created twice; an inherited
    property is truthy as well, and the call of [push] on it throws. *)
Definition addSession (project : Project.t)
    (channels : JSObject (list Session.t)) (session : Session.t)
    : Run (JSObject (list Session.t)) :=
  let channel := getChannel session in
  if inherited channel then
    throw (TypeError "channels[channel].push is not a function")
  else
    let group :=
      match get_own channels channel with
      | Some group => group
      | None => []
      end in
    ret (set_own channels channel
           (sort_by (slotIndex project) (group ++ [session])%list)).

Fixpoint computeChannels (project : Project.t) (sessions : list Session.t)
    (channels : JSObject (list Session.t))
    : Run (JSObject (list Session.t)) :=
  match sessions with
  | [] => ret channels
  | session :: rest =>
      channels' <- addSession project channels session ;;
      computeChannels project rest channels'
  end.

(** [Object.values(channels).map(sessions => sessions[0])]; [sessions[0]]
    is [undefined] on an empty array. *)
Definition representatives (channels : JSObject (list Session.t))
    : list (option Session.t) :=
  map (@hd_error Session.t) (Object_values channels).

(** The list behind a list of defined values. *)
Fixpoint all_defined {A} (l : list (option A)) : option (list A) :=
  match l with
  | [] => Some []
  | Some a :: rest => option_map (cons a) (all_defined rest)
  | None :: _ => None
  end.

(** The group of a channel as the specification words it: the sessions
    with this channel identifier, sorted by the index of their slot in
    the slots of the project. *)
Definition spec_group (project : Project.t) (channel : string)
    (sessions : list Session.t) : list Session.t :=
  sort_by (slotIndex project)
          (filter (fun s => getChannel s =? channel) sessions).

(** The invariant of the loop: after the sessions [seen], [channels] has
    one property for each of their channels, and it holds the group of
    this channel. *)
Definition grouped (project : Project.t) (seen : list Session.t)
    (channels : JSObject (list Session.t)) : Prop :=
  NoDup (map fst channels) /\
  forall channel,
    get_own channels channel
    = if existsb (fun s => getChannel s =? channel) seen
      then Some (spec_group project channel seen)
      else None.

(* ================================================================= *)
(** ** Retrieval and validation of the sessions *)

Module Args.
Record t := mk {
  number : option Z;
  slot : option string;
  onlyCommands : bool;
  dismissBots : bool
}.
End Args.

(** Truthiness of [number]: [undefined] and 0 are falsy. *)
Definition truthy_number (number : option Z) : bool :=
  match number with
  | Some n => negb (n =? 0)%Z
  | None => false
  end.

Definition show_opt_number (number : option Z) : string :=
  match number with
  | Some n => show_number n
  | None => "undefined"
  end.

(** [sessions.map(s => s.number).join(', ')] *)
Definition numbers_of (sessions : list Session.t) : string :=
  String.concat ", " (map (fun s => show_number (Session.number s)) sessions).

(** [sessions.length] in a template literal. *)
Definition show_length {A} (l : list A) : string :=
  show_number (Z.of_nat (length l)).

(** The events that the IRC client delivers to the listeners. *)
Inductive Event : Type :=
| Registered (command : string)
| Raw
| ErrorEvent (err : IrcError.t)
| Join (channel nick : string)
| Part (channel nick : string).

(** [session.done = true] on the session that [sessions.find] returned:
    the first one of the channel. *)
Fixpoint mark_done (channel : string) (sessions : list Session.t)
    : list Session.t :=
  match sessions with
  | [] => []
  | s :: rest =>
      if channel =? getChannel s then Session.set_done s :: rest
      else s :: mark_done channel rest
  end.


(** The position of the session that [sessions.find] returns for a
    channel: the first one of the channel. *)
Fixpoint found_at (channel : string) (sessions : list Session.t)
    : option nat :=
  match sessions with
  | [] => None
  | s :: rest =>
      if channel =? getChannel s then Some 0%nat
      else option_map S (found_at channel rest)
  end.


Section Main.
(** [todoStrings] and [validateSession] are imported from [lib/]; the two
    environment keys are read with [getEnvKey]. *)
Variable todoStrings : list string.
Variable validateSession : Z -> Project.t -> list Finding.t.
Variable PROJECT_OWNER : string.
Variable PROJECT_NUMBER : string.

(** The filter on [project.sessions]. Where [startsWith] is reached the
    session's slot is truthy, hence a string. *)
Definition selected (number : option Z) (slot : option string)
    (s : Session.t) : bool :=
  truthy (Session.slot s) &&
  (negb (truthy_number number) ||
   match number with Some n => (Session.number s =? n)%Z | None => false end) &&
  (negb (truthy slot) || startsWith (show (Session.slot s)) (show slot)).

(** [sessionErrors.length > 0] for the findings of severity [error]. *)
Definition has_errors (project : Project.t) (session : Session.t) : bool :=
  let sessionErrors :=
    filter (fun error => Finding.severity error =? "error")
           (validateSession (Session.number session) project) in
  (0 <? length sessionErrors)%nat.

(** [sessions.filter(s => !!s)] on the array of sessions and nulls. *)
Definition non_null {A} (l : list (option A)) : list A :=
  flat_map (fun s => match s with Some a => [a] | None => [] end) l.

(** The part of [main] from the filter on the project's sessions to the
    message that ends the retrieval. *)
Definition retrieveSessions (project : Project.t)
    (number : option Z) (slot : option string) : Run (list Session.t) :=
  let name := PROJECT_OWNER ++ "/" ++ PROJECT_NUMBER in
  let sessions := filter (selected number slot) (Project.sessions project) in
  let sessions := sort_by Session.number sessions in
  (if truthy_number number then
     match sessions with
     | [] =>
         throw (Error ("Session " ++ show_opt_number number
           ++ " not found in project " ++ name
           ++ " or not assigned to requested slot"))
     | first :: _ =>
         if negb (truthy (Session.slot first)) then
           throw (Error ("Session " ++ show_opt_number number
             ++ " not assigned to a slot in project " ++ name))
         else ret tt
     end
   else if truthy slot then
     console_log ("- found " ++ show_length sessions
       ++ " sessions assigned to slot " ++ show slot ++ ": "
       ++ numbers_of sessions)
   else
     console_log ("- found " ++ show_length sessions
       ++ " sessions assigned to slots: " ++ numbers_of sessions)) ;;
  let sessions :=
    map (fun session =>
           if has_errors project session then None else Some session)
        sessions in
  let sessions := non_null sessions in
  (if truthy_number number then
     match sessions with
     | [] =>
         throw (Error ("Session " ++ show_opt_number number
           ++ " contains errors that need fixing"))
     | _ :: _ => ret tt
     end
   else
     console_log ("- found " ++ show_length sessions
       ++ " valid sessions among them: " ++ numbers_of sessions)) ;;
  console_log ("Retrieve project " ++ name ++ " and session(s)... done") ;;
  ret sessions.

(* ================================================================= *)
(** ** Dry run and listeners *)

Variable project : Project.t.
Variable onlyCommands : bool.
Variable dismissBots : bool.

Definition send_commands :=
  sendChannelBotCommands todoStrings project onlyCommands dismissBots.

(** The loop of the dry run ([onlyCommands]). *)
Definition dryRunSession (sessions : list Session.t) (session : Session.t)
    : Run unit :=
  console_log "" ;;
  console_log ("session " ++ show_number (Session.number session)) ;;
  console_log "-----" ;;
  joinChannel onlyCommands session ;;
  send_commands sessions (getChannel session) botName ;;
  (if negb dismissBots
   then send_commands sessions (getChannel session) "RRSAgent"
   else ret tt) ;;
  console_log "-----".

Definition dryRun (sessions : list Session.t) : Run unit :=
  for_of sessions (dryRunSession sessions).

(** The listener of [registered]. *)
Definition onRegistered (sessions : list Session.t) (command : string)
    : Run unit :=
  console_log ("- Received message: " ++ command) ;;
  console_log "Connect to W3C IRC server... done" ;;
  for_of sessions (fun session =>
    console_log "" ;;
    console_log ("session " ++ show_number (Session.number session)) ;;
    console_log "-----" ;;
    joinChannel onlyCommands session).

(** The listener of [error]. [err.args[1]] and [err.args[2]] may be
    undefined: an undefined channel is the channel of no session, and an
    undefined nick is none of the three nicks, so that
    [sendChannelBotCommands] does nothing then. *)
Definition onError (sessions : list Session.t) (err : IrcError.t)
    : Run unit :=
  if IrcError.command err =? "err_useronchannel" then
    (* We invited bots but they're already there, that's good! *)
    match nth_error (IrcError.args err) 1, nth_error (IrcError.args err) 2 with
    | Some nick, Some channel => send_commands sessions channel nick
    | _, _ => ret tt
    end
  else throw (Rethrown err).

(** The listener of [join]. *)
Definition onJoin (sessions : list Session.t) (channel nick : string)
    : Run unit :=
  send_commands sessions channel nick.

(** The listener of [part]; it returns the sessions with the flag set. *)
Definition onPart (sessions : list Session.t) (channel nick : string)
    : Run (list Session.t) :=
  if negb (nick =? botName) then ret sessions
  else
    match find (fun s => channel =? getChannel s) sessions with
    | None => ret sessions
    | Some _ =>
        let sessions := mark_done channel sessions in
        console_log "-----" ;;
        (if forallb Session.done sessions
         then emit BotDisconnect ;; emit PromiseResolve
         else ret tt) ;;
        ret sessions
    end.

(** One event, delivered to its listener. *)
Definition handle (sessions : list Session.t) (event : Event)
    : Run (list Session.t) :=
  match event with
  | Registered command => onRegistered sessions command ;; ret sessions
  | Raw => ret sessions
  | ErrorEvent err => onError sessions err ;; ret sessions
  | Join channel nick => onJoin sessions channel nick ;; ret sessions
  | Part channel nick => onPart sessions channel nick
  end.

(** The events of a live run, in the order of their delivery. An
    exception thrown by a listener ends the process. *)
Fixpoint liveRun (sessions : list Session.t) (events : list Event)
    : Run (list Session.t) :=
  match events with
  | [] => ret sessions
  | event :: rest =>
      sessions' <- handle sessions event ;;
      liveRun sessions' rest
  end.



End Main.

(** [main]: [fetched] is the result of [fetchProject], and [events] are
    the events that the IRC client delivers in a live run. The sessions at
    the end are returned for the statements about the [done] flags. The
    environment keys are taken as read, and the table [chairsToW3CID] that
    [main] stores in the project for [validateSession] is part of
    [validateSession] here. *)
Definition main (todoStrings : list string)
    (validateSession : Z -> Project.t -> list Finding.t)
    (PROJECT_OWNER PROJECT_NUMBER : string)
    (fetched : option Project.t) (args : Args.t) (events : list Event)
    : Run (list Session.t) :=
  let name := PROJECT_OWNER ++ "/" ++ PROJECT_NUMBER in
  console_log "" ;;
  console_log ("Retrieve project " ++ name ++ "...") ;;
  match fetched with
  | None => throw (Error ("Project " ++ name ++ " could not be retrieved"))
  | Some project =>
      sessions <- retrieveSessions validateSession PROJECT_OWNER
                    PROJECT_NUMBER project (Args.number args)
                    (Args.slot args) ;;
      console_log "Compute IRC channels..." ;;
      channels <- computeChannels project sessions [] ;;
      match all_defined (representatives channels) with
      | None =>
          (* no array of [channels] is empty *)
          throw (TypeError "Cannot read properties of undefined")
      | Some sessions =>
          console_log ("- found " ++ show_length (Object_keys channels)
                       ++ " different IRC channels") ;;
          console_log "Compute IRC channels... done" ;;
          console_log "" ;;
          console_log "Connect to W3C IRC server..." ;;
          if Args.onlyCommands args then
            dryRun todoStrings project true (Args.dismissBots args) sessions ;;
            ret sessions
          else
            emit (BotConnect "irc.w3.org" botName) ;;
            liveRun todoStrings project false (Args.dismissBots args)
                    sessions events
      end
  end.

(* ================================================================= *)
(** ** Reading a trace *)

(** The rest of [line] behind [prefix], when [line] starts with it. *)
Fixpoint after (prefix line : string) {struct prefix} : option string :=
  match prefix with
  | EmptyString => Some line
  | String c prefix' =>
      match line with
      | EmptyString => None
      | String d line' =>
          if Ascii.eqb d c then after prefix' line' else None
      end
  end.

(** The effects of [say(channel, msg)] for a message that satisfies [p]:
    the printed line [/msg channel msg] and the call [bot.say]. *)
Definition says (channel : string) (p : string -> bool) (e : Effect) : bool :=
  match e with
  | ConsoleLog line =>
      match after ("/msg " ++ channel ++ " ") line with
      | Some msg => p msg
      | None => false
      end
  | BotSay c msg => (c =? channel) && p msg
  | _ => false
  end.

(** A message that starts with [label]: [Agenda: ], [Slideset: ], ... *)
Definition announces (channel label : string) : Effect -> bool :=
  says channel (fun msg => startsWith msg label).

Definition is_draft_minutes (channel : string) : Effect -> bool :=
  says channel (fun msg => msg =? "RRSAgent, draft minutes").

Definition is_bye (channel : string) : Effect -> bool :=
  says channel (fun msg => (msg =? "RRSAgent, bye") || (msg =? "Zakim, bye")).

(** The effects of [setTopic]: the printed [/topic] line and the raw
    [TOPIC] command. *)
Definition is_topic (e : Effect) : bool :=
  match e with
  | ConsoleLog line => startsWith line "/topic "
  | BotSend command _ => command =? "TOPIC"
  | _ => false
  end.

(** The effects of [inviteBot]. *)
Definition is_invite (e : Effect) : bool :=
  match e with
  | ConsoleLog line => startsWith line "/invite "
  | BotSend command _ => command =? "INVITE"
  | _ => false
  end.

(** The invitation of the bot [name] to [channel]. *)
Definition is_invite_of (name channel : string) (e : Effect) : bool :=
  match e with
  | ConsoleLog line => line =? "/invite " ++ name ++ " " ++ channel
  | BotSend command [n; c] =>
      (command =? "INVITE") && (n =? name) && (c =? channel)
  | _ => false
  end.

(** Some effect that satisfies [a] comes in the trace before some effect
    that satisfies [b]. *)
Fixpoint before (a b : Effect -> bool) (t : list Effect) : bool :=
  match t with
  | [] => false
  | e :: rest => (a e && existsb b rest) || before a b rest
  end.

(** The effects of a call that is printed and, in a live run, sent. *)
Definition printed_and_sent (onlyCommands : bool) (line : string)
    (call : Effect) : list Effect :=
  ConsoleLog line :: (if onlyCommands then [] else [call]).

(** The effects of [say(channel, msg)] for each message of a list. *)
Definition said (onlyCommands : bool) (channel : string)
    (msgs : list string) : list Effect :=
  flat_map (fun msg =>
              printed_and_sent onlyCommands
                ("/msg " ++ channel ++ " " ++ msg) (BotSay channel msg))
           msgs.


(* ================================================================= *)
(** ** Sample data *)

Module Sample.

Definition todoStrings : list string := ["TBD"; "TODO"; "@@"].

Definition rooms : list Room.t :=
  [ Room.mk "Room A" "Room A (1st floor)"; Room.mk "Room B" "Room B" ].

Definition slots : list Slot.t :=
  [ Slot.mk "9:30 - 10:30"; Slot.mk "11:00 - 12:00"; Slot.mk "14:00 - 15:00" ].

Definition session (number : Z) (title : string) (slot room : option string)
    (shortname : string) (attendance agenda slides : option string)
    : Session.t :=
  Session.mk number title slot room "w3c/tpac-breakouts"
    [Chair.mk "Ada" "ada"; Chair.mk "Grace" "grace"]
    (Description.mk shortname attendance (Materials.mk agenda slides))
    false.

Definition s15 : Session.t :=
  session 15 "Web of Things" (Some "11:00 - 12:00") (Some "Room A")
          "#wot" (Some "restricted") (Some "https://example.org/agenda")
          (Some "https://example.org/slides").

Definition s22 : Session.t :=
  session 22 "Web of Things, part 1" (Some "9:30 - 10:30") (Some "Room C")
          "#wot" None (Some "TBD") None.

Definition s7 : Session.t :=
  session 7 "Fonts" (Some "14:00 - 15:00") None
          "#fonts" (Some "open") None (Some "@@").

Definition s31 : Session.t :=
  session 31 "Late addition" (Some "18:00 - 19:00") (Some "Room B")
          "#wot" None None None.

Definition s40 : Session.t :=
  session 40 "Prototypes" (Some "9:30 - 10:30") (Some "Room B")
          "constructor" None None None.


Definition project : Project.t :=
  Project.mk [s15; s22; s7; s31] rooms slots.


(** [validateSession] reports an error for session 22 only. *)
Definition validateSession (number : Z) (_ : Project.t) : list Finding.t :=
  if (number =? 22)%Z
  then [Finding.mk "warning" "chairs"; Finding.mk "error" "conflict"]
  else [Finding.mk "warning" "chairs"].

End Sample.

(* ================================================================= *)
(** ** Reading a trace: printed lines and calls on the client *)

(** An effect that only prints a line. *)
Definition is_log (e : Effect) : bool :=
  match e with
  | ConsoleLog _ => true
  | _ => false
  end.

(** The call [bot.part]. *)
Definition is_part (e : Effect) : bool :=
  match e with
  | BotPart _ => true
  | _ => false
  end.

(** The call [bot.send]. *)
Definition is_send (e : Effect) : bool :=
  match e with
  | BotSend _ _ => true
  | _ => false
  end.

(** A printed [/join] line. *)
Definition is_join_line (e : Effect) : bool :=
  match e with
  | ConsoleLog line => startsWith line "/join "
  | _ => false
  end.

(** The arrival of [nick] on [channel] as the listeners see it: a join
    event, or an [err_useronchannel] error that names the two. *)
Definition arrival (event : Event) (channel nick : string) : Prop :=
  event = Join channel nick
  \/ exists err,
       event = ErrorEvent err
       /\ IrcError.command err = "err_useronchannel"
       /\ nth_error (IrcError.args err) 1 = Some nick
       /\ nth_error (IrcError.args err) 2 = Some channel.

(** The end of a live run: [bot.disconnect] and the resolution of the
    promise that [main] returns. *)
Definition is_completion (e : Effect) : bool :=
  match e with
  | BotDisconnect | PromiseResolve => true
  | _ => false
  end.

(** An effect of the listener of [registered]: a printed line or a call
    of [bot.join]. *)
Definition is_log_or_join (e : Effect) : bool :=
  match e with
  | ConsoleLog _ | BotJoin _ => true
  | _ => false
  end.

(** The channels of the [bot.join] calls of a trace, in their order. *)
Definition joined (t : list Effect) : list string :=
  flat_map (fun e => match e with BotJoin channel => [channel] | _ => [] end)
           t.

(** The elements of a list in the order of their first occurrence. *)
Fixpoint first_occurrences (l : list string) : list string :=
  match l with
  | [] => []
  | x :: rest => x :: filter (fun y => negb (y =? x)) (first_occurrences rest)
  end.

(* ================================================================= *)
(** * Properties *)

(** ** Numbers in template literals *)

(** An integer below 2^53 is printed with its decimal digits. *)
Lemma show_number_decimal (n : Z) :
  0 <= n < 2 ^ 53 -> show_number n = decimal n.
Proof.
  intros [Hlow Hhigh]. unfold show_number, show_positive, double_of.
  destruct (Z.ltb_spec n 0) as [|_]; [lia|].
  destruct (Z.ltb_spec n (2 ^ 53)) as [_|]; [|lia].
  destruct (Z.leb_spec (2 ^ 1024) n) as [Hbig|_].
  - exfalso.
    assert (2 ^ 53 < 2 ^ 1024) by (apply Z.pow_lt_mono_r; lia). lia.
  - destruct (Z.ltb_spec n (2 ^ 53)) as [_|]; [reflexivity | lia].
Qed.

(** Beyond 2^53 a number holds the nearest integer that has 53 significant
    bits, and is printed with the fewest digits that read back as it, in
    exponent notation from 10^21. *)
Example show_number_of_doubles :
  map show_number
    [ 0; 15; -15; 2 ^ 53 - 1; 2 ^ 53; 2 ^ 53 + 1; 2 ^ 53 + 2; 2 ^ 60; 2 ^ 64;
      10 ^ 21 - 1; 10 ^ 21; 2 ^ 70; 10 ^ 23; 2 ^ 1023; 2 ^ 1024 ]
  = [ "0"; "15"; "-15"; "9007199254740991"; "9007199254740992";
      "9007199254740992"; "9007199254740994"; "1152921504606847000";
      "18446744073709552000"; "1e+21"; "1e+21"; "1.1805916207174113e+21";
      "1e+23"; "8.98846567431158e+307"; "Infinity" ].
Proof.
  vm_compute. reflexivity.
Qed.

(** ** Strings *)

Lemma append_assoc (a b c : string) : (a ++ b) ++ c = a ++ b ++ c.
Proof.
  induction a as [|x a IH]; simpl; [reflexivity|].
  now rewrite IH.
Qed.

Lemma after_app (p q r : string) : after (p ++ q) (p ++ r) = after q r.
Proof.
  induction p as [|x p IH]; simpl; [reflexivity|].
  now rewrite Ascii.eqb_refl.
Qed.

Lemma after_msg (channel msg : string) :
  after ("/msg " ++ channel ++ " ") ("/msg " ++ channel ++ " " ++ msg)
  = Some msg.
Proof.
  rewrite !after_app. reflexivity.
Qed.

(** ** Traces *)

Lemma bind_return {A B} (r : Run A) (k : A -> Run B) (a : A) :
  outcome r = Return a ->
  bind r k = ((trace r ++ trace (k a))%list, outcome (k a)).
Proof.
  intros H. unfold bind. now rewrite H.
Qed.

Lemma bind_throw {A B} (r : Run A) (k : A -> Run B) (e : Exception) :
  outcome r = Throw e -> bind r k = (trace r, Throw e).
Proof.
  intros H. unfold bind. now rewrite H.
Qed.

Lemma say_run (onlyCommands : bool) (channel msg : string) :
  say onlyCommands channel msg = (said onlyCommands channel [msg], Return tt).
Proof.
  destruct onlyCommands; reflexivity.
Qed.

Lemma said_app (onlyCommands : bool) (channel : string) (l1 l2 : list string) :
  said onlyCommands channel (l1 ++ l2)
  = (said onlyCommands channel l1 ++ said onlyCommands channel l2)%list.
Proof.
  unfold said. now rewrite flat_map_app.
Qed.

Lemma filter_says_said (onlyCommands : bool) (channel : string)
    (p : string -> bool) (msgs : list string) :
  filter (says channel p) (said onlyCommands channel msgs)
  = said onlyCommands channel (filter p msgs).
Proof.
  induction msgs as [|msg msgs IH]; [reflexivity|].
  change (said onlyCommands channel (msg :: msgs))
    with (printed_and_sent onlyCommands ("/msg " ++ channel ++ " " ++ msg)
            (BotSay channel msg) ++ said onlyCommands channel msgs)%list.
  rewrite filter_app, IH. f_equal.
  unfold printed_and_sent.
  cbn [filter says]. rewrite after_msg.
  destruct onlyCommands; cbn [filter says];
    rewrite ?String.eqb_refl; cbn [andb]; destruct (p msg); reflexivity.
Qed.

Lemma existsb_says_said (onlyCommands : bool) (channel : string)
    (p : string -> bool) (msgs : list string) :
  existsb (says channel p) (said onlyCommands channel msgs) = existsb p msgs.
Proof.
  induction msgs as [|msg msgs IH]; [reflexivity|].
  change (said onlyCommands channel (msg :: msgs))
    with (printed_and_sent onlyCommands ("/msg " ++ channel ++ " " ++ msg)
            (BotSay channel msg) ++ said onlyCommands channel msgs)%list.
  rewrite existsb_app, IH. cbn [existsb]. f_equal.
  unfold printed_and_sent.
  cbn [existsb says]. rewrite after_msg.
  destruct onlyCommands; cbn [existsb says];
    rewrite ?String.eqb_refl; cbn [andb]; destruct (p msg); reflexivity.
Qed.

(** The effects of [sendChannelBotCommands] when RRSAgent joins the
    channel of [session]. *)
Lemma rrsagent_joined (todoStrings : list string) (project : Project.t)
    (onlyCommands dismissBots : bool) (sessions : list Session.t)
    (channel : string) (session : Session.t) :
  find (fun s => channel =? getChannel s) sessions = Some session ->
  let description := Session.description session in
  let materials := Description.materials description in
  sendChannelBotCommands todoStrings project onlyCommands dismissBots
    sessions channel "RRSAgent"
  = ((said onlyCommands channel
        ([ "RRSAgent, do not leave";
           ("RRSAgent, make logs " ++
              (if strict_eq "restricted" (Description.attendance description)
               then "member" else "public"))%string;
           ("Meeting: " ++ Session.title session)%string;
           ("Chair: " ++
              String.concat ", " (map Chair.name (Session.chairs session)))%string;
           (if truthy (Materials.agenda materials) &&
               negb (includes todoStrings (Materials.agenda materials))
            then "Agenda: " ++ show (Materials.agenda materials)
            else "Agenda: https://github.com/" ++ Session.repository session
                 ++ "/issues/" ++ show_number (Session.number session))%string ]
         ++ (if truthy (Materials.slides materials) &&
                negb (includes todoStrings (Materials.slides materials))
             then [("Slideset: " ++ show (Materials.slides materials))%string]
             else [])
         ++ [ "clear agenda";
              "agenda+ Pick a scribe";
              "agenda+ Reminders: code of conduct, health policies, recorded session policy";
              "agenda+ Goal of this session";
              "agenda+ Discussion";
              "agenda+ Next steps / where discussion continues" ])
      ++ (if onlyCommands then [] else [BotPart channel]))%list,
     Return tt).
Proof.
  intros Hfind description materials.
  unfold sendChannelBotCommands. rewrite Hfind.
  fold description. fold materials.
  change ("RRSAgent" =? botName) with false.
  change ("RRSAgent" =? "RRSAgent") with true.
  cbv iota.
  destruct (truthy (Materials.agenda materials) &&
            negb (includes todoStrings (Materials.agenda materials)));
  destruct (truthy (Materials.slides materials) &&
            negb (includes todoStrings (Materials.slides materials)));
  destruct onlyCommands; reflexivity.
Qed.

Lemma filter_says_part (onlyCommands : bool) (channel : string)
    (p : string -> bool) :
  filter (says channel p) (if onlyCommands then [] else [BotPart channel])
  = [].
Proof.
  destruct onlyCommands; reflexivity.
Qed.

Lemma strict_eq_true (a : string) (v : option string) :
  strict_eq a v = true <-> v = Some a.
Proof.
  destruct v as [b|]; simpl.
  - rewrite String.eqb_eq. split; congruence.
  - split; discriminate.
Qed.

Lemma includes_true (array : list string) (s : string) :
  includes array (Some s) = true <-> In s array.
Proof.
  simpl. rewrite existsb_exists. split.
  - intros (x & Hin & Heq). apply String.eqb_eq in Heq. now subst.
  - intros Hin. exists s. split; [assumption | apply String.eqb_refl].
Qed.

Lemma truthy_true (v : option string) :
  truthy v = true <-> exists s, v = Some s /\ s <> "".
Proof.
  destruct v as [s|]; simpl.
  - rewrite negb_true_iff, String.eqb_neq. split.
    + intros H. now exists s.
    + intros (s' & [= <-] & H). assumption.
  - split; [discriminate | intros (s & [=] & _)].
Qed.

(** The messages of the RRSAgent sequence that start with [label], for
    the labels that one message of the sequence at most carries. *)
Ltac rrsagent_messages Hfind :=
  rewrite (rrsagent_joined _ _ _ _ _ _ _ Hfind);
  cbn [trace fst]; unfold announces;
  rewrite filter_app, filter_says_part, app_nil_r, filter_says_said;
  rewrite !filter_app.

(** C9. The log-visibility command that RRSAgent receives says "member"
    exactly when the attendance of the session's description is
    "restricted", and "public" in every other case (also when the
    attendance is undefined); it is the only "make logs" command of the
    sequence. *)
Theorem log_visibility_command (todoStrings : list string)
    (project : Project.t) (onlyCommands dismissBots : bool)
    (sessions : list Session.t) (channel : string) (session : Session.t) :
  find (fun s => channel =? getChannel s) sessions = Some session ->
  let attendance := Description.attendance (Session.description session) in
  let commands :=
    filter (announces channel "RRSAgent, make logs ")
      (trace (sendChannelBotCommands todoStrings project onlyCommands
                dismissBots sessions channel "RRSAgent")) in
  (attendance = Some "restricted" ->
   commands = printed_and_sent onlyCommands
                ("/msg " ++ channel ++ " RRSAgent, make logs member")
                (BotSay channel "RRSAgent, make logs member"))
  /\
  (attendance <> Some "restricted" ->
   commands = printed_and_sent onlyCommands
                ("/msg " ++ channel ++ " RRSAgent, make logs public")
                (BotSay channel "RRSAgent, make logs public")).
Proof.
  intros Hfind attendance commands. subst commands.
  rrsagent_messages Hfind.
  fold attendance.
  assert (Hslides : forall b : bool, forall link : string,
    filter (fun msg => startsWith msg "RRSAgent, make logs ")
      (if b then [("Slideset: " ++ link)%string] else []) = []).
  { intros [|] link; reflexivity. }
  rewrite Hslides.
  match goal with
  | |- context [if ?c then ("Agenda: " ++ ?a)%string else ?b] =>
      destruct c
  end;
  (split; intros Hatt;
   [ rewrite Hatt; destruct onlyCommands; reflexivity
   | assert (Hne : strict_eq "restricted" attendance = false)
       by (apply not_true_is_false; now rewrite strict_eq_true);
     rewrite Hne; destruct onlyCommands; reflexivity ]).
Qed.

(** The test that guards the use of a link of the materials. *)
Lemma usable_link (todoStrings : list string) (v : option string) :
  truthy v && negb (includes todoStrings v) = true
  <-> exists link, v = Some link /\ link <> "" /\ ~ In link todoStrings.
Proof.
  rewrite andb_true_iff, truthy_true, negb_true_iff. split.
  - intros ((link & -> & Hne) & Hnot). exists link. repeat split; trivial.
    intros Hin. apply includes_true in Hin. congruence.
  - intros (link & -> & Hne & Hnot). split; [now exists link|].
    apply not_true_is_false. now rewrite includes_true.
Qed.

Lemma printed_and_sent_not_nil (onlyCommands : bool) (line : string)
    (call : Effect) :
  printed_and_sent onlyCommands line call <> [].
Proof.
  discriminate.
Qed.

(** C3. Among the messages that RRSAgent's arrival triggers, exactly one
    announces the agenda. When the agenda of the materials is absent
    (undefined or the empty string) or is one of the placeholder strings,
    it announces https://github.com/<repository>/issues/<number>; when the
    agenda is a non-empty string that is no placeholder, it announces this
    string as it is. *)
Theorem agenda_link_selection (todoStrings : list string)
    (project : Project.t) (onlyCommands dismissBots : bool)
    (sessions : list Session.t) (channel : string) (session : Session.t) :
  find (fun s => channel =? getChannel s) sessions = Some session ->
  let agenda :=
    Materials.agenda (Description.materials (Session.description session)) in
  let announced :=
    filter (announces channel "Agenda: ")
      (trace (sendChannelBotCommands todoStrings project onlyCommands
                dismissBots sessions channel "RRSAgent")) in
  ((agenda = None \/ agenda = Some "" \/
    exists marker, agenda = Some marker /\ In marker todoStrings) ->
   let url := "https://github.com/" ++ Session.repository session
              ++ "/issues/" ++ show_number (Session.number session) in
   announced = printed_and_sent onlyCommands
                 ("/msg " ++ channel ++ " Agenda: " ++ url)
                 (BotSay channel ("Agenda: " ++ url)))
  /\
  (forall link, agenda = Some link -> link <> "" -> ~ In link todoStrings ->
   announced = printed_and_sent onlyCommands
                 ("/msg " ++ channel ++ " Agenda: " ++ link)
                 (BotSay channel ("Agenda: " ++ link))).
Proof.
  intros Hfind agenda announced. subst announced.
  rrsagent_messages Hfind.
  fold agenda.
  assert (Hslides : forall b : bool, forall link : string,
    filter (fun msg => startsWith msg "Agenda: ")
      (if b then [("Slideset: " ++ link)%string] else []) = []).
  { intros [|] link; reflexivity. }
  rewrite Hslides.
  pose proof (usable_link todoStrings agenda) as Huse.
  destruct (truthy agenda && negb (includes todoStrings agenda)); split.
  - intros Habsent.
    destruct (proj1 Huse eq_refl) as (link & Hlink & Hne & Hnot).
    exfalso. destruct Habsent as [H | [H | (marker & H & Hin)]];
      rewrite H in Hlink; try discriminate; injection Hlink as <-; tauto.
  - intros link Hlink _ _. rewrite Hlink.
    destruct onlyCommands; reflexivity.
  - intros _. destruct onlyCommands; reflexivity.
  - intros link Hlink Hne Hnot.
    assert (false = true) by (apply Huse; now exists link).
    discriminate.
Qed.

(** C8. The messages that RRSAgent's arrival triggers announce a slide set
    if and only if the slides of the materials are a non-empty string that
    is no placeholder; the announcement carries this string as it is. *)
Theorem slideset_announcement (todoStrings : list string)
    (project : Project.t) (onlyCommands dismissBots : bool)
    (sessions : list Session.t) (channel : string) (session : Session.t) :
  find (fun s => channel =? getChannel s) sessions = Some session ->
  let slides :=
    Materials.slides (Description.materials (Session.description session)) in
  let announced :=
    filter (announces channel "Slideset: ")
      (trace (sendChannelBotCommands todoStrings project onlyCommands
                dismissBots sessions channel "RRSAgent")) in
  (announced <> [] <->
   exists link, slides = Some link /\ link <> "" /\ ~ In link todoStrings)
  /\
  (forall link, slides = Some link -> link <> "" -> ~ In link todoStrings ->
   announced = printed_and_sent onlyCommands
                 ("/msg " ++ channel ++ " Slideset: " ++ link)
                 (BotSay channel ("Slideset: " ++ link))).
Proof.
  intros Hfind slides announced. subst announced.
  rrsagent_messages Hfind.
  fold slides.
  pose proof (usable_link todoStrings slides) as Huse.
  match goal with
  | |- context [if ?c then ("Agenda: " ++ ?a)%string else ?b] =>
      destruct c
  end;
  repeat match goal with
  | |- context [filter ?f (?a :: ?l)] =>
      change (filter f (a :: l)) with (@nil string)
  end;
  cbn [app]; rewrite app_nil_r;
  (destruct (truthy slides && negb (includes todoStrings slides));
   (split;
    [ split;
      [ intros H; try (now apply Huse);
        exfalso; apply H; destruct onlyCommands; reflexivity
      | intros H; try (apply Huse in H; discriminate);
        destruct onlyCommands; discriminate ]
    | intros link Hlink Hne Hnot;
      try (assert (false = true) by (apply Huse; now exists link);
           discriminate);
      rewrite Hlink; destruct onlyCommands; reflexivity ])).
Qed.

(** ** The branches of [sendChannelBotCommands] *)

Lemma find_channel (sessions : list Session.t) (channel : string)
    (session : Session.t) :
  find (fun s => channel =? getChannel s) sessions = Some session ->
  In session sessions /\ getChannel session = channel.
Proof.
  intros H. apply find_some in H as [Hin Heq].
  apply String.eqb_eq in Heq. now split.
Qed.

Lemma find_none_all {A} (f : A -> bool) (l : list A) :
  (forall x, In x l -> f x = false) -> find f l = None.
Proof.
  induction l as [|x l IH]; intros H; simpl; [reflexivity|].
  rewrite (H x (or_introl eq_refl)). apply IH.
  intros y Hy. apply H. now right.
Qed.

Lemma no_session (todoStrings : list string) (project : Project.t)
    (onlyCommands dismissBots : bool) (sessions : list Session.t)
    (channel nick : string) :
  find (fun s => channel =? getChannel s) sessions = None ->
  sendChannelBotCommands todoStrings project onlyCommands dismissBots
    sessions channel nick = ([], Return tt).
Proof.
  intros H. unfold sendChannelBotCommands. now rewrite H.
Qed.

Lemma other_nick_joined (todoStrings : list string) (project : Project.t)
    (onlyCommands dismissBots : bool) (sessions : list Session.t)
    (channel nick : string) :
  nick <> botName -> nick <> "RRSAgent" ->
  sendChannelBotCommands todoStrings project onlyCommands dismissBots
    sessions channel nick = ([], Return tt).
Proof.
  intros Hbot Hrrs. unfold sendChannelBotCommands.
  apply String.eqb_neq in Hbot, Hrrs. rewrite Hbot, Hrrs.
  destruct (find _ sessions); [|reflexivity].
  destruct (nick =? "Zakim"); reflexivity.
Qed.

Lemma setTopic_run (project : Project.t) (onlyCommands : bool)
    (session : Session.t) :
  exists topic,
    setTopic project onlyCommands session
    = (printed_and_sent onlyCommands
         ("/topic " ++ getChannel session ++ " " ++ topic)
         (BotSend "TOPIC" [getChannel session; topic]),
       Return tt).
Proof.
  unfold setTopic. eexists. destruct onlyCommands; reflexivity.
Qed.

Lemma inviteBot_run (onlyCommands : bool) (session : Session.t)
    (name : string) :
  inviteBot onlyCommands session name
  = (printed_and_sent onlyCommands
       ("/invite " ++ name ++ " " ++ getChannel session)
       (BotSend "INVITE" [name; getChannel session]),
     Return tt).
Proof.
  destruct onlyCommands; reflexivity.
Qed.

Lemma driving_bot_dismiss (todoStrings : list string) (project : Project.t)
    (onlyCommands : bool) (sessions : list Session.t)
    (channel : string) (session : Session.t) :
  find (fun s => channel =? getChannel s) sessions = Some session ->
  sendChannelBotCommands todoStrings project onlyCommands true
    sessions channel botName
  = ((said onlyCommands channel
        ["RRSAgent, draft minutes"; "RRSAgent, bye"; "Zakim, bye"]
      ++ (if onlyCommands then [] else [BotPart channel]))%list,
     Return tt).
Proof.
  intros Hfind. unfold sendChannelBotCommands. rewrite Hfind.
  change (botName =? botName) with true.
  destruct onlyCommands; reflexivity.
Qed.

Lemma driving_bot_setup (todoStrings : list string) (project : Project.t)
    (onlyCommands : bool) (sessions : list Session.t)
    (channel : string) (session : Session.t) :
  find (fun s => channel =? getChannel s) sessions = Some session ->
  sendChannelBotCommands todoStrings project onlyCommands false
    sessions channel botName
  = ((trace (setTopic project onlyCommands session)
      ++ trace (inviteBot onlyCommands session "Zakim")
      ++ trace (inviteBot onlyCommands session "RRSAgent"))%list,
     Return tt).
Proof.
  intros Hfind. unfold sendChannelBotCommands. rewrite Hfind.
  change (botName =? botName) with true. cbv iota.
  destruct (setTopic_run project onlyCommands session) as [topic Htopic].
  rewrite Htopic, !inviteBot_run.
  destruct onlyCommands; reflexivity.
Qed.

(** [sendChannelBotCommands] throws in no case. *)
Lemma sendChannelBotCommands_returns (todoStrings : list string)
    (project : Project.t) (onlyCommands dismissBots : bool)
    (sessions : list Session.t) (channel nick : string) :
  outcome (sendChannelBotCommands todoStrings project onlyCommands
             dismissBots sessions channel nick) = Return tt.
Proof.
  destruct (find (fun s => channel =? getChannel s) sessions)
    as [session|] eqn:Hfind.
  2: now rewrite no_session.
  destruct (String.eqb_spec nick botName) as [->|Hbot].
  - destruct dismissBots.
    + now rewrite (driving_bot_dismiss _ _ _ _ _ _ Hfind).
    + now rewrite (driving_bot_setup _ _ _ _ _ _ Hfind).
  - destruct (String.eqb_spec nick "RRSAgent") as [->|Hrrs].
    + now rewrite (rrsagent_joined _ _ _ _ _ _ _ Hfind).
    + now rewrite other_nick_joined.
Qed.

(** C10. The topic that [setTopic] sets reads
    "TPAC breakout: <title> - <slot>" when no room of the project has the
    name of the session's room, and
    "TPAC breakout: <title> - <room label> - <slot>" when [find] returns a
    room; in both cases the topic command is printed and, in a live run,
    sent. *)
Theorem topic_room_label (project : Project.t) (onlyCommands : bool)
    (session : Session.t) :
  let channel := getChannel session in
  let title := Session.title session in
  let slot := show (Session.slot session) in
  ((forall r, In r (Project.rooms project) ->
              Some (Room.name r) <> Session.room session) ->
   let topic := "TPAC breakout: " ++ title ++ " - " ++ slot in
   setTopic project onlyCommands session
   = (printed_and_sent onlyCommands ("/topic " ++ channel ++ " " ++ topic)
        (BotSend "TOPIC" [channel; topic]),
      Return tt))
  /\
  (forall room,
     find (fun r => strict_eq (Room.name r) (Session.room session))
          (Project.rooms project) = Some room ->
     let topic := "TPAC breakout: " ++ title ++ " - " ++ Room.label room
                  ++ " - " ++ slot in
     setTopic project onlyCommands session
     = (printed_and_sent onlyCommands ("/topic " ++ channel ++ " " ++ topic)
          (BotSend "TOPIC" [channel; topic]),
        Return tt)).
Proof.
  intros channel title slot. split.
  - intros Hnone topic.
    assert (Hfind :
      find (fun r => strict_eq (Room.name r) (Session.room session))
           (Project.rooms project) = None).
    { apply find_none_all. intros r Hr. apply not_true_is_false.
      rewrite strict_eq_true. intros Heq. now apply (Hnone r Hr). }
    unfold setTopic. rewrite Hfind.
    destruct onlyCommands; reflexivity.
  - intros room Hfind topic.
    unfold setTopic. rewrite Hfind.
    assert (Hlabel : forall rest : string,
      ("- " ++ Room.label room ++ " ") ++ rest
      = "- " ++ Room.label room ++ " " ++ rest).
    { intros rest. now rewrite !append_assoc. }
    rewrite Hlabel.
    destruct onlyCommands; reflexivity.
Qed.

Lemma topic_room_label_witness :
  setTopic Sample.project true Sample.s7
  = ([ConsoleLog "/topic #fonts TPAC breakout: Fonts - 14:00 - 15:00"],
     Return tt)
  /\
  setTopic Sample.project false Sample.s15
  = ([ConsoleLog
        "/topic #wot TPAC breakout: Web of Things - Room A (1st floor) - 11:00 - 12:00";
      BotSend "TOPIC"
        ["#wot";
         "TPAC breakout: Web of Things - Room A (1st floor) - 11:00 - 12:00"]],
     Return tt).
Proof.
  split.
  - apply (proj1 (topic_room_label Sample.project true Sample.s7)).
    intros r [<- | [<- | []]]; discriminate.
  - apply (proj2 (topic_room_label Sample.project false Sample.s15)
             (Room.mk "Room A" "Room A (1st floor)")).
    reflexivity.
Defined.

(** C1 (as the code has it). When the driving bot joins the channel of a
    representative session and dismiss mode is off, the effects are, in
    this order: the topic command, the invitation of Zakim, the invitation
    of RRSAgent. No invitation of RRSAgent comes before an invitation of
    Zakim. *)
Theorem driving_bot_setup_order (todoStrings : list string)
    (project : Project.t) (onlyCommands : bool)
    (sessions : list Session.t) (channel : string) (session : Session.t) :
  find (fun s => channel =? getChannel s) sessions = Some session ->
  let run :=
    sendChannelBotCommands todoStrings project onlyCommands false
      sessions channel botName in
  (exists topic,
     setTopic project onlyCommands session
     = (printed_and_sent onlyCommands ("/topic " ++ channel ++ " " ++ topic)
          (BotSend "TOPIC" [channel; topic]), Return tt)
     /\
     run
     = ((printed_and_sent onlyCommands ("/topic " ++ channel ++ " " ++ topic)
           (BotSend "TOPIC" [channel; topic])
         ++ printed_and_sent onlyCommands ("/invite Zakim " ++ channel)
              (BotSend "INVITE" ["Zakim"; channel])
         ++ printed_and_sent onlyCommands ("/invite RRSAgent " ++ channel)
              (BotSend "INVITE" ["RRSAgent"; channel]))%list,
        Return tt))
  /\ before is_topic (is_invite_of "Zakim" channel) (trace run) = true
  /\ before (is_invite_of "Zakim" channel) (is_invite_of "RRSAgent" channel)
       (trace run) = true
  /\ before (is_invite_of "RRSAgent" channel) (is_invite_of "Zakim" channel)
       (trace run) = false.
Proof.
  intros Hfind run. subst run.
  rewrite (driving_bot_setup _ _ _ _ _ _ Hfind).
  destruct (find_channel _ _ _ Hfind) as [_ Hchannel].
  destruct (setTopic_run project onlyCommands session) as [topic Htopic].
  rewrite Htopic, !inviteBot_run, Hchannel. cbn [trace fst].
  assert (Hz : ("/invite Zakim " ++ channel =? "/invite Zakim " ++ channel)
               = true) by apply String.eqb_refl.
  assert (Hr : ("/invite RRSAgent " ++ channel
                =? "/invite RRSAgent " ++ channel) = true)
    by apply String.eqb_refl.
  assert (Hc : (channel =? channel) = true) by apply String.eqb_refl.
  split; [exists topic; split; reflexivity|].
  destruct onlyCommands;
    cbn [before existsb printed_and_sent app is_topic is_invite_of andb orb];
    change ("/invite " ++ "Zakim" ++ " " ++ channel)
      with ("/invite Zakim " ++ channel);
    change ("/invite " ++ "RRSAgent" ++ " " ++ channel)
      with ("/invite RRSAgent " ++ channel);
    rewrite ?Hz, ?Hr, ?Hc;
    repeat split; reflexivity.
Qed.

Lemma driving_bot_setup_order_witness :
  before (is_invite_of "Zakim" "#wot") (is_invite_of "RRSAgent" "#wot")
    (trace (sendChannelBotCommands Sample.todoStrings Sample.project false
              false [Sample.s7; Sample.s31] "#wot" botName)) = true.
Proof.
  apply (driving_bot_setup_order Sample.todoStrings Sample.project false
           [Sample.s7; Sample.s31] "#wot" Sample.s31).
  reflexivity.
Defined.

(** C1 as stated fails: in the dry run of the sample project the driving
    bot prints the topic, then the invitation of Zakim, then the invitation
    of RRSAgent, which is not the order topic, RRSAgent, Zakim. *)
Lemma rrsagent_invited_after_zakim :
  let t :=
    trace (sendChannelBotCommands Sample.todoStrings Sample.project true
             false [Sample.s7; Sample.s31] "#wot" botName) in
  t = [ ConsoleLog
          "/topic #wot TPAC breakout: Late addition - Room B - 18:00 - 19:00";
        ConsoleLog "/invite Zakim #wot";
        ConsoleLog "/invite RRSAgent #wot" ]
  /\ t <> [ ConsoleLog
              "/topic #wot TPAC breakout: Late addition - Room B - 18:00 - 19:00";
            ConsoleLog "/invite RRSAgent #wot";
            ConsoleLog "/invite Zakim #wot" ]
  /\ before (is_invite_of "RRSAgent" "#wot") (is_invite_of "Zakim" "#wot") t
     = false.
Proof.
  repeat split; try reflexivity.
  intros H. vm_compute in H. discriminate H.
Qed.

(** ** Effects of the two modes *)

Lemma existsb_said (q : Effect -> bool) (onlyCommands : bool)
    (channel : string) (msgs : list string) :
  (forall rest, q (ConsoleLog ("/msg " ++ rest)) = false) ->
  (forall c msg, q (BotSay c msg) = false) ->
  existsb q (said onlyCommands channel msgs) = false.
Proof.
  intros Hlog Hsay. induction msgs as [|msg msgs IH]; [reflexivity|].
  change (said onlyCommands channel (msg :: msgs))
    with (printed_and_sent onlyCommands ("/msg " ++ channel ++ " " ++ msg)
            (BotSay channel msg) ++ said onlyCommands channel msgs)%list.
  rewrite existsb_app, IH. unfold printed_and_sent.
  destruct onlyCommands; cbn [existsb]; now rewrite Hlog, ?Hsay.
Qed.

Lemma is_topic_said (onlyCommands : bool) (channel : string)
    (msgs : list string) :
  existsb is_topic (said onlyCommands channel msgs) = false.
Proof.
  apply existsb_said; reflexivity.
Qed.

Lemma is_invite_said (onlyCommands : bool) (channel : string)
    (msgs : list string) :
  existsb is_invite (said onlyCommands channel msgs) = false.
Proof.
  apply existsb_said; reflexivity.
Qed.

Lemma setup_effects (project : Project.t) (onlyCommands : bool)
    (session : Session.t) :
  let t := (trace (setTopic project onlyCommands session)
            ++ trace (inviteBot onlyCommands session "Zakim")
            ++ trace (inviteBot onlyCommands session "RRSAgent"))%list in
  forallb (fun e => is_topic e || is_invite e) t = true
  /\ forall channel p, existsb (says channel p) t = false.
Proof.
  destruct (setTopic_run project onlyCommands session) as [topic Htopic].
  rewrite Htopic, !inviteBot_run. cbn [trace fst].
  split; [|intros channel p]; destruct onlyCommands; reflexivity.
Qed.

Lemma rrsagent_effects (todoStrings : list string) (project : Project.t)
    (onlyCommands dismissBots : bool) (sessions : list Session.t)
    (channel : string) :
  let t := trace (sendChannelBotCommands todoStrings project onlyCommands
                    dismissBots sessions channel "RRSAgent") in
  existsb is_topic t = false /\ existsb is_invite t = false
  /\ existsb (is_draft_minutes channel) t = false
  /\ existsb (is_bye channel) t = false.
Proof.
  destruct (find (fun s => channel =? getChannel s) sessions)
    as [session|] eqn:Hfind.
  2: { rewrite no_session by assumption. repeat split. }
  rewrite (rrsagent_joined _ _ _ _ _ _ _ Hfind). cbn [trace fst].
  unfold is_draft_minutes, is_bye.
  rewrite !existsb_app, is_topic_said, is_invite_said, !existsb_says_said.
  match goal with
  | |- context [if ?c then ("Agenda: " ++ ?a)%string else ?b] =>
      destruct c
  end;
  match goal with
  | |- context [if ?c then [("Slideset: " ++ ?a)%string] else []] =>
      destruct c
  end;
  destruct onlyCommands; repeat split; reflexivity.
Qed.

Lemma msg_line_kind (rest line msg : string) :
  after ("/msg " ++ rest) line = Some msg ->
  startsWith line "/topic " = false /\ startsWith line "/invite " = false.
Proof.
  destruct line as [|a [|b line]]; [discriminate | |].
  - simpl. destruct (Ascii.eqb a "/"); discriminate.
  - simpl.
    destruct (Ascii.eqb_spec a "/") as [->|]; [|discriminate].
    destruct (Ascii.eqb_spec b "m") as [->|]; [|discriminate].
    intros _. split; reflexivity.
Qed.

(** C4. Whatever the channel, the sessions and the nick that joins: in
    dismiss mode [sendChannelBotCommands] neither sets a topic nor invites
    a bot, and outside of dismiss mode it sends neither "draft minutes"
    nor "bye" to the channel. The same holds for what the dry run prints
    for a session. No effect is both of the topic or invite kind and of
    the "draft minutes" or "bye" kind, and the effects of the driving
    bot's arrival in the two modes have no effect in common. *)
Theorem mode_specific_commands (todoStrings : list string)
    (project : Project.t) (onlyCommands : bool)
    (sessions : list Session.t) (channel nick : string) :
  let planner dismissBots nick :=
    trace (sendChannelBotCommands todoStrings project onlyCommands
             dismissBots sessions channel nick) in
  (existsb is_topic (planner true nick) = false
   /\ existsb is_invite (planner true nick) = false)
  /\
  (existsb (is_draft_minutes channel) (planner false nick) = false
   /\ existsb (is_bye channel) (planner false nick) = false)
  /\
  (forall session,
     let printed dismissBots :=
       trace (dryRunSession todoStrings project true dismissBots
                sessions session) in
     existsb is_topic (printed true) = false
     /\ existsb is_invite (printed true) = false
     /\ existsb (is_draft_minutes (getChannel session)) (printed false) = false
     /\ existsb (is_bye (getChannel session)) (printed false) = false)
  /\
  (forall e c,
     (is_topic e || is_invite e) && (is_draft_minutes c e || is_bye c e)
     = false)
  /\
  (forall e, In e (planner true botName) -> ~ In e (planner false botName)).
Proof.
  intros planner.
  assert (Hdismiss : forall onlyCommands ch,
    let t := trace (sendChannelBotCommands todoStrings project onlyCommands
                      true sessions ch botName) in
    existsb is_topic t = false /\ existsb is_invite t = false).
  { clear. intros onlyCommands ch.
    destruct (find (fun s => ch =? getChannel s) sessions)
      as [session|] eqn:Hfind.
    - rewrite (driving_bot_dismiss _ _ _ _ _ _ Hfind). cbn [trace fst].
      rewrite !existsb_app, is_topic_said, is_invite_said.
      destruct onlyCommands; split; reflexivity.
    - rewrite no_session by assumption. split; reflexivity. }
  assert (Hsetup : forall onlyCommands ch,
    let t := trace (sendChannelBotCommands todoStrings project onlyCommands
                      false sessions ch botName) in
    forallb (fun e => is_topic e || is_invite e) t = true
    /\ existsb (is_draft_minutes ch) t = false
    /\ existsb (is_bye ch) t = false).
  { clear. intros onlyCommands ch.
    destruct (find (fun s => ch =? getChannel s) sessions)
      as [session|] eqn:Hfind.
    - rewrite (driving_bot_setup _ _ _ _ _ _ Hfind). cbn [trace fst].
      destruct (setup_effects project onlyCommands session) as [Hall Hsays].
      repeat split; [exact Hall | apply Hsays | apply Hsays].
    - rewrite no_session by assumption. repeat split. }
  assert (Hplanner : forall d ch n,
    let t := trace (sendChannelBotCommands todoStrings project onlyCommands
                      d sessions ch n) in
    (d = true -> existsb is_topic t = false /\ existsb is_invite t = false)
    /\ (d = false -> existsb (is_draft_minutes ch) t = false
                     /\ existsb (is_bye ch) t = false)).
  { intros d ch n.
    destruct (String.eqb_spec n botName) as [->|Hbot].
    - split; intros ->; [apply Hdismiss | apply Hsetup].
    - destruct (String.eqb_spec n "RRSAgent") as [->|Hrrs].
      + pose proof (rrsagent_effects todoStrings project onlyCommands d
                      sessions ch) as H.
        cbv zeta in *. tauto.
      + rewrite other_nick_joined by assumption. repeat split. }
  split; [apply (Hplanner true channel nick); reflexivity|].
  split; [apply (Hplanner false channel nick); reflexivity|].
  split; [|split].
  - intros session printed. subst printed. clear planner Hplanner.
    unfold dryRunSession, send_commands.
    repeat (rewrite (bind_return _ _ tt)
              by (reflexivity || apply sendChannelBotCommands_returns)).
    cbn [trace fst negb].
    repeat rewrite (bind_return _ _ tt)
      by (reflexivity || apply sendChannelBotCommands_returns).
    cbn [trace fst negb].
    rewrite !existsb_app.
    destruct (Hdismiss true (getChannel session)) as [-> ->].
    destruct (Hsetup true (getChannel session)) as (_ & -> & ->).
    pose proof (rrsagent_effects todoStrings project true false sessions
                  (getChannel session)) as (_ & _ & -> & ->).
    repeat split; reflexivity.
  - intros e c. destruct e as [line| | |command args| | | |];
      try reflexivity.
    + unfold is_draft_minutes, is_bye, says. cbn [is_topic is_invite].
      destruct (after ("/msg " ++ c ++ " ") line) as [msg|] eqn:Hmsg.
      * destruct (msg_line_kind _ _ _ Hmsg) as [-> ->]. reflexivity.
      * apply andb_false_r.
    + cbn [is_draft_minutes is_bye says]. unfold is_draft_minutes, is_bye.
      cbn [says orb]. apply andb_false_r.
  - intros e Hd Hs.
    destruct (Hdismiss onlyCommands channel) as [Ht Hi].
    destruct (Hsetup onlyCommands channel) as (Hall & _).
    rewrite forallb_forall in Hall. specialize (Hall e Hs).
    assert (Hnt : is_topic e = false).
    { apply not_true_is_false. intros H.
      assert (existsb is_topic (planner true botName) = true)
        by (apply existsb_exists; now exists e).
      subst planner. cbv beta in *. congruence. }
    assert (Hni : is_invite e = false).
    { apply not_true_is_false. intros H.
      assert (existsb is_invite (planner true botName) = true)
        by (apply existsb_exists; now exists e).
      subst planner. cbv beta in *. congruence. }
    rewrite Hnt, Hni in Hall. discriminate.
Qed.

Lemma mode_specific_commands_witness :
  ~ In (ConsoleLog "/msg #wot RRSAgent, bye")
       (trace (sendChannelBotCommands Sample.todoStrings Sample.project true
                 false [Sample.s7; Sample.s31] "#wot" botName)).
Proof.
  apply (mode_specific_commands Sample.todoStrings Sample.project true
           [Sample.s7; Sample.s31] "#wot" botName).
  right. left. reflexivity.
Defined.

Lemma log_visibility_command_witness :
  filter (announces "#wot" "RRSAgent, make logs ")
    (trace (sendChannelBotCommands Sample.todoStrings Sample.project true
              false [Sample.s15] "#wot" "RRSAgent"))
  = [ConsoleLog "/msg #wot RRSAgent, make logs member"]
  /\
  filter (announces "#fonts" "RRSAgent, make logs ")
    (trace (sendChannelBotCommands Sample.todoStrings Sample.project false
              false [Sample.s7] "#fonts" "RRSAgent"))
  = [ConsoleLog "/msg #fonts RRSAgent, make logs public";
     BotSay "#fonts" "RRSAgent, make logs public"].
Proof.
  split.
  - apply (proj1 (log_visibility_command Sample.todoStrings Sample.project
                    true false [Sample.s15] "#wot" Sample.s15 eq_refl)).
    reflexivity.
  - apply (proj2 (log_visibility_command Sample.todoStrings Sample.project
                    false false [Sample.s7] "#fonts" Sample.s7 eq_refl)).
    discriminate.
Defined.

Lemma agenda_link_selection_witness :
  filter (announces "#wot" "Agenda: ")
    (trace (sendChannelBotCommands Sample.todoStrings Sample.project true
              false [Sample.s22] "#wot" "RRSAgent"))
  = [ConsoleLog
       "/msg #wot Agenda: https://github.com/w3c/tpac-breakouts/issues/22"]
  /\
  filter (announces "#wot" "Agenda: ")
    (trace (sendChannelBotCommands Sample.todoStrings Sample.project true
              false [Sample.s15] "#wot" "RRSAgent"))
  = [ConsoleLog "/msg #wot Agenda: https://example.org/agenda"].
Proof.
  split.
  - apply (proj1 (agenda_link_selection Sample.todoStrings Sample.project
                    true false [Sample.s22] "#wot" Sample.s22 eq_refl)).
    right. right. exists "TBD". split; [reflexivity | left; reflexivity].
  - apply (proj2 (agenda_link_selection Sample.todoStrings Sample.project
                    true false [Sample.s15] "#wot" Sample.s15 eq_refl)
             "https://example.org/agenda").
    + reflexivity.
    + discriminate.
    + intros [H | [H | [H | []]]]; discriminate.
Defined.

Lemma slideset_announcement_witness :
  filter (announces "#wot" "Slideset: ")
    (trace (sendChannelBotCommands Sample.todoStrings Sample.project true
              false [Sample.s15] "#wot" "RRSAgent"))
  = [ConsoleLog "/msg #wot Slideset: https://example.org/slides"].
Proof.
  apply (proj2 (slideset_announcement Sample.todoStrings Sample.project
                  true false [Sample.s15] "#wot" Sample.s15 eq_refl)
           "https://example.org/slides").
  - reflexivity.
  - discriminate.
  - intros [H | [H | [H | []]]]; discriminate.
Defined.

(** ** The listener of [error] *)




(** ** The stable sort *)

Section SortFacts.
Context {A : Type} (key : A -> Z).

Local Abbreviation ordered := (StronglySorted (fun a b => key a <= key b)).

Lemma insert_by_perm (x : A) (l : list A) :
  Permutation (insert_by key x l) (x :: l).
Proof.
  induction l as [|y l IH]; simpl; [reflexivity|].
  destruct (key y <=? key x)%Z; [|reflexivity].
  rewrite IH. apply perm_swap.
Qed.

Lemma sort_from_perm (l acc : list A) :
  Permutation (fold_left (fun sorted x => insert_by key x sorted) l acc)
              (acc ++ l).
Proof.
  revert acc. induction l as [|x l IH]; intros acc; simpl.
  - now rewrite app_nil_r.
  - rewrite IH, insert_by_perm. apply Permutation_middle.
Qed.

Lemma sort_by_perm (l : list A) : Permutation (sort_by key l) l.
Proof.
  apply (sort_from_perm l []).
Qed.

Lemma sort_by_In (l : list A) (x : A) : In x (sort_by key l) <-> In x l.
Proof.
  split; apply Permutation_in; [|symmetry]; apply sort_by_perm.
Qed.

Lemma sort_by_snoc (l : list A) (x : A) :
  sort_by key (l ++ [x]) = insert_by key x (sort_by key l).
Proof.
  unfold sort_by. now rewrite fold_left_app.
Qed.

Lemma insert_by_ordered (x : A) (l : list A) :
  ordered l -> ordered (insert_by key x l).
Proof.
  induction l as [|y l IH]; intros Hl; simpl.
  - repeat constructor.
  - apply StronglySorted_inv in Hl as [Hl Hy].
    destruct (key y <=? key x)%Z eqn:Hle.
    + constructor; [now apply IH|].
      apply Z.leb_le in Hle.
      rewrite Forall_forall in *. intros z Hz.
      apply (Permutation_in _ (insert_by_perm x l)) in Hz as [<- | Hz];
        [assumption | now apply Hy].
    + apply Z.leb_gt in Hle.
      constructor; [now constructor|].
      constructor; [lia|].
      rewrite Forall_forall in *. intros z Hz.
      specialize (Hy z Hz). lia.
Qed.

Lemma sort_by_ordered (l : list A) : ordered (sort_by key l).
Proof.
  unfold sort_by.
  assert (H : forall acc, ordered acc ->
    ordered (fold_left (fun sorted x => insert_by key x sorted) l acc)).
  { induction l as [|x l IH]; intros acc Hacc; simpl; [assumption|].
    apply IH. now apply insert_by_ordered. }
  apply H. constructor.
Qed.

Lemma insert_by_last (x : A) (l : list A) :
  Forall (fun y => key y <= key x) l -> insert_by key x l = (l ++ [x])%list.
Proof.
  induction 1 as [|y l Hy _ IH]; simpl; [reflexivity|].
  apply Z.leb_le in Hy. now rewrite Hy, IH.
Qed.

Lemma ordered_before (l1 l2 : list A) (x : A) :
  ordered (l1 ++ x :: l2) -> Forall (fun y => key y <= key x) l1.
Proof.
  induction l1 as [|y l1 IH]; simpl; intros H; [constructor|].
  apply StronglySorted_inv in H as [H Hy].
  constructor; [|now apply IH].
  rewrite Forall_forall in Hy. apply Hy, in_elt.
Qed.

Lemma sort_by_ordered_id (l : list A) : ordered l -> sort_by key l = l.
Proof.
  unfold sort_by.
  assert (H : forall acc, ordered (acc ++ l) ->
    fold_left (fun sorted x => insert_by key x sorted) l acc
    = (acc ++ l)%list).
  { induction l as [|x l IH]; intros acc Hacc; simpl.
    - now rewrite app_nil_r.
    - rewrite (insert_by_last x acc) by now apply ordered_before in Hacc.
      rewrite IH; rewrite <- app_assoc; [reflexivity | assumption]. }
  apply (H []).
Qed.

(** Sorting an array that was sorted before the push of [x]. *)
Lemma sort_by_push (l : list A) (x : A) :
  sort_by key (sort_by key l ++ [x]) = sort_by key (l ++ [x]).
Proof.
  rewrite !sort_by_snoc. f_equal.
  apply sort_by_ordered_id, sort_by_ordered.
Qed.

(** The first element of a sorted array has the least key. *)
Lemma sort_by_head (l : list A) (first : A) (rest : list A) :
  sort_by key l = first :: rest ->
  forall x, In x l -> key first <= key x.
Proof.
  intros Hsort x Hx.
  pose proof (sort_by_ordered l) as Hord. rewrite Hsort in Hord.
  apply StronglySorted_inv in Hord as [_ Hall].
  apply sort_by_In in Hx. rewrite Hsort in Hx.
  destruct Hx as [<- | Hx]; [lia|].
  rewrite Forall_forall in Hall. now apply Hall.
Qed.

End SortFacts.

(** ** Retrieval and validation *)

Lemma non_null_valid {A} (bad : A -> bool) (l : list A) :
  flat_map (fun s : option A => match s with Some a => [a] | None => [] end)
    (map (fun s => if bad s then None else Some s) l)
  = filter (fun s => negb (bad s)) l.
Proof.
  induction l as [|x l IH]; simpl; [reflexivity|].
  rewrite IH. destruct (bad x); reflexivity.
Qed.

Lemma has_errors_true (validateSession : Z -> Project.t -> list Finding.t)
    (project : Project.t) (session : Session.t) :
  has_errors validateSession project session = true
  <-> exists finding,
        In finding (validateSession (Session.number session) project)
        /\ Finding.severity finding = "error".
Proof.
  unfold has_errors.
  set (errors := filter _ _).
  assert (Hin : forall f, In f errors <->
    In f (validateSession (Session.number session) project)
    /\ Finding.severity f = "error").
  { intros f. unfold errors. rewrite filter_In, String.eqb_eq. reflexivity. }
  rewrite Nat.ltb_lt. split.
  - destruct errors as [|f errors]; simpl; [lia|].
    intros _. exists f. apply Hin. now left.
  - intros (f & Hf). apply Hin in Hf.
    destruct errors; [destruct Hf | simpl; lia].
Qed.

Lemma filter_none {A} (f : A -> bool) (l : list A) :
  (forall x, In x l -> f x = false) -> filter f l = [].
Proof.
  induction l as [|x l IH]; intros H; simpl; [reflexivity|].
  rewrite (H x (or_introl eq_refl)). apply IH.
  intros y Hy. apply H. now right.
Qed.

(** C5. A run that targets the session number [n]: when [validateSession]
    has a finding of severity "error" for [n], the retrieval throws an
    error whose message starts with "Session <n> "; when moreover a
    session [n] of the project is assigned to the requested slot, the
    message is "Session <n> contains errors that need fixing" and [main]
    ends with this error, in a dry run and in a live run. A run that targets all sessions throws nothing: it returns
    the candidate sessions that have no finding of severity "error", in
    the order of their numbers, and prints three lines, the second of
    which counts and lists the valid sessions. *)
Theorem validation_errors
    (validateSession : Z -> Project.t -> list Finding.t)
    (PROJECT_OWNER PROJECT_NUMBER : string) (project : Project.t)
    (slot : option string) :
  let retrieve :=
    retrieveSessions validateSession PROJECT_OWNER PROJECT_NUMBER project in
  let erroneous n :=
    exists finding, In finding (validateSession n project)
                    /\ Finding.severity finding = "error" in
  (forall n, n <> 0 -> erroneous n ->
     (exists detail,
        retrieve (Some n) slot
        = ([], Throw (Error ("Session " ++ show_number n ++ detail))))
     /\
     ((exists s, In s (Project.sessions project)
                 /\ selected (Some n) slot s = true) ->
      let fatal :=
        Error ("Session " ++ show_number n
               ++ " contains errors that need fixing") in
      retrieve (Some n) slot = ([], Throw fatal)
      /\
      forall todoStrings onlyCommands dismissBots events,
        main todoStrings validateSession PROJECT_OWNER PROJECT_NUMBER
          (Some project) (Args.mk (Some n) slot onlyCommands dismissBots)
          events
        = ([ ConsoleLog "";
             ConsoleLog ("Retrieve project "
                         ++ (PROJECT_OWNER ++ "/" ++ PROJECT_NUMBER)
                         ++ "...") ],
           Throw fatal)))
  /\
  (let candidates :=
     sort_by Session.number
       (filter (selected None slot) (Project.sessions project)) in
   let valid :=
     filter (fun s => negb (has_errors validateSession project s))
            candidates in
   outcome (retrieve None slot) = Return valid
   /\ (exists found,
         trace (retrieve None slot)
         = [ ConsoleLog found;
             ConsoleLog ("- found " ++ show_length valid
                         ++ " valid sessions among them: "
                         ++ numbers_of valid);
             ConsoleLog ("Retrieve project "
                         ++ (PROJECT_OWNER ++ "/" ++ PROJECT_NUMBER)
                         ++ " and session(s)... done") ])
   /\ (forall s, In s valid <->
                 In s (Project.sessions project)
                 /\ selected None slot s = true
                 /\ ~ erroneous (Session.number s))).
Proof.
  intros retrieve erroneous. split.
  - intros n Hn Herr. subst retrieve.
    assert (Htruthy : truthy_number (Some n) = true).
    { simpl. now apply negb_true_iff, Z.eqb_neq. }
    set (candidates :=
           sort_by Session.number
             (filter (selected (Some n) slot) (Project.sessions project))).
    assert (Hcand : forall s, In s candidates ->
      truthy (Session.slot s) = true /\ Session.number s = n).
    { intros s Hs. apply sort_by_In, filter_In in Hs as [_ Hs].
      unfold selected in Hs. rewrite Htruthy in Hs.
      apply andb_true_iff in Hs as [Hs _].
      apply andb_true_iff in Hs as [Hslot Hnum].
      split; [assumption|]. now apply Z.eqb_eq in Hnum. }
    assert (Hmem : forall s, In s (Project.sessions project) ->
      selected (Some n) slot s = true -> In s candidates).
    { intros s Hs Hsel. apply sort_by_In, filter_In. now split. }
    assert (Hvalid :
      filter (fun s => negb (has_errors validateSession project s))
             candidates = []).
    { apply filter_none. intros s Hs.
      apply negb_false_iff, has_errors_true.
      destruct (Hcand s Hs) as [_ ->]. exact Herr. }
    assert (Hrun :
      retrieveSessions validateSession PROJECT_OWNER PROJECT_NUMBER project
        (Some n) slot
      = ([], Throw (Error ("Session " ++ show_number n ++
           match candidates with
           | [] => " not found in project "
                   ++ (PROJECT_OWNER ++ "/" ++ PROJECT_NUMBER)
                   ++ " or not assigned to requested slot"
           | _ :: _ => " contains errors that need fixing"
           end)))).
    { unfold retrieveSessions. rewrite Htruthy. unfold non_null.
      rewrite non_null_valid. fold candidates. rewrite Hvalid.
      clearbody candidates.
      destruct candidates as [|first others]; [reflexivity|].
      destruct (Hcand first (or_introl eq_refl)) as [-> _]. reflexivity. }
    clearbody candidates. split; [eexists; exact Hrun|].
    intros (s & Hs & Hsel) fatal.
    destruct candidates as [|first others];
      [destruct (Hmem s Hs Hsel)|].
    split; [exact Hrun|].
    intros todoStrings onlyCommands dismissBots events.
    unfold main. cbn [Args.number Args.slot].
    rewrite (bind_return _ _ tt) by reflexivity.
    rewrite (bind_return _ _ tt) by reflexivity.
    rewrite Hrun. reflexivity.
  - intros candidates valid. subst retrieve. unfold retrieveSessions.
    cbn [truthy_number]. unfold non_null. rewrite non_null_valid.
    fold candidates. fold valid.
    split; [destruct (truthy slot); reflexivity|].
    split; [destruct (truthy slot); eexists; reflexivity|].
    intros s. unfold valid, candidates.
    rewrite filter_In, sort_by_In, filter_In, negb_true_iff.
    rewrite <- not_true_iff_false, has_errors_true.
    tauto.
Qed.

Lemma validation_errors_witness :
  main Sample.todoStrings Sample.validateSession "w3c" "57"
    (Some Sample.project) (Args.mk (Some 22) None true false) []
  = ([ConsoleLog ""; ConsoleLog "Retrieve project w3c/57..."],
     Throw (Error "Session 22 contains errors that need fixing")).
Proof.
  refine (proj2 (proj2 (proj1 (validation_errors Sample.validateSession
                                 "w3c" "57" Sample.project None)
                          22 _ _) _)
            Sample.todoStrings true false []).
  - discriminate.
  - exists (Finding.mk "error" "conflict"). split.
    + right. left. reflexivity.
    + reflexivity.
  - exists Sample.s22. split.
    + right. left. reflexivity.
    + reflexivity.
Defined.

(** ** The listener of [part] and the [done] flags *)

Lemma bind_returned {A B} (r : Run A) (k : A -> Run B) (b : B) :
  outcome (bind r k) = Return b ->
  exists a, outcome r = Return a /\ outcome (k a) = Return b.
Proof.
  unfold bind. destruct (outcome r) as [a|e]; [|discriminate].
  intros H. now exists a.
Qed.

Lemma mark_done_nth (channel : string) (sessions : list Session.t)
    (i : nat) :
  nth_error (mark_done channel sessions) i = nth_error sessions i
  \/ exists s, nth_error sessions i = Some s
               /\ getChannel s = channel
               /\ nth_error (mark_done channel sessions) i
                  = Some (Session.set_done s).
Proof.
  revert i. induction sessions as [|s sessions IH]; intros i; simpl.
  - now left.
  - destruct (String.eqb_spec channel (getChannel s)) as [->|Hne].
    + destruct i as [|i]; [|now left].
      right. exists s. repeat split.
    + destruct i as [|i]; [now left|]. apply IH.
Qed.

Lemma found_at_find (channel : string) (sessions : list Session.t) :
  found_at channel sessions = None
  <-> find (fun s => channel =? getChannel s) sessions = None.
Proof.
  induction sessions as [|s sessions IH]; simpl; [tauto|].
  destruct (channel =? getChannel s); [split; discriminate|].
  rewrite <- IH. destruct (found_at channel sessions); simpl.
  - split; discriminate.
  - tauto.
Qed.




Section Listeners.
Variable todoStrings : list string.
Variable project : Project.t.
Variable onlyCommands : bool.
Variable dismissBots : bool.

Local Abbreviation handle' :=
  (handle todoStrings project onlyCommands dismissBots).
Local Abbreviation liveRun' :=
  (liveRun todoStrings project onlyCommands dismissBots).

Lemma onPart_unchanged (sessions : list Session.t) (channel nick : string) :
  nick <> botName
  \/ find (fun s => channel =? getChannel s) sessions = None ->
  onPart sessions channel nick = ([], Return sessions).
Proof.
  unfold onPart. intros [Hnick | Hfind].
  - apply String.eqb_neq in Hnick. now rewrite Hnick.
  - rewrite Hfind. now destruct (negb (nick =? botName)).
Qed.

(** One event either leaves the sessions as they are, or it is the part of
    the driving bot from the channel of a session, which [mark_done]
    marks. *)
Lemma handle_sessions (sessions sessions' : list Session.t) (event : Event) :
  outcome (handle' sessions event) = Return sessions' ->
  sessions' = sessions
  \/ exists channel,
       event = Part channel botName
       /\ find (fun s => channel =? getChannel s) sessions <> None
       /\ sessions' = mark_done channel sessions.
Proof.
  destruct event as [command| |err|channel nick|channel nick];
    cbn [handle]; intros H.
  - apply bind_returned in H as (_ & _ & [= <-]). now left.
  - injection H as <-. now left.
  - apply bind_returned in H as (_ & _ & [= <-]). now left.
  - apply bind_returned in H as (_ & _ & [= <-]). now left.
  - unfold onPart in H.
    destruct (nick =? botName) eqn:Hnick;
      cbn [negb] in H; [|injection H as <-; now left].
    apply String.eqb_eq in Hnick. subst nick.
    destruct (find (fun s => channel =? getChannel s) sessions) eqn:Hfind;
      [|injection H as <-; now left].
    right. exists channel.
    split; [reflexivity|]. split; [rewrite Hfind; discriminate|].
    apply bind_returned in H as (_ & _ & H).
    apply bind_returned in H as (_ & _ & H).
    injection H as <-. reflexivity.
Qed.







End Listeners.

Lemma set_done_twice (s : Session.t) :
  Session.set_done (Session.set_done s) = Session.set_done s.
Proof.
  reflexivity.
Qed.



(** A live run changes nothing in a session but its [done] flag. *)
Lemma liveRun_sessions (todoStrings : list string) (project : Project.t)
    (onlyCommands dismissBots : bool) (events : list Event)
    (sessions final : list Session.t) :
  outcome (liveRun todoStrings project onlyCommands dismissBots sessions
             events) = Return final ->
  forall i,
    nth_error final i = nth_error sessions i
    \/ exists s, nth_error sessions i = Some s
                 /\ nth_error final i = Some (Session.set_done s).
Proof.
  revert sessions. induction events as [|event events IH];
    intros sessions Hrun i; cbn [liveRun] in Hrun.
  - injection Hrun as <-. now left.
  - apply bind_returned in Hrun as (sessions' & Hstep & Hrun).
    specialize (IH sessions' Hrun i).
    apply handle_sessions in Hstep as [-> | (channel & _ & _ & ->)];
      [exact IH|].
    destruct (mark_done_nth channel sessions i)
      as [Hsame | (s & Hs & _ & Hset)].
    + now rewrite Hsame in IH.
    + right. exists s. split; [assumption|].
      destruct IH as [IH | (s' & Hs' & IH)]; [congruence|].
      rewrite Hset in Hs'. injection Hs' as <-.
      now rewrite IH, set_done_twice.
Qed.




(** ** The object [channels] *)

Section ObjectFacts.
Context {V : Type}.
Implicit Types (o : JSObject V) (k : string) (v : V).

Lemma get_own_set_own o k v k' :
  get_own (set_own o k v) k' = if k' =? k then Some v else get_own o k'.
Proof.
  induction o as [|[k0 v0] o IH]; simpl.
  - reflexivity.
  - destruct (String.eqb_spec k k0) as [->|Hk]; simpl.
    + destruct (k' =? k0); reflexivity.
    + rewrite IH.
      destruct (String.eqb_spec k' k0) as [->|Hk'];
        [|reflexivity].
      apply not_eq_sym, String.eqb_neq in Hk. now rewrite Hk.
Qed.

Lemma get_own_None o k : get_own o k = None <-> ~ In k (map fst o).
Proof.
  induction o as [|[k0 v0] o IH]; simpl; [tauto|].
  destruct (String.eqb_spec k k0) as [->|Hk].
  - split; [discriminate | tauto].
  - rewrite IH. split; [intros H [E|E]; congruence || tauto | tauto].
Qed.

Lemma get_own_In o k v : get_own o k = Some v -> In (k, v) o.
Proof.
  induction o as [|[k0 v0] o IH]; simpl; [discriminate|].
  destruct (String.eqb_spec k k0) as [->|Hk].
  - intros [= ->]. now left.
  - intros H. right. now apply IH.
Qed.

Lemma In_get_own o k v :
  NoDup (map fst o) -> In (k, v) o -> get_own o k = Some v.
Proof.
  induction o as [|[k0 v0] o IH]; simpl; intros Hnd Hin; [destruct Hin|].
  apply NoDup_cons_iff in Hnd as [Hk0 Hnd].
  destruct Hin as [[= -> ->] | Hin].
  - now rewrite String.eqb_refl.
  - destruct (String.eqb_spec k k0) as [->|Hk]; [|now apply IH].
    exfalso. apply Hk0. change k0 with (fst (k0, v)). now apply in_map.
Qed.

Lemma keys_set_own o k v :
  map fst (set_own o k v)
  = match get_own o k with
    | Some _ => map fst o
    | None => (map fst o ++ [k])%list
    end.
Proof.
  induction o as [|[k0 v0] o IH]; simpl; [reflexivity|].
  destruct (String.eqb_spec k k0) as [->|Hk]; simpl; [reflexivity|].
  rewrite IH. now destruct (get_own o k).
Qed.

Lemma set_own_NoDup o k v :
  NoDup (map fst o) -> NoDup (map fst (set_own o k v)).
Proof.
  intros Hnd. rewrite keys_set_own.
  destruct (get_own o k) eqn:Hget; [assumption|].
  apply get_own_None in Hget.
  apply NoDup_app; [assumption | repeat constructor; intros [] |].
  intros x Hx [<- | []]. contradiction.
Qed.

Lemma filter_partition_perm {A} (f : A -> bool) (l : list A) :
  Permutation (filter f l ++ filter (fun x => negb (f x)) l) l.
Proof.
  induction l as [|x l IH]; simpl; [reflexivity|].
  destruct (f x); simpl.
  - now apply perm_skip.
  - rewrite <- Permutation_middle. now apply perm_skip.
Qed.

Lemma own_entries_perm o : Permutation (own_entries o) o.
Proof.
  unfold own_entries. rewrite sort_by_perm. apply filter_partition_perm.
Qed.

End ObjectFacts.

(** ** [findIndex] *)




(** ** The loop over the valid sessions *)

Lemma spec_group_snoc (project : Project.t) (channel : string)
    (seen : list Session.t) (s : Session.t) :
  spec_group project channel (seen ++ [s])
  = if getChannel s =? channel
    then sort_by (slotIndex project) (spec_group project channel seen ++ [s])
    else spec_group project channel seen.
Proof.
  unfold spec_group. rewrite filter_app. simpl.
  destruct (getChannel s =? channel).
  - now rewrite sort_by_push.
  - now rewrite app_nil_r.
Qed.

Lemma spec_group_empty (project : Project.t) (channel : string)
    (seen : list Session.t) :
  existsb (fun s => getChannel s =? channel) seen = false ->
  spec_group project channel seen = [].
Proof.
  intros H. unfold spec_group. rewrite filter_none; [reflexivity|].
  intros s Hs. apply not_true_is_false. intros Hc.
  assert (existsb (fun s => getChannel s =? channel) seen = true)
    by (apply existsb_exists; now exists s).
  congruence.
Qed.

Lemma addSession_grouped (project : Project.t) (seen : list Session.t)
    (channels : JSObject (list Session.t)) (s : Session.t) :
  grouped project seen channels ->
  inherited (getChannel s) = false ->
  exists channels',
    addSession project channels s = ([], Return channels')
    /\ grouped project (seen ++ [s]) channels'.
Proof.
  intros [Hnd Hget] Hinh. unfold addSession. rewrite Hinh.
  eexists. split; [reflexivity|].
  assert (Hgroup :
    match get_own channels (getChannel s) with
    | Some group => group
    | None => []
    end = spec_group project (getChannel s) seen).
  { rewrite Hget.
    destruct (existsb _ seen) eqn:Hex; [reflexivity|].
    now rewrite spec_group_empty. }
  rewrite Hgroup. split; [now apply set_own_NoDup|].
  intros channel. rewrite get_own_set_own, spec_group_snoc.
  rewrite existsb_app. simpl. rewrite orb_false_r.
  rewrite (String.eqb_sym channel).
  destruct (getChannel s =? channel) eqn:Hc.
  - apply String.eqb_eq in Hc. subst channel.
    now rewrite orb_true_r.
  - now rewrite orb_false_r, Hget.
Qed.

Lemma computeChannels_grouped (project : Project.t)
    (rest seen : list Session.t) (channels : JSObject (list Session.t)) :
  grouped project seen channels ->
  Forall (fun s => inherited (getChannel s) = false) rest ->
  exists channels',
    computeChannels project rest channels = ([], Return channels')
    /\ grouped project (seen ++ rest) channels'.
Proof.
  revert seen channels.
  induction rest as [|s rest IH]; intros seen channels Hinv Hrest; simpl.
  - exists channels. now rewrite app_nil_r.
  - apply Forall_cons_iff in Hrest as [Hs Hrest].
    destruct (addSession_grouped project seen channels s Hinv Hs)
      as (channels1 & Hadd & Hinv1).
    destruct (IH (seen ++ [s])%list channels1 Hinv1 Hrest)
      as (channels' & Hloop & Hinv').
    exists channels'. rewrite Hadd. unfold bind. cbn [outcome trace fst snd].
    rewrite Hloop. cbn [outcome trace fst snd app].
    split; [reflexivity|]. now rewrite <- app_assoc in Hinv'.
Qed.

Lemma all_defined_Some {A} (l : list (option A)) :
  (forall x, In x l -> x <> None) ->
  exists values, all_defined l = Some values /\ l = map Some values.
Proof.
  induction l as [|[a|] l IH]; intros H.
  - now exists [].
  - destruct IH as (values & Hall & Hmap).
    { intros x Hx. apply H. now right. }
    exists (a :: values). simpl. rewrite Hall. now subst l.
  - exfalso. now apply (H None); [left|].
Qed.




(** The entries of [channels] after the loop. *)
Lemma grouped_entry (project : Project.t) (sessions : list Session.t)
    (channels : JSObject (list Session.t)) (c : string)
    (g : list Session.t) :
  grouped project sessions channels ->
  In (c, g) channels ->
  g = spec_group project c sessions
  /\ exists r others, g = r :: others.
Proof.
  intros [Hnd Hget] Hin.
  pose proof (In_get_own _ _ _ Hnd Hin) as Hg. rewrite Hget in Hg.
  destruct (existsb _ sessions) eqn:Hex; [|discriminate].
  injection Hg as <-. split; [reflexivity|].
  apply existsb_exists in Hex as (s & Hs & Hc).
  assert (Hmem : In s (spec_group project c sessions)).
  { apply sort_by_In, filter_In. now split. }
  destruct (spec_group project c sessions) as [|r others];
    [destruct Hmem | now exists r, others].
Qed.



(** ** Runs of the sample project *)

(** The dry run of the sample project: session 22 has an error and is
    left out, session 31 represents #wot because its slot is not among
    the slots of the project. *)
Example dry_run_of_the_sample :
  main Sample.todoStrings Sample.validateSession "w3c" "57"
    (Some Sample.project) (Args.mk None None true true) []
  = ([ ConsoleLog ""; ConsoleLog "Retrieve project w3c/57...";
       ConsoleLog "- found 4 sessions assigned to slots: 7, 15, 22, 31";
       ConsoleLog "- found 3 valid sessions among them: 7, 15, 31";
       ConsoleLog "Retrieve project w3c/57 and session(s)... done";
       ConsoleLog "Compute IRC channels...";
       ConsoleLog "- found 2 different IRC channels";
       ConsoleLog "Compute IRC channels... done";
       ConsoleLog ""; ConsoleLog "Connect to W3C IRC server...";
       ConsoleLog ""; ConsoleLog "session 7"; ConsoleLog "-----";
       ConsoleLog "/join #fonts";
       ConsoleLog "/msg #fonts RRSAgent, draft minutes";
       ConsoleLog "/msg #fonts RRSAgent, bye";
       ConsoleLog "/msg #fonts Zakim, bye"; ConsoleLog "-----";
       ConsoleLog ""; ConsoleLog "session 31"; ConsoleLog "-----";
       ConsoleLog "/join #wot";
       ConsoleLog "/msg #wot RRSAgent, draft minutes";
       ConsoleLog "/msg #wot RRSAgent, bye";
       ConsoleLog "/msg #wot Zakim, bye"; ConsoleLog "-----" ],
     Return [Sample.s7; Sample.s31]).
Proof.
  vm_compute. reflexivity.
Qed.

(** A live run in dismiss mode for the slots that start with "1": the
    bot leaves both channels, and the second part event ends the run. *)
Example live_run_of_the_sample :
  let run :=
    main Sample.todoStrings Sample.validateSession "w3c" "57"
      (Some Sample.project) (Args.mk None (Some "1") false true)
      [ Registered "rpl_welcome"; Join "#fonts" botName;
        Join "#wot" botName; Part "#wot" botName; Part "#wot" "Zakim";
        Part "#fonts" botName ] in
  outcome run
  = Return [Session.set_done Sample.s7; Session.set_done Sample.s31]
  /\ skipn 36 (trace run)
     = [BotPart "#wot"; ConsoleLog "-----"; ConsoleLog "-----";
        BotDisconnect; PromiseResolve].
Proof.
  vm_compute. split; reflexivity.
Qed.

(** The names that [channels] inherits are no channel identifiers: the
    loop throws on the first session that has one. *)
Example inherited_name_throws :
  computeChannels Sample.project [Sample.s7; Sample.s40; Sample.s15] []
  = ([], Throw (TypeError "channels[channel].push is not a function")).
Proof.
  reflexivity.
Qed.


(** Array indices come first among the properties of an object. *)
Example order_of_the_properties :
  Object_keys [("b", 1); ("10", 2); ("2", 3); ("a", 4); ("02", 5)]
  = ["2"; "10"; "b"; "a"; "02"].
Proof.
  reflexivity.
Qed.

(* ================================================================= *)
(** * Further properties *)

(** ** The retrieval of the sessions *)

Lemma filter_ordered {A} (key : A -> Z) (f : A -> bool) (l : list A) :
  StronglySorted (fun a b => key a <= key b) l ->
  StronglySorted (fun a b => key a <= key b) (filter f l).
Proof.
  induction 1 as [|x l Hl IH Hx]; simpl; [constructor|].
  destruct (f x); [|assumption].
  constructor; [assumption|].
  rewrite Forall_forall in *. intros y Hy.
  apply filter_In in Hy as [Hy _]. now apply Hx.
Qed.

(** The outcome of the retrieval, case by case. *)
Lemma retrieveSessions_outcome
    (validateSession : Z -> Project.t -> list Finding.t)
    (PROJECT_OWNER PROJECT_NUMBER : string) (project : Project.t)
    (number : option Z) (slot : option string) :
  let candidates :=
    sort_by Session.number
      (filter (selected number slot) (Project.sessions project)) in
  let valid :=
    filter (fun s => negb (has_errors validateSession project s))
           candidates in
  outcome (retrieveSessions validateSession PROJECT_OWNER PROJECT_NUMBER
             project number slot)
  = if truthy_number number then
      match candidates, valid with
      | [], _ =>
          Throw (Error ("Session " ++ show_opt_number number
            ++ " not found in project "
            ++ (PROJECT_OWNER ++ "/" ++ PROJECT_NUMBER)
            ++ " or not assigned to requested slot"))
      | _ :: _, [] =>
          Throw (Error ("Session " ++ show_opt_number number
            ++ " contains errors that need fixing"))
      | _ :: _, _ :: _ => Return valid
      end
    else Return valid.
Proof.
  intros candidates valid.
  unfold retrieveSessions, non_null. rewrite non_null_valid.
  fold candidates. fold valid.
  assert (Hslot : forall s, In s candidates ->
                            truthy (Session.slot s) = true).
  { intros s Hs. apply sort_by_In, filter_In in Hs as [_ Hs].
    unfold selected in Hs. apply andb_true_iff in Hs as [Hs _].
    now apply andb_true_iff in Hs as [Hs _]. }
  destruct (truthy_number number).
  - clearbody candidates.
    destruct candidates as [|first others]; [reflexivity|].
    rewrite (Hslot first (or_introl eq_refl)).
    clearbody valid. destruct valid; reflexivity.
  - destruct (truthy slot); reflexivity.
Qed.

(** X1. What the retrieval returns: the sessions of the project that are
    assigned to a slot, have the requested number when one is requested,
    have a slot that starts with the requested slot when one is
    requested, and have no finding of severity "error". A session without
    a slot is never returned, whatever is requested. *)
Theorem retrieved_sessions
    (validateSession : Z -> Project.t -> list Finding.t)
    (PROJECT_OWNER PROJECT_NUMBER : string) (project : Project.t)
    (number : option Z) (slot : option string) (result : list Session.t) :
  outcome (retrieveSessions validateSession PROJECT_OWNER PROJECT_NUMBER
             project number slot) = Return result ->
  forall s,
    In s result <->
    In s (Project.sessions project)
    /\ (exists assigned, Session.slot s = Some assigned /\ assigned <> ""
          /\ (truthy slot = true ->
              startsWith assigned (show slot) = true))
    /\ (truthy_number number = true -> number = Some (Session.number s))
    /\ ~ (exists finding,
            In finding (validateSession (Session.number s) project)
            /\ Finding.severity finding = "error").
Proof.
  intros Hrun s. rewrite retrieveSessions_outcome in Hrun.
  assert (Hresult :
    result = filter (fun s => negb (has_errors validateSession project s))
               (sort_by Session.number
                  (filter (selected number slot)
                          (Project.sessions project)))).
  { destruct (truthy_number number); [|congruence].
    destruct (sort_by _ _); [discriminate|].
    destruct (filter _ (_ :: _)); [discriminate | congruence]. }
  rewrite Hresult, filter_In, sort_by_In, filter_In, negb_true_iff.
  rewrite <- not_true_iff_false, has_errors_true.
  unfold selected. rewrite !andb_true_iff, !orb_true_iff, truthy_true.
  rewrite negb_true_iff.
  split.
  - intros ((Hs & ((assigned & Hslot & Hne) & Hnum) & Hpre) & Hok).
    repeat split; try assumption.
    + exists assigned. repeat split; try assumption.
      intros Hrequested. rewrite Hslot in Hpre. simpl in Hpre.
      destruct Hpre as [Hpre | Hpre]; [|assumption].
      rewrite Hrequested in Hpre. discriminate.
    + intros Htruthy. destruct Hnum as [Hnum | Hnum].
      * congruence.
      * destruct number as [n|]; [|discriminate].
        apply Z.eqb_eq in Hnum. now subst n.
  - intros (Hs & (assigned & Hslot & Hne & Hpre) & Hnum & Hok).
    repeat split; try assumption.
    + now exists assigned.
    + destruct (truthy_number number); [right | left; reflexivity].
      rewrite (Hnum eq_refl). apply Z.eqb_refl.
    + rewrite Hslot. simpl.
      destruct (truthy slot); [right; now apply Hpre | left; reflexivity].
Qed.

Lemma retrieved_sessions_witness :
  In Sample.s15 [Sample.s7; Sample.s15; Sample.s31].
Proof.
  apply (proj2 (retrieved_sessions Sample.validateSession "w3c" "57"
                  Sample.project None (Some "1")
                  [Sample.s7; Sample.s15; Sample.s31] eq_refl Sample.s15)).
  split; [left; reflexivity|].
  split; [exists "11:00 - 12:00"; repeat split; discriminate|].
  split; [discriminate|].
  intros (finding & [<- | []] & Hseverity). discriminate.
Defined.

(** X2. The retrieval returns the sessions in ascending order of their
    numbers; when a number is requested, all of them have this number and
    there is at least one. *)
Theorem retrieved_in_order
    (validateSession : Z -> Project.t -> list Finding.t)
    (PROJECT_OWNER PROJECT_NUMBER : string) (project : Project.t)
    (number : option Z) (slot : option string) (result : list Session.t) :
  outcome (retrieveSessions validateSession PROJECT_OWNER PROJECT_NUMBER
             project number slot) = Return result ->
  StronglySorted (fun a b => Session.number a <= Session.number b) result
  /\ (truthy_number number = true ->
      result <> []
      /\ Forall (fun s => number = Some (Session.number s)) result).
Proof.
  intros Hrun. rewrite retrieveSessions_outcome in Hrun.
  set (candidates := sort_by Session.number _) in Hrun.
  set (valid := filter _ candidates) in Hrun.
  assert (Hnumber : truthy_number number = true ->
                    Forall (fun s => number = Some (Session.number s)) valid).
  { intros Htruthy. apply Forall_forall. intros s Hs.
    apply filter_In in Hs as [Hs _].
    apply sort_by_In, filter_In in Hs as [_ Hs].
    unfold selected in Hs. rewrite Htruthy in Hs.
    apply andb_true_iff in Hs as [Hs _].
    apply andb_true_iff in Hs as [_ Hs]. simpl in Hs.
    destruct number as [n|]; [|discriminate].
    apply Z.eqb_eq in Hs. now subst n. }
  assert (Hsorted :
    StronglySorted (fun a b => Session.number a <= Session.number b) valid).
  { apply filter_ordered, sort_by_ordered. }
  destruct (truthy_number number).
  - destruct candidates; [discriminate|].
    destruct valid as [|v valid'] eqn:Hvalid; [discriminate|].
    injection Hrun as <-. split; [assumption|].
    intros _. split; [discriminate | now apply Hnumber].
  - injection Hrun as <-. split; [assumption | discriminate].
Qed.

Lemma retrieved_in_order_witness :
  StronglySorted (fun a b => Session.number a <= Session.number b)
    [Sample.s7; Sample.s15; Sample.s31].
Proof.
  apply (retrieved_in_order Sample.validateSession "w3c" "57"
           Sample.project None None [Sample.s7; Sample.s15; Sample.s31]).
  reflexivity.
Defined.

(** The retrieval for a requested number. *)
Lemma retrieveSessions_targeted
    (validateSession : Z -> Project.t -> list Finding.t)
    (PROJECT_OWNER PROJECT_NUMBER : string) (project : Project.t)
    (n : Z) (slot : option string) :
  n <> 0 ->
  let name := PROJECT_OWNER ++ "/" ++ PROJECT_NUMBER in
  let candidates :=
    sort_by Session.number
      (filter (selected (Some n) slot) (Project.sessions project)) in
  let valid :=
    filter (fun s => negb (has_errors validateSession project s))
           candidates in
  retrieveSessions validateSession PROJECT_OWNER PROJECT_NUMBER project
    (Some n) slot
  = match candidates, valid with
    | [], _ =>
        ([], Throw (Error ("Session " ++ show_number n
               ++ " not found in project " ++ name
               ++ " or not assigned to requested slot")))
    | _ :: _, [] =>
        ([], Throw (Error ("Session " ++ show_number n
               ++ " contains errors that need fixing")))
    | _ :: _, _ :: _ =>
        ([ConsoleLog ("Retrieve project " ++ name
                      ++ " and session(s)... done")],
         Return valid)
    end.
Proof.
  intros Hn name candidates valid.
  assert (Htruthy : truthy_number (Some n) = true).
  { simpl. now apply negb_true_iff, Z.eqb_neq. }
  unfold retrieveSessions, non_null. rewrite non_null_valid, Htruthy.
  fold candidates. fold valid.
  assert (Hslot : forall s, In s candidates ->
                            truthy (Session.slot s) = true).
  { intros s Hs. apply sort_by_In, filter_In in Hs as [_ Hs].
    unfold selected in Hs. apply andb_true_iff in Hs as [Hs _].
    now apply andb_true_iff in Hs as [Hs _]. }
  clearbody candidates.
  destruct candidates as [|first others]; [reflexivity|].
  rewrite (Hslot first (or_introl eq_refl)).
  clearbody valid. destruct valid; reflexivity.
Qed.

(** X3. The errors that the retrieval throws of its own, with the
    findings that [validateSession] has returned (a rejection of this
    awaited call is no part of the statement). It throws only when a
    number [n] is requested, and then either no session [n] of the project
    is assigned to a slot that starts with the requested slot, and the
    message is "Session <n> not found in project <owner>/<number> or not
    assigned to requested slot"; or there is one, [validateSession]
    reports an error for [n], and the message is "Session <n> contains
    errors that need fixing". Here <n> is the number as a template literal
    prints it ([show_number]): its decimal digits below 2^53, and what
    JavaScript prints for the double beyond. Nothing is printed in both
    cases, and the message "not assigned to a slot" of the source is never
    thrown. Conversely, a requested number with no such session always
    gives the first error. *)
Theorem retrieval_errors
    (validateSession : Z -> Project.t -> list Finding.t)
    (PROJECT_OWNER PROJECT_NUMBER : string) (project : Project.t)
    (number : option Z) (slot : option string) :
  let retrieve :=
    retrieveSessions validateSession PROJECT_OWNER PROJECT_NUMBER project in
  let not_found n :=
    Error ("Session " ++ show_number n ++ " not found in project "
           ++ (PROJECT_OWNER ++ "/" ++ PROJECT_NUMBER)
           ++ " or not assigned to requested slot") in
  (forall e,
     outcome (retrieve number slot) = Throw e ->
     exists n,
       number = Some n /\ n <> 0 /\ retrieve number slot = ([], Throw e)
       /\ ((e = not_found n
            /\ forall s, In s (Project.sessions project) ->
                         selected (Some n) slot s = false)
           \/
           (e = Error ("Session " ++ show_number n
                       ++ " contains errors that need fixing")
            /\ (exists s, In s (Project.sessions project)
                          /\ selected (Some n) slot s = true)
            /\ exists finding, In finding (validateSession n project)
                               /\ Finding.severity finding = "error")))
  /\
  (forall n,
     n <> 0 ->
     (forall s, In s (Project.sessions project) ->
                Session.number s = n ->
                truthy (Session.slot s) = false
                \/ (truthy slot = true
                    /\ startsWith (show (Session.slot s)) (show slot)
                       = false)) ->
     retrieve (Some n) slot = ([], Throw (not_found n))).
Proof.
  intros retrieve not_found. subst retrieve. split.
  - intros e Hthrow.
    destruct number as [n|].
    2: { rewrite retrieveSessions_outcome in Hthrow. discriminate. }
    destruct (Z.eq_dec n 0) as [->|Hn].
    { rewrite retrieveSessions_outcome in Hthrow. discriminate. }
    exists n. split; [reflexivity|]. split; [assumption|].
    pose proof (retrieveSessions_targeted validateSession PROJECT_OWNER
                  PROJECT_NUMBER project n slot Hn) as Hrun.
    cbv zeta in Hrun. rewrite Hrun in Hthrow |- *. clear Hrun.
    set (candidates := sort_by Session.number _) in *.
    assert (Hcand : forall s, In s candidates <->
      In s (Project.sessions project) /\ selected (Some n) slot s = true).
    { intros s. unfold candidates. now rewrite sort_by_In, filter_In. }
    destruct candidates as [|first others] eqn:Hsorted.
    + injection Hthrow as <-. split; [reflexivity|]. left.
      split; [reflexivity|]. intros s Hs. apply not_true_is_false.
      intros Hsel. now apply (Hcand s).
    + destruct (filter _ (first :: others)) eqn:Hvalid; [|discriminate].
      injection Hthrow as <-. split; [reflexivity|]. right.
      split; [reflexivity|].
      destruct (proj1 (Hcand first) (or_introl eq_refl)) as [Hfirst Hsel].
      split; [now exists first|].
      assert (Herr : has_errors validateSession project first = true).
      { apply negb_false_iff.
        destruct (negb (has_errors validateSession project first))
          eqn:Hok; [|reflexivity].
        simpl in Hvalid. rewrite Hok in Hvalid. discriminate. }
      apply has_errors_true in Herr.
      unfold selected in Hsel.
      apply andb_true_iff in Hsel as [Hsel _].
      apply andb_true_iff in Hsel as [_ Hsel].
      assert (Htruthy : truthy_number (Some n) = true).
      { simpl. now apply negb_true_iff, Z.eqb_neq. }
      rewrite Htruthy in Hsel. simpl in Hsel.
      apply Z.eqb_eq in Hsel. now rewrite Hsel in Herr.
  - intros n Hn Hnone.
    rewrite (retrieveSessions_targeted _ _ _ _ _ _ Hn).
    assert (Hempty :
      filter (selected (Some n) slot) (Project.sessions project) = []).
    { apply filter_none. intros s Hs. unfold selected.
      assert (Htruthy : truthy_number (Some n) = true).
      { simpl. now apply negb_true_iff, Z.eqb_neq. }
      rewrite Htruthy. simpl.
      destruct (Z.eqb_spec (Session.number s) n) as [Heq|];
        [|now rewrite andb_false_r].
      destruct (Hnone s Hs Heq) as [-> | [-> ->]]; [reflexivity|].
      simpl. now rewrite andb_false_r. }
    rewrite Hempty. reflexivity.
Qed.

Lemma retrieval_errors_witness :
  retrieveSessions Sample.validateSession "w3c" "57" Sample.project
    (Some 15) (Some "9:30")
  = ([], Throw (Error
       "Session 15 not found in project w3c/57 or not assigned to requested slot")).
Proof.
  apply (proj2 (retrieval_errors Sample.validateSession "w3c" "57"
                  Sample.project None (Some "9:30")) 15).
  - discriminate.
  - intros s [<- | [<- | [<- | [<- | []]]]]; try discriminate.
    intros _. right. split; reflexivity.
Defined.

(** A requested number beyond 2^53 is printed in the message as
    JavaScript prints it. *)
Example requested_number_beyond_safe_integers :
  retrieveSessions Sample.validateSession "w3c" "57" Sample.project
    (Some (2 ^ 60)) None
  = ([], Throw (Error
       "Session 1152921504606847000 not found in project w3c/57 or not assigned to requested slot")).
Proof.
  vm_compute. reflexivity.
Qed.

(** ** What [sendChannelBotCommands] does and does not *)

(** X4. [sendChannelBotCommands] has no effect at all exactly when the
    channel is the channel of no session, or the nick is neither the
    driving bot nor RRSAgent: the arrival of Zakim, or of anybody else,
    triggers nothing. *)
Theorem silent_arrivals (todoStrings : list string) (project : Project.t)
    (onlyCommands dismissBots : bool) (sessions : list Session.t)
    (channel nick : string) :
  trace (sendChannelBotCommands todoStrings project onlyCommands dismissBots
           sessions channel nick) = []
  <->
  find (fun s => channel =? getChannel s) sessions = None
  \/ (nick <> botName /\ nick <> "RRSAgent").
Proof.
  split.
  - intros Hsilent.
    destruct (find (fun s => channel =? getChannel s) sessions)
      as [session|] eqn:Hfind; [right | now left].
    destruct (String.eqb_spec nick botName) as [->|Hbot].
    + exfalso. destruct dismissBots.
      * rewrite (driving_bot_dismiss _ _ _ _ _ _ Hfind) in Hsilent.
        discriminate.
      * rewrite (driving_bot_setup _ _ _ _ _ _ Hfind) in Hsilent.
        destruct (setTopic_run project onlyCommands session)
          as [topic Htopic].
        rewrite Htopic in Hsilent. discriminate.
    + split; [assumption|]. intros ->.
      rewrite (rrsagent_joined _ _ _ _ _ _ _ Hfind) in Hsilent.
      discriminate.
  - intros [Hfind | [Hbot Hrrs]].
    + now rewrite no_session.
    + now rewrite other_nick_joined.
Qed.

Lemma silent_arrivals_witness :
  trace (sendChannelBotCommands Sample.todoStrings Sample.project false
           false [Sample.s7; Sample.s31] "#wot" "Zakim") = [].
Proof.
  apply (silent_arrivals Sample.todoStrings Sample.project false false
           [Sample.s7; Sample.s31] "#wot" "Zakim").
  right. split; discriminate.
Defined.

(** X5. The arrival of RRSAgent triggers the same sequence in dismiss
    mode as outside of it. On the channel of a session the sequence
    starts with "RRSAgent, do not leave", holds "clear agenda" once and
    then the five fixed agenda items in their order, and in a live run
    its last effect is that the bot leaves the channel. *)
Theorem rrsagent_sequence (todoStrings : list string) (project : Project.t)
    (onlyCommands : bool) (sessions : list Session.t) (channel : string) :
  let run dismissBots :=
    sendChannelBotCommands todoStrings project onlyCommands dismissBots
      sessions channel "RRSAgent" in
  run true = run false
  /\
  (forall session dismissBots,
     find (fun s => channel =? getChannel s) sessions = Some session ->
     hd_error (trace (run dismissBots))
     = Some (ConsoleLog ("/msg " ++ channel ++ " RRSAgent, do not leave"))
     /\
     filter (says channel
               (fun msg => (msg =? "clear agenda")
                           || startsWith msg "agenda+ "))
            (trace (run dismissBots))
     = said onlyCommands channel
         [ "clear agenda";
           "agenda+ Pick a scribe";
           "agenda+ Reminders: code of conduct, health policies, recorded session policy";
           "agenda+ Goal of this session";
           "agenda+ Discussion";
           "agenda+ Next steps / where discussion continues" ]
     /\
     (onlyCommands = false ->
      last (trace (run dismissBots)) BotDisconnect = BotPart channel)).
Proof.
  intros run. subst run. split.
  - destruct (find (fun s => channel =? getChannel s) sessions)
      as [session|] eqn:Hfind.
    + now rewrite !(rrsagent_joined _ _ _ _ _ _ _ Hfind).
    + now rewrite !no_session.
  - intros session dismissBots Hfind.
    rewrite (rrsagent_joined _ _ _ _ _ _ _ Hfind). cbn [trace fst].
    split; [reflexivity|]. split.
    + rewrite filter_app, filter_says_part, app_nil_r, filter_says_said.
      rewrite !filter_app.
      match goal with
      | |- context [if ?c then ("Agenda: " ++ ?a)%string else ?b] =>
          destruct c
      end;
      match goal with
      | |- context [if ?c then [("Slideset: " ++ ?a)%string] else []] =>
          destruct c
      end; reflexivity.
    + intros ->. apply last_last.
Qed.

Lemma rrsagent_sequence_witness :
  last (trace (sendChannelBotCommands Sample.todoStrings Sample.project
                 false true [Sample.s7; Sample.s31] "#wot" "RRSAgent"))
       BotDisconnect
  = BotPart "#wot".
Proof.
  apply (proj2 (rrsagent_sequence Sample.todoStrings Sample.project false
                  [Sample.s7; Sample.s31] "#wot")
           Sample.s31 true eq_refl).
  reflexivity.
Defined.

(** ** Printed lines and calls on the client *)

Lemma printed_and_sent_logs (line : string) (call : Effect) :
  is_log call = false ->
  filter is_log (printed_and_sent false line call)
  = printed_and_sent true line call.
Proof.
  intros H. unfold printed_and_sent. simpl. now rewrite H.
Qed.

Lemma said_logs (channel : string) (msgs : list string) :
  filter is_log (said false channel msgs) = said true channel msgs.
Proof.
  induction msgs as [|msg msgs IH]; [reflexivity|].
  change (said false channel (msg :: msgs))
    with (printed_and_sent false ("/msg " ++ channel ++ " " ++ msg)
            (BotSay channel msg) ++ said false channel msgs)%list.
  rewrite filter_app, IH. reflexivity.
Qed.

Lemma said_only_logs (channel : string) (msgs : list string) :
  forallb is_log (said true channel msgs) = true.
Proof.
  induction msgs as [|msg msgs IH]; [reflexivity | exact IH].
Qed.

(** The lines of a live run are the lines of the dry run, and the dry run
    has no other effect. *)
Lemma send_logs (todoStrings : list string) (project : Project.t)
    (dismissBots : bool) (sessions : list Session.t) (channel nick : string) :
  filter is_log
    (trace (sendChannelBotCommands todoStrings project false dismissBots
              sessions channel nick))
  = trace (sendChannelBotCommands todoStrings project true dismissBots
             sessions channel nick)
  /\ forallb is_log
       (trace (sendChannelBotCommands todoStrings project true dismissBots
                 sessions channel nick)) = true.
Proof.
  destruct (find (fun s => channel =? getChannel s) sessions)
    as [session|] eqn:Hfind.
  2: { rewrite !no_session by assumption. now split. }
  destruct (String.eqb_spec nick botName) as [->|Hbot].
  - destruct dismissBots.
    + rewrite !(driving_bot_dismiss _ _ _ _ _ _ Hfind). cbn [trace fst].
      rewrite filter_app, said_logs, forallb_app, said_only_logs.
      now split.
    + rewrite !(driving_bot_setup _ _ _ _ _ _ Hfind). cbn [trace fst].
      unfold setTopic, inviteBot. split; reflexivity.
  - destruct (String.eqb_spec nick "RRSAgent") as [->|Hrrs].
    + rewrite !(rrsagent_joined _ _ _ _ _ _ _ Hfind). cbn [trace fst].
      rewrite filter_app, said_logs, forallb_app, said_only_logs.
      now split.
    + rewrite !other_nick_joined by assumption. now split.
Qed.

(** X6. For every channel, nick and mode, the lines that
    [sendChannelBotCommands] and [joinChannel] print in a live run are
    exactly the lines that they print in a dry run, in the same order, and
    in a dry run they have no other effect than these lines. *)
Theorem dry_run_prints_the_live_lines (todoStrings : list string)
    (project : Project.t) (dismissBots : bool) (sessions : list Session.t)
    (channel nick : string) (session : Session.t) :
  let send onlyCommands :=
    trace (sendChannelBotCommands todoStrings project onlyCommands
             dismissBots sessions channel nick) in
  let join onlyCommands := trace (joinChannel onlyCommands session) in
  filter is_log (send false) = send true
  /\ forallb is_log (send true) = true
  /\ filter is_log (join false) = join true
  /\ join true = [ConsoleLog ("/join " ++ getChannel session)].
Proof.
  intros send join.
  destruct (send_logs todoStrings project dismissBots sessions channel nick)
    as [Hfilter Hlogs].
  repeat split; assumption || reflexivity.
Qed.

Lemma bind_forallb {A B} (q : Effect -> bool) (r : Run A) (k : A -> Run B) :
  forallb q (trace r) = true ->
  (forall a, outcome r = Return a -> forallb q (trace (k a)) = true) ->
  forallb q (trace (bind r k)) = true.
Proof.
  intros Hr Hk. unfold bind.
  destruct (outcome r) as [a|e]; cbn [trace fst]; [|assumption].
  rewrite forallb_app, Hr. now apply Hk.
Qed.

Lemma for_of_forallb {A} (q : Effect -> bool) (xs : list A)
    (body : A -> Run unit) :
  (forall x, In x xs -> forallb q (trace (body x)) = true) ->
  forallb q (trace (for_of xs body)) = true.
Proof.
  induction xs as [|x xs IH]; intros H; [reflexivity|].
  cbn [for_of]. apply bind_forallb.
  - apply H. now left.
  - intros _ _. apply IH. intros y Hy. apply H. now right.
Qed.

Lemma retrieveSessions_logs
    (validateSession : Z -> Project.t -> list Finding.t)
    (PROJECT_OWNER PROJECT_NUMBER : string) (project : Project.t)
    (number : option Z) (slot : option string) :
  forallb is_log
    (trace (retrieveSessions validateSession PROJECT_OWNER PROJECT_NUMBER
              project number slot)) = true.
Proof.
  unfold retrieveSessions.
  repeat (apply bind_forallb; [|intros _ _]);
    repeat match goal with
           | |- context [if ?c then _ else _] => destruct c
           | |- context [match ?l with [] => _ | _ :: _ => _ end] =>
               destruct l
           end; reflexivity.
Qed.

Lemma computeChannels_silent (project : Project.t)
    (sessions : list Session.t) (channels : JSObject (list Session.t)) :
  trace (computeChannels project sessions channels) = [].
Proof.
  revert channels. induction sessions as [|s sessions IH];
    intros channels; [reflexivity|].
  cbn [computeChannels]. unfold bind, addSession.
  destruct (inherited (getChannel s)); [reflexivity|].
  cbn [outcome trace fst snd ret app]. apply IH.
Qed.

Lemma dryRun_logs (todoStrings : list string) (project : Project.t)
    (dismissBots : bool) (sessions : list Session.t) :
  forallb is_log
    (trace (dryRun todoStrings project true dismissBots sessions)) = true.
Proof.
  unfold dryRun.
  generalize sessions at 2. intros all.
  apply for_of_forallb. intros session _.
  unfold dryRunSession, send_commands.
  repeat (apply bind_forallb; [|intros _ _]);
    try reflexivity; try apply send_logs.
  destruct (negb dismissBots); [apply send_logs | reflexivity].
Qed.

(** X7. A dry run never touches the IRC client: every effect of [main]
    with [onlyCommands] is a printed line, whatever the project, the
    findings and the arguments, and the events of the client play no
    part in it. *)
Theorem dry_run_only_prints (todoStrings : list string)
    (validateSession : Z -> Project.t -> list Finding.t)
    (PROJECT_OWNER PROJECT_NUMBER : string) (fetched : option Project.t)
    (args : Args.t) (events : list Event) :
  Args.onlyCommands args = true ->
  forallb is_log
    (trace (main todoStrings validateSession PROJECT_OWNER PROJECT_NUMBER
              fetched args events)) = true
  /\ main todoStrings validateSession PROJECT_OWNER PROJECT_NUMBER
       fetched args events
     = main todoStrings validateSession PROJECT_OWNER PROJECT_NUMBER
         fetched args [].
Proof.
  destruct args as [number slot onlyCommands dismissBots].
  cbn [Args.onlyCommands]. intros ->. split; [|reflexivity].
  unfold main. cbn [Args.number Args.slot Args.onlyCommands Args.dismissBots].
  apply bind_forallb; [reflexivity | intros _ _].
  apply bind_forallb; [reflexivity | intros _ _].
  destruct fetched as [project|]; [|reflexivity].
  apply bind_forallb; [apply retrieveSessions_logs | intros sessions _].
  apply bind_forallb; [reflexivity | intros _ _].
  apply bind_forallb; [now rewrite computeChannels_silent|].
  intros channels _.
  destruct (all_defined (representatives channels)) as [reps|];
    [|reflexivity].
  repeat (apply bind_forallb; [reflexivity | intros _ _]).
  apply bind_forallb; [apply dryRun_logs | reflexivity].
Qed.

Lemma dry_run_only_prints_witness :
  forallb is_log
    (trace (main Sample.todoStrings Sample.validateSession "w3c" "57"
              (Some Sample.project) (Args.mk None None true false)
              [Join "#wot" botName])) = true.
Proof.
  apply (dry_run_only_prints Sample.todoStrings Sample.validateSession
           "w3c" "57" (Some Sample.project) (Args.mk None None true false)
           [Join "#wot" botName]).
  reflexivity.
Defined.

(** ** When the bot leaves a channel *)

Lemma is_part_said (onlyCommands : bool) (channel : string)
    (msgs : list string) :
  existsb is_part (said onlyCommands channel msgs) = false.
Proof.
  apply existsb_said; reflexivity.
Qed.

Lemma not_in_trace (q : Effect -> bool) (t : list Effect) (e : Effect) :
  existsb q t = false -> q e = true -> ~ In e t.
Proof.
  intros Hnone He Hin.
  assert (existsb q t = true) by (apply existsb_exists; now exists e).
  congruence.
Qed.

(** The bot leaves [left] in [sendChannelBotCommands] exactly in a live
    run, on the channel of a session, when RRSAgent arrives, or when the
    bot itself arrives in dismiss mode. *)
Lemma part_in_send (todoStrings : list string) (project : Project.t)
    (onlyCommands dismissBots : bool) (sessions : list Session.t)
    (channel nick left : string) :
  In (BotPart left)
     (trace (sendChannelBotCommands todoStrings project onlyCommands
               dismissBots sessions channel nick))
  <->
  left = channel /\ onlyCommands = false
  /\ find (fun s => channel =? getChannel s) sessions <> None
  /\ (nick = "RRSAgent" \/ (nick = botName /\ dismissBots = true)).
Proof.
  assert (Hpart : forall msgs,
    In (BotPart left)
       (said onlyCommands channel msgs
        ++ (if onlyCommands then [] else [BotPart channel]))%list
    <-> left = channel /\ onlyCommands = false).
  { intros msgs. rewrite in_app_iff. split.
    - intros [Hin | Hin].
      + exfalso. revert Hin. apply (not_in_trace is_part);
          [apply is_part_said | reflexivity].
      + destruct onlyCommands; [destruct Hin|].
        destruct Hin as [[= ->] | []]. now split.
    - intros [-> ->]. right. now left. }
  destruct (find (fun s => channel =? getChannel s) sessions)
    as [session|] eqn:Hfind.
  2: { rewrite no_session by assumption. simpl. tauto. }
  destruct (String.eqb_spec nick botName) as [->|Hbot].
  - destruct dismissBots.
    + rewrite (driving_bot_dismiss _ _ _ _ _ _ Hfind). cbn [trace fst].
      rewrite Hpart. split; [|tauto].
      intros [-> ->]. repeat split; [discriminate | now right].
    + rewrite (driving_bot_setup _ _ _ _ _ _ Hfind). cbn [trace fst].
      split.
      * intros Hin. exfalso. revert Hin.
        apply (not_in_trace is_part); [|reflexivity].
        unfold setTopic, inviteBot. destruct onlyCommands; reflexivity.
      * intros (_ & _ & _ & [Hrrs | [_ Hd]]); discriminate.
  - destruct (String.eqb_spec nick "RRSAgent") as [->|Hrrs].
    + rewrite (rrsagent_joined _ _ _ _ _ _ _ Hfind). cbn [trace fst].
      rewrite Hpart. split; [|tauto].
      intros [-> ->]. repeat split; [discriminate | now left].
    + rewrite other_nick_joined by assumption. simpl. tauto.
Qed.

Lemma bind_existsb {A B} (q : Effect -> bool) (r : Run A) (k : A -> Run B) :
  existsb q (trace r) = false ->
  (forall a, existsb q (trace (k a)) = false) ->
  existsb q (trace (bind r k)) = false.
Proof.
  intros Hr Hk. unfold bind.
  destruct (outcome r) as [a|e]; cbn [trace fst]; [|assumption].
  now rewrite existsb_app, Hr, Hk.
Qed.

Lemma for_of_existsb {A} (q : Effect -> bool) (xs : list A)
    (body : A -> Run unit) :
  (forall x, existsb q (trace (body x)) = false) ->
  existsb q (trace (for_of xs body)) = false.
Proof.
  intros H. induction xs as [|x xs IH]; [reflexivity|].
  cbn [for_of]. apply bind_existsb; [apply H | intros _; exact IH].
Qed.

(** X8. In a live run the bot leaves a channel in response to an event
    exactly when the channel is the channel of a session and the event is
    the arrival on this channel (a join, or an "already on channel" error)
    of RRSAgent, or of the bot itself in dismiss mode. In particular it
    never leaves on the arrival of Zakim, on a part event, or on a channel
    that has no session. *)
Theorem bot_leaves_channel (todoStrings : list string) (project : Project.t)
    (dismissBots : bool) (sessions : list Session.t) (event : Event)
    (channel : string) :
  In (BotPart channel)
     (trace (handle todoStrings project false dismissBots sessions event))
  <->
  find (fun s => channel =? getChannel s) sessions <> None
  /\ exists nick,
       arrival event channel nick
       /\ (nick = "RRSAgent" \/ (nick = botName /\ dismissBots = true)).
Proof.
  assert (Hsend : forall c n,
    In (BotPart channel)
       (trace (bind (sendChannelBotCommands todoStrings project false
                       dismissBots sessions c n)
                    (fun _ => ret sessions)))
    <-> channel = c
        /\ find (fun s => c =? getChannel s) sessions <> None
        /\ (n = "RRSAgent" \/ (n = botName /\ dismissBots = true))).
  { intros c n.
    rewrite (bind_return _ _ tt) by apply sendChannelBotCommands_returns.
    cbn [trace fst ret]. rewrite app_nil_r, part_in_send. tauto. }
  destruct event as [command| |err|c n|c n]; cbn [handle].
  - split.
    + intros Hin. exfalso. revert Hin.
      apply (not_in_trace is_part); [|reflexivity].
      unfold onRegistered.
      repeat (apply bind_existsb; [reflexivity | intros _]).
      apply bind_existsb; [|reflexivity].
      apply for_of_existsb. reflexivity.
    + intros (_ & nick & [H | (err & H & _)] & _); discriminate.
  - split; [intros [] |].
    intros (_ & nick & [H | (err & H & _)] & _); discriminate.
  - unfold onError, send_commands.
    destruct (String.eqb_spec (IrcError.command err) "err_useronchannel")
      as [Hcommand | Hcommand].
    + destruct (nth_error (IrcError.args err) 1) as [n|] eqn:Hnick.
      * destruct (nth_error (IrcError.args err) 2) as [c|] eqn:Hchannel.
        -- rewrite Hsend. split.
           ++ intros (-> & Hfind & Hn). split; [assumption|].
              exists n. split; [|assumption].
              right. exists err. now repeat split.
           ++ intros (Hfind & nick & [H | (err' & [= <-] & _ & H1 & H2)]
                      & Hn); [discriminate|].
              rewrite Hnick in H1. rewrite Hchannel in H2.
              injection H1 as ->. injection H2 as ->. now repeat split.
        -- split; [intros [] |].
           intros (_ & nick & [H | (err' & [= <-] & _ & _ & H2)] & _);
             [discriminate | congruence].
      * split; [intros [] |].
        intros (_ & nick & [H | (err' & [= <-] & _ & H1 & _)] & _);
          [discriminate | congruence].
    + split; [intros [] |].
      intros (_ & nick & [H | (err' & [= <-] & H0 & _)] & _);
        [discriminate | contradiction].
  - unfold onJoin, send_commands. rewrite Hsend. split.
    + intros (-> & Hfind & Hn). split; [assumption|].
      exists n. split; [now left | assumption].
    + intros (Hfind & nick & [[= <- <-] | (err & H & _)] & Hn);
        [now repeat split | discriminate].
  - split.
    + intros Hin. exfalso. revert Hin.
      apply (not_in_trace is_part); [|reflexivity].
      unfold onPart.
      destruct (negb (n =? botName)); [reflexivity|].
      destruct (find _ sessions); [|reflexivity].
      destruct (forallb Session.done (mark_done c sessions)); reflexivity.
    + intros (_ & nick & [H | (err & H & _)] & _); discriminate.
Qed.

Lemma bot_leaves_channel_witness :
  In (BotPart "#wot")
     (trace (handle Sample.todoStrings Sample.project false false
               [Sample.s7; Sample.s31]
               (ErrorEvent (IrcError.mk "err_useronchannel"
                              ["tpac-breakout-bot"; "RRSAgent"; "#wot"])))).
Proof.
  apply (bot_leaves_channel Sample.todoStrings Sample.project false
           [Sample.s7; Sample.s31]
           (ErrorEvent (IrcError.mk "err_useronchannel"
                          ["tpac-breakout-bot"; "RRSAgent"; "#wot"]))
           "#wot").
  split; [discriminate|].
  exists "RRSAgent". split; [|now left].
  right. eexists. repeat split; reflexivity.
Defined.

(** ** The listener of [registered] *)

(** X9. When the connection is registered, the bot joins the channel of
    every session, once and in the order of the sessions, printing
    "/join <channel>" before each call; the listener does nothing else on
    the client, throws nothing and leaves the sessions as they are. *)
Theorem registered_joins_every_channel (todoStrings : list string)
    (project : Project.t) (dismissBots : bool) (sessions : list Session.t)
    (command : string) :
  let run :=
    handle todoStrings project false dismissBots sessions
      (Registered command) in
  joined (trace run) = map getChannel sessions
  /\ filter (fun e => match e with
                      | ConsoleLog line => startsWith line "/join "
                      | _ => false
                      end) (trace run)
     = map (fun s => ConsoleLog ("/join " ++ getChannel s)) sessions
  /\ forallb is_log_or_join (trace run) = true
  /\ outcome run = Return sessions.
Proof.
  intros run. subst run. cbn [handle]. unfold onRegistered.
  set (body := fun session : Session.t => _).
  assert (Hloop : forall xs,
    joined (trace (for_of xs body)) = map getChannel xs
    /\ filter (fun e => match e with
                        | ConsoleLog line => startsWith line "/join "
                        | _ => false
                        end) (trace (for_of xs body))
       = map (fun s => ConsoleLog ("/join " ++ getChannel s)) xs
    /\ forallb is_log_or_join (trace (for_of xs body)) = true
    /\ outcome (for_of xs body) = Return tt).
  { induction xs as [|x xs (IH1 & IH2 & IH3 & IH4)]; [now repeat split|].
    cbn [for_of]. rewrite (bind_return _ _ tt) by reflexivity.
    cbn [trace outcome fst snd]. unfold joined in *.
    rewrite flat_map_app, filter_app, forallb_app, IH1, IH2, IH3, IH4.
    repeat split. }
  destruct (Hloop sessions) as (H1 & H2 & H3 & H4).
  rewrite (bind_return _ _ tt).
  2: { rewrite (bind_return _ _ tt) by reflexivity.
       rewrite (bind_return _ _ tt) by reflexivity. exact H4. }
  rewrite (bind_return _ _ tt) by reflexivity.
  rewrite (bind_return _ _ tt) by reflexivity.
  cbn [trace outcome fst snd ret]. rewrite app_nil_r.
  unfold joined in *.
  rewrite !flat_map_app, !filter_app, !forallb_app, H1, H2, H3.
  repeat split.
Qed.

(** ** The end of a live run *)

Lemma send_no_completion (todoStrings : list string) (project : Project.t)
    (onlyCommands dismissBots : bool) (sessions : list Session.t)
    (channel nick : string) :
  existsb is_completion
    (trace (sendChannelBotCommands todoStrings project onlyCommands
              dismissBots sessions channel nick)) = false.
Proof.
  assert (Hsaid : forall msgs,
    existsb is_completion
      (said onlyCommands channel msgs
       ++ (if onlyCommands then [] else [BotPart channel]))%list = false).
  { intros msgs. rewrite existsb_app, existsb_said by reflexivity.
    now destruct onlyCommands. }
  destruct (find (fun s => channel =? getChannel s) sessions)
    as [session|] eqn:Hfind.
  2: now rewrite no_session.
  destruct (String.eqb_spec nick botName) as [->|Hbot].
  - destruct dismissBots.
    + rewrite (driving_bot_dismiss _ _ _ _ _ _ Hfind). apply Hsaid.
    + rewrite (driving_bot_setup _ _ _ _ _ _ Hfind). cbn [trace fst].
      unfold setTopic, inviteBot. destruct onlyCommands; reflexivity.
  - destruct (String.eqb_spec nick "RRSAgent") as [->|Hrrs].
    + rewrite (rrsagent_joined _ _ _ _ _ _ _ Hfind). apply Hsaid.
    + now rewrite other_nick_joined.
Qed.

Lemma forallb_done_set (sessions final : list Session.t) :
  (forall i,
     nth_error final i = nth_error sessions i
     \/ exists s, nth_error sessions i = Some s
                  /\ nth_error final i = Some (Session.set_done s)) ->
  forallb Session.done sessions = true ->
  forallb Session.done final = true.
Proof.
  intros Hnth Hdone. rewrite forallb_forall in *. intros s Hs.
  apply In_nth_error in Hs as [i Hi].
  destruct (Hnth i) as [Hsame | (s0 & _ & Hset)].
  - apply Hdone. apply (nth_error_In _ i). congruence.
  - rewrite Hset in Hi. now injection Hi as <-.
Qed.

Section Completion.
Variable todoStrings : list string.
Variable project : Project.t.
Variable onlyCommands : bool.
Variable dismissBots : bool.

Local Abbreviation handle' :=
  (handle todoStrings project onlyCommands dismissBots).
Local Abbreviation liveRun' :=
  (liveRun todoStrings project onlyCommands dismissBots).

(** The effects of one event hold the completion of the run exactly when
    the event is the part of the bot from the channel of a session, and
    all sessions are done once this one is marked. *)
Lemma handle_completion (sessions : list Session.t) (event : Event)
    (e : Effect) :
  is_completion e = true ->
  In e (trace (handle' sessions event))
  <->
  exists channel,
    event = Part channel botName
    /\ find (fun s => channel =? getChannel s) sessions <> None
    /\ forallb Session.done (mark_done channel sessions) = true.
Proof.
  intros He.
  assert (Hsend : forall c n,
    ~ In e (trace (bind (sendChannelBotCommands todoStrings project
                           onlyCommands dismissBots sessions c n)
                        (fun _ => ret sessions)))).
  { intros c n. apply (not_in_trace is_completion); [|assumption].
    apply bind_existsb; [apply send_no_completion | reflexivity]. }
  destruct event as [command| |err|c n|c n]; cbn [handle].
  - split; [|intros (c & [=] & _)].
    intros Hin. exfalso. revert Hin.
    apply (not_in_trace is_completion); [|assumption].
    unfold onRegistered.
    apply bind_existsb; [|reflexivity].
    apply bind_existsb; [reflexivity | intros _].
    apply bind_existsb; [reflexivity | intros _].
    apply for_of_existsb. intros s.
    unfold joinChannel. destruct onlyCommands; reflexivity.
  - split; [intros [] | intros (c & [=] & _)].
  - split; [|intros (c & [=] & _)].
    unfold onError, send_commands.
    destruct (IrcError.command err =? "err_useronchannel");
      [|intros []].
    destruct (nth_error (IrcError.args err) 1); [|intros []].
    destruct (nth_error (IrcError.args err) 2); [|intros []].
    intros Hin. now apply Hsend in Hin.
  - split; [|intros (c' & [=] & _)].
    unfold onJoin, send_commands. intros Hin. now apply Hsend in Hin.
  - unfold onPart.
    destruct (String.eqb_spec n botName) as [->|Hn]; cbn [negb].
    + destruct (find (fun s => c =? getChannel s) sessions) eqn:Hfind.
      * destruct (forallb Session.done (mark_done c sessions)) eqn:Hall.
        -- split.
           ++ intros _. exists c. rewrite Hfind. now repeat split.
           ++ intros _. destruct e; try discriminate He;
                cbn; tauto.
        -- split.
           ++ intros [Hin | []]. subst e. discriminate He.
           ++ intros (c' & [= <-] & _ & Hall'). congruence.
      * split; [intros [] |].
        intros (c' & [= <-] & Hfind' & _). now rewrite Hfind in Hfind'.
    + split; [intros [] |]. intros (c' & [= _ Heq] & _). congruence.
Qed.

Lemma handle_part_marks (sessions : list Session.t) (channel : string) :
  find (fun s => channel =? getChannel s) sessions <> None ->
  outcome (handle' sessions (Part channel botName))
  = Return (mark_done channel sessions).
Proof.
  intros Hfind. cbn [handle]. unfold onPart.
  change (botName =? botName) with true. cbn [negb].
  destruct (find (fun s => channel =? getChannel s) sessions);
    [|contradiction].
  destruct (forallb Session.done (mark_done channel sessions));
    reflexivity.
Qed.

Lemma liveRun_done (events : list Event) (sessions final : list Session.t) :
  outcome (liveRun' sessions events) = Return final ->
  forallb Session.done sessions = true ->
  forallb Session.done final = true.
Proof.
  intros Hrun. apply forallb_done_set.
  exact (liveRun_sessions _ _ _ _ _ _ _ Hrun).
Qed.

Lemma handle_empty (event : Event) (sessions' : list Session.t) :
  outcome (handle' [] event) = Return sessions' -> sessions' = [].
Proof.
  intros H.
  apply handle_sessions in H as [-> | (c & _ & _ & ->)]; reflexivity.
Qed.

End Completion.

Lemma liveRun_resolved_done (todoStrings : list string)
    (project : Project.t) (onlyCommands dismissBots : bool)
    (events : list Event) :
  forall sessions final,
    outcome (liveRun todoStrings project onlyCommands dismissBots
               sessions events) = Return final ->
    In PromiseResolve
       (trace (liveRun todoStrings project onlyCommands dismissBots
                 sessions events)) ->
    forallb Session.done final = true.
Proof.
  induction events as [|event events IH]; intros sessions final Hrun Hin.
  - destruct Hin.
  - cbn [liveRun] in Hrun, Hin.
    destruct (bind_returned _ _ _ Hrun) as (sessions' & Hstep & Hrest).
    rewrite (bind_return _ _ sessions') in Hin by assumption.
    cbn [trace fst] in Hin. apply in_app_or in Hin as [Hin | Hin].
    + apply handle_completion in Hin as (c & -> & Hfind & Hall);
        [|reflexivity].
      rewrite (handle_part_marks _ _ _ _ _ _ Hfind) in Hstep.
      injection Hstep as <-.
      now apply (liveRun_done _ _ _ _ _ _ _ Hrest).
    + now apply (IH sessions' final).
Qed.

(** X10. A live run ends (the bot disconnects and the promise of [main]
    is resolved) only in the listener of [part], at a part event of the
    bot itself on the channel of a session, and only if all sessions are
    done once this session is marked. Hence all sessions are done when a
    run has signalled its end; and a run with no session never signals
    its end, whatever the events. *)
Theorem completion_signal (todoStrings : list string) (project : Project.t)
    (onlyCommands dismissBots : bool) :
  (forall sessions event e,
     is_completion e = true ->
     In e (trace (handle todoStrings project onlyCommands dismissBots
                    sessions event))
     <->
     exists channel,
       event = Part channel botName
       /\ find (fun s => channel =? getChannel s) sessions <> None
       /\ forallb Session.done (mark_done channel sessions) = true)
  /\
  (forall events sessions final,
     outcome (liveRun todoStrings project onlyCommands dismissBots
                sessions events) = Return final ->
     In PromiseResolve
        (trace (liveRun todoStrings project onlyCommands dismissBots
                  sessions events)) ->
     forallb Session.done final = true)
  /\
  (forall events,
     ~ In PromiseResolve
          (trace (liveRun todoStrings project onlyCommands dismissBots
                    [] events))).
Proof.
  split; [apply handle_completion|]. split.
  - intros events. apply liveRun_resolved_done.
  - induction events as [|event events IH]; [intros []|].
    cbn [liveRun]. unfold bind.
    destruct (outcome (handle todoStrings project onlyCommands dismissBots
                         [] event)) as [sessions'|] eqn:Hstep;
      cbn [trace fst].
    + apply handle_empty in Hstep as ->.
      intros Hin. apply in_app_or in Hin as [Hin | Hin]; [|now apply IH].
      apply handle_completion in Hin as (c & _ & Hfind & _);
        [now apply Hfind | reflexivity].
    + intros Hin.
      apply handle_completion in Hin as (c & _ & Hfind & _);
        [now apply Hfind | reflexivity].
Qed.

Lemma mark_done_channels (channel : string) (sessions : list Session.t) :
  map getChannel (mark_done channel sessions) = map getChannel sessions.
Proof.
  induction sessions as [|s sessions IH]; simpl; [reflexivity|].
  destruct (channel =? getChannel s); simpl; [reflexivity | now rewrite IH].
Qed.

(** With one session for each channel, [mark_done] marks the sessions of
    the channel, all of them. *)
Lemma mark_done_map (channel : string) (sessions : list Session.t) :
  NoDup (map getChannel sessions) ->
  mark_done channel sessions
  = map (fun s => if channel =? getChannel s then Session.set_done s else s)
        sessions.
Proof.
  induction sessions as [|s sessions IH]; simpl; intros Hnd; [reflexivity|].
  apply NoDup_cons_iff in Hnd as [Hs Hnd].
  destruct (String.eqb_spec channel (getChannel s)) as [->|Hne].
  - f_equal. symmetry. rewrite <- (map_id sessions) at 2.
    apply map_ext_in. intros s' Hs'.
    destruct (String.eqb_spec (getChannel s) (getChannel s')) as [Heq|];
      [|reflexivity].
    exfalso. apply Hs. rewrite Heq. now apply in_map.
  - f_equal. now apply IH.
Qed.

Lemma forallb_false {A} (f : A -> bool) (l : list A) :
  forallb f l = false -> exists x, In x l /\ f x = false.
Proof.
  induction l as [|x l IH]; simpl; [discriminate|].
  destruct (f x) eqn:Hx.
  - intros H. destruct (IH H) as (y & Hy & Hfy). exists y. now split; [right|].
  - intros _. exists x. now split; [left|].
Qed.

Lemma handle_step_cases (todoStrings : list string) (project : Project.t)
    (onlyCommands dismissBots : bool) (sessions sessions' : list Session.t)
    (event : Event) :
  outcome (handle todoStrings project onlyCommands dismissBots sessions
             event) = Return sessions' ->
  (exists channel,
     event = Part channel botName
     /\ find (fun s => channel =? getChannel s) sessions <> None
     /\ sessions' = mark_done channel sessions)
  \/
  (sessions' = sessions
   /\ forall s, In s sessions -> event <> Part (getChannel s) botName).
Proof.
  intros Hstep.
  assert (Hother : sessions' = sessions ->
    (forall c, event = Part c botName ->
               find (fun s => c =? getChannel s) sessions = None) ->
    sessions' = sessions
    /\ forall s, In s sessions -> event <> Part (getChannel s) botName).
  { intros Heq Hnone. split; [assumption|]. intros s Hs Hev.
    apply (find_none _ _ (Hnone _ Hev)) in Hs.
    now rewrite String.eqb_refl in Hs. }
  destruct event as [command| |err|c n|c n];
    try (right; apply Hother;
         [ apply handle_sessions in Hstep as [H | (c' & [=] & _)];
           exact H
         | intros c' [=] ]).
  destruct (String.eqb_spec n botName) as [->|Hn].
  - destruct (find (fun s => c =? getChannel s) sessions) eqn:Hfind.
    + left. exists c. split; [reflexivity|].
      rewrite Hfind. split; [discriminate|].
      rewrite handle_part_marks in Hstep by (rewrite Hfind; discriminate).
      now injection Hstep.
    + right. apply Hother.
      * cbn [handle] in Hstep. rewrite onPart_unchanged in Hstep by tauto.
        now injection Hstep.
      * intros c' [= <-]. assumption.
  - right. apply Hother.
    + cbn [handle] in Hstep. rewrite onPart_unchanged in Hstep by tauto.
      now injection Hstep.
    + intros c' [= _ H]. contradiction.
Qed.

Lemma liveRun_completes (todoStrings : list string) (project : Project.t)
    (onlyCommands dismissBots : bool) (e : Effect) (events : list Event) :
  is_completion e = true ->
  forall sessions final,
    NoDup (map getChannel sessions) ->
    (exists s, In s sessions /\ Session.done s = false) ->
    (forall s, In s sessions ->
               Session.done s = true
               \/ In (Part (getChannel s) botName) events) ->
    outcome (liveRun todoStrings project onlyCommands dismissBots
               sessions events) = Return final ->
    In e (trace (liveRun todoStrings project onlyCommands dismissBots
                   sessions events)).
Proof.
  intros He.
  induction events as [|event events IH];
    intros sessions final Hnd (s0 & Hs0 & Hundone) Hcover Hrun.
  - destruct (Hcover s0 Hs0) as [H | []]. congruence.
  - cbn [liveRun] in Hrun |- *.
    destruct (bind_returned _ _ _ Hrun) as (sessions' & Hstep & Hrest).
    rewrite (bind_return _ _ sessions') by assumption.
    cbn [trace fst]. apply in_or_app.
    destruct (handle_step_cases _ _ _ _ _ _ _ Hstep)
      as [(c & -> & Hfind & ->) | (-> & Hother)].
    + destruct (forallb Session.done (mark_done c sessions)) eqn:Hall.
      * left. apply handle_completion; [assumption|]. now exists c.
      * right. apply (IH (mark_done c sessions) final).
        -- now rewrite mark_done_channels.
        -- now apply forallb_false.
        -- rewrite mark_done_map by assumption.
           intros s' Hs'. apply in_map_iff in Hs' as (s & <- & Hs).
           destruct (String.eqb_spec c (getChannel s)) as [->|Hne];
             [now left|].
           destruct (Hcover s Hs) as [H | [[= H] | H]];
             [now left | congruence | now right].
        -- assumption.
    + right. apply (IH sessions final); try assumption.
      * now exists s0.
      * intros s Hs. destruct (Hcover s Hs) as [H | [H | H]];
          [now left | | now right].
        exfalso. now apply (Hother s Hs).
Qed.

(** X11. A live run comes to its end: when the sessions have distinct
    channels and none is done, and the events hold a part event of the
    bot for the channel of every session (with no error thrown in
    between), the bot disconnects, the promise of [main] is resolved, and
    every session is done. *)
Theorem live_run_completes (todoStrings : list string) (project : Project.t)
    (onlyCommands dismissBots : bool) (sessions final : list Session.t)
    (events : list Event) :
  sessions <> [] ->
  NoDup (map getChannel sessions) ->
  Forall (fun s => Session.done s = false) sessions ->
  (forall s, In s sessions -> In (Part (getChannel s) botName) events) ->
  outcome (liveRun todoStrings project onlyCommands dismissBots sessions
             events) = Return final ->
  let t := trace (liveRun todoStrings project onlyCommands dismissBots
                    sessions events) in
  In BotDisconnect t /\ In PromiseResolve t
  /\ forallb Session.done final = true.
Proof.
  intros Hne Hnd Hstart Hcover Hrun t.
  assert (Hin : forall e, is_completion e = true -> In e t).
  { intros e He.
    apply (liveRun_completes _ _ _ _ e events He sessions final);
      try assumption.
    - destruct sessions as [|s sessions]; [contradiction|].
      exists s. split; [now left|].
      now apply Forall_inv in Hstart.
    - intros s Hs. right. now apply Hcover. }
  split; [now apply Hin|]. split; [now apply Hin|].
  apply (liveRun_resolved_done _ _ _ _ events sessions final Hrun).
  now apply Hin.
Qed.

Lemma live_run_completes_witness :
  In PromiseResolve
     (trace (liveRun Sample.todoStrings Sample.project false true
               [Sample.s7; Sample.s31]
               [Part "#wot" botName; Join "#fonts" "Zakim";
                Part "#fonts" botName])).
Proof.
  refine (proj1 (proj2 (live_run_completes Sample.todoStrings
                          Sample.project false true
                          [Sample.s7; Sample.s31]
                          [Session.set_done Sample.s7;
                           Session.set_done Sample.s31]
                          [Part "#wot" botName; Join "#fonts" "Zakim";
                           Part "#fonts" botName] _ _ _ _ _))).
  - discriminate.
  - repeat constructor; simpl; intuition discriminate.
  - repeat constructor.
  - intros s [<- | [<- | []]]; simpl; tauto.
  - reflexivity.
Defined.

(** ** The order of the channels *)

Lemma first_occurrences_In (l : list string) (x : string) :
  In x (first_occurrences l) <-> In x l.
Proof.
  induction l as [|y l IH]; simpl; [tauto|].
  rewrite filter_In, IH, negb_true_iff, String.eqb_neq.
  destruct (string_dec y x) as [->|Hne]; [tauto|].
  split; [tauto|]. intros [H | H]; [contradiction|].
  right. split; [assumption | congruence].
Qed.

Lemma first_occurrences_snoc (l : list string) (x : string) :
  first_occurrences (l ++ [x])
  = if existsb (String.eqb x) l
    then first_occurrences l
    else (first_occurrences l ++ [x])%list.
Proof.
  induction l as [|y l IH]; simpl; [reflexivity|].
  rewrite IH.
  destruct (String.eqb_spec x y) as [->|Hne]; simpl.
  - destruct (existsb (String.eqb y) l); [reflexivity|].
    rewrite filter_app. simpl. rewrite String.eqb_refl. simpl.
    now rewrite app_nil_r.
  - destruct (existsb (String.eqb x) l); [reflexivity|].
    rewrite filter_app. simpl.
    apply String.eqb_neq in Hne. now rewrite Hne.
Qed.

Lemma first_occurrences_NoDup (l : list string) :
  NoDup (first_occurrences l).
Proof.
  induction l as [|x l IH]; simpl; constructor.
  - rewrite filter_In, String.eqb_refl. intros [_ H]. discriminate.
  - now apply NoDup_filter.
Qed.

(** The properties of [channels] are created in the order in which the
    channels occur first. *)
Lemma computeChannels_keys (project : Project.t) (rest seen : list Session.t)
    (channels channels' : JSObject (list Session.t)) :
  map fst channels = first_occurrences (map getChannel seen) ->
  outcome (computeChannels project rest channels) = Return channels' ->
  map fst channels'
  = first_occurrences (map getChannel (seen ++ rest)).
Proof.
  revert seen channels.
  induction rest as [|s rest IH]; intros seen channels Hkeys Hrun.
  - injection Hrun as <-. now rewrite app_nil_r.
  - cbn [computeChannels] in Hrun.
    apply bind_returned in Hrun as (channels1 & Hadd & Hrun).
    unfold addSession in Hadd.
    destruct (inherited (getChannel s)); [discriminate|].
    injection Hadd as <-.
    replace (seen ++ s :: rest)%list with ((seen ++ [s]) ++ rest)%list
      by now rewrite <- app_assoc.
    apply (fun H => IH _ _ H Hrun). clear IH Hrun.
    rewrite keys_set_own, map_app. cbn [map].
    rewrite first_occurrences_snoc.
    destruct (existsb (String.eqb (getChannel s)) (map getChannel seen))
      eqn:Hex.
    + apply existsb_exists in Hex as (c & Hc & Heq).
      apply String.eqb_eq in Heq. subst c.
      apply (proj2 (first_occurrences_In _ _)) in Hc.
      rewrite <- Hkeys in Hc.
      destruct (get_own channels (getChannel s)) eqn:Hget;
        [assumption|].
      apply get_own_None in Hget. contradiction.
    + destruct (get_own channels (getChannel s)) eqn:Hget;
        [|now rewrite Hkeys].
      exfalso. apply get_own_In in Hget.
      apply (in_map fst) in Hget. cbn [fst] in Hget.
      rewrite Hkeys in Hget.
      apply (proj1 (first_occurrences_In _ _)) in Hget.
      assert (existsb (String.eqb (getChannel s)) (map getChannel seen)
              = true); [|congruence].
      apply existsb_exists. exists (getChannel s).
      split; [assumption | apply String.eqb_refl].
Qed.

(** The loop returns exactly when no session has an inherited name. *)
Lemma computeChannels_returned (project : Project.t)
    (sessions : list Session.t) (channels channels' : JSObject (list Session.t)) :
  outcome (computeChannels project sessions channels) = Return channels' ->
  Forall (fun s => inherited (getChannel s) = false) sessions.
Proof.
  revert channels. induction sessions as [|s sessions IH];
    intros channels Hrun; [constructor|].
  cbn [computeChannels] in Hrun.
  apply bind_returned in Hrun as (channels1 & Hadd & Hrun).
  unfold addSession in Hadd.
  destruct (inherited (getChannel s)) eqn:Hs; [discriminate|].
  constructor; [assumption | now apply (IH channels1)].
Qed.

Lemma own_entries_plain {V} (o : JSObject V) :
  Forall (fun k => array_index k = None) (map fst o) ->
  own_entries o = o.
Proof.
  intros Hplain. unfold own_entries.
  assert (Hno : forall entry, In entry o -> is_array_index entry = false).
  { intros entry Hin. rewrite Forall_forall in Hplain.
    unfold is_array_index. now rewrite (Hplain (fst entry) (in_map fst _ _ Hin)). }
  rewrite (filter_none _ _ Hno). simpl.
  rewrite <- (forallb_filter_id (fun entry => negb (is_array_index entry)) o)
    at 2; [reflexivity|].
  apply forallb_forall. intros entry Hin. now rewrite (Hno entry Hin).
Qed.

Lemma representatives_channels (entries : JSObject (list Session.t))
    (reps : list Session.t) :
  (forall c g, In (c, g) entries ->
               exists r others, g = r :: others /\ getChannel r = c) ->
  all_defined (map (@hd_error Session.t) (map snd entries)) = Some reps ->
  map getChannel reps = map fst entries.
Proof.
  revert reps. induction entries as [|[c g] entries IH];
    intros reps Hheads Hreps.
  - injection Hreps as <-. reflexivity.
  - destruct (Hheads c g (or_introl eq_refl)) as (r & others & -> & Hc).
    simpl in Hreps.
    destruct (all_defined (map (@hd_error Session.t) (map snd entries)))
      as [reps'|] eqn:Hrest; [|discriminate].
    injection Hreps as <-. simpl. rewrite Hc. f_equal.
    apply IH; [|reflexivity].
    intros c' g' Hin. apply Hheads. now right.
Qed.

(** X12. After the loop, [channels] has its properties in the order in
    which the channel identifiers occur first in the sessions; their
    number is the number of distinct identifiers. The first sessions of
    the arrays of [channels] have the channels of [Object.keys(channels)],
    in this order: the order of first occurrence when no identifier is an
    array index. When the retrieval returns these sessions, [main] prints
    the lines of the retrieval, then "- found <n> different IRC channels"
    with this number between "Compute IRC channels..." and "Compute IRC
    channels... done", and goes on with these first sessions, and no
    other, in the dry run and in the live run. *)
Theorem channels_in_order (project : Project.t) (sessions : list Session.t)
    (channels : JSObject (list Session.t)) :
  outcome (computeChannels project sessions []) = Return channels ->
  let identifiers := map getChannel sessions in
  map fst channels = first_occurrences identifiers
  /\ length (Object_keys channels)
     = length (nodup string_dec identifiers)
  /\ exists reps,
       all_defined (representatives channels) = Some reps
       /\ map getChannel reps = Object_keys channels
       /\ (Forall (fun c => array_index c = None) identifiers ->
           map getChannel reps = first_occurrences identifiers)
       /\ (forall todoStrings validateSession owner number args events
                  printed,
             retrieveSessions validateSession owner number project
               (Args.number args) (Args.slot args)
             = (printed, Return sessions) ->
             let continuation :=
               if Args.onlyCommands args then
                 dryRun todoStrings project true (Args.dismissBots args)
                   reps ;;
                 ret reps
               else
                 emit (BotConnect "irc.w3.org" botName) ;;
                 liveRun todoStrings project false (Args.dismissBots args)
                   reps events in
             main todoStrings validateSession owner number (Some project)
               args events
             = (([ ConsoleLog "";
                   ConsoleLog ("Retrieve project " ++ (owner ++ "/" ++ number)
                               ++ "...") ]
                 ++ printed
                 ++ [ ConsoleLog "Compute IRC channels...";
                      ConsoleLog
                        ("- found "
                         ++ show_number
                              (Z.of_nat
                                 (length (nodup string_dec identifiers)))
                         ++ " different IRC channels");
                      ConsoleLog "Compute IRC channels... done";
                      ConsoleLog "";
                      ConsoleLog "Connect to W3C IRC server..." ]
                 ++ trace continuation)%list,
                outcome continuation)).
Proof.
  intros Hrun identifiers.
  pose proof (computeChannels_keys project sessions [] [] channels
                eq_refl Hrun) as Hkeys.
  cbn [app] in Hkeys. fold identifiers in Hkeys.
  pose proof (computeChannels_returned _ _ _ _ Hrun) as Hnames.
  destruct (computeChannels_grouped project sessions [] [])
    as (channels0 & Hloop & Hinv); [|assumption|].
  { split; [constructor | reflexivity]. }
  cbn [app] in Hinv.
  assert (channels0 = channels) by (rewrite Hloop in Hrun; now injection Hrun).
  subst channels0.
  assert (Hheads : forall c g, In (c, g) (own_entries channels) ->
    exists r others, g = r :: others /\ getChannel r = c).
  { intros c g Hin.
    apply (Permutation_in _ (own_entries_perm channels)) in Hin.
    destruct (grouped_entry _ _ _ _ _ Hinv Hin) as (Hg & r & others & ->).
    exists r, others. split; [reflexivity|].
    assert (Hr : In r (spec_group project c sessions))
      by (rewrite <- Hg; now left).
    apply sort_by_In, filter_In in Hr as [_ Hr].
    now apply String.eqb_eq in Hr. }
  split; [exact Hkeys|]. split.
  - unfold Object_keys. rewrite length_map.
    rewrite (Permutation_length (own_entries_perm channels)).
    rewrite <- (length_map fst), Hkeys.
    apply Permutation_length, NoDup_Permutation.
    + apply first_occurrences_NoDup.
    + apply NoDup_nodup.
    + intros c. now rewrite first_occurrences_In, nodup_In.
  - destruct (all_defined_Some (representatives channels))
      as (reps & Hreps & _).
    { intros x Hx. unfold representatives, Object_values in Hx.
      apply in_map_iff in Hx as (g & <- & Hg).
      apply in_map_iff in Hg as ([c g'] & <- & Hin).
      destruct (Hheads c g' Hin) as (r & others & -> & _). discriminate. }
    exists reps. split; [exact Hreps|].
    assert (Hchannels : map getChannel reps = Object_keys channels).
    { apply representatives_channels; assumption. }
    split; [exact Hchannels|]. split.
    + intros Hplain. rewrite Hchannels. unfold Object_keys.
      rewrite own_entries_plain; [exact Hkeys|].
      rewrite Hkeys, Forall_forall. intros c Hc.
      apply (proj1 (first_occurrences_In _ _)) in Hc.
      rewrite Forall_forall in Hplain. now apply Hplain.
    + intros todoStrings validateSession owner number args events printed
        Hretrieve continuation.
      assert (Hcount : show_length (Object_keys channels)
                       = show_number
                           (Z.of_nat
                              (length (nodup string_dec identifiers)))).
      { unfold show_length. do 2 f_equal.
        unfold Object_keys. rewrite length_map.
        rewrite (Permutation_length (own_entries_perm channels)).
        rewrite <- (length_map fst), Hkeys.
        apply Permutation_length, NoDup_Permutation.
        - apply first_occurrences_NoDup.
        - apply NoDup_nodup.
        - intros c. now rewrite first_occurrences_In, nodup_In. }
      unfold main.
      rewrite (bind_return _ _ tt) by reflexivity.
      rewrite (bind_return _ _ tt) by reflexivity.
      rewrite (bind_return _ _ sessions) by (now rewrite Hretrieve).
      rewrite (bind_return _ _ tt) by reflexivity.
      rewrite (bind_return _ _ channels) by (now rewrite Hloop).
      rewrite Hreps, Hcount, Hretrieve.
      repeat rewrite (bind_return _ _ tt) by reflexivity.
      fold continuation. rewrite Hloop.
      cbn [trace outcome fst snd console_log emit].
      reflexivity.
Qed.

Lemma channels_in_order_witness :
  map fst [("#fonts", [Sample.s7]); ("#wot", [Sample.s31; Sample.s15])]
  = first_occurrences ["#fonts"; "#wot"; "#wot"].
Proof.
  apply (channels_in_order Sample.project
           [Sample.s7; Sample.s15; Sample.s31]
           [("#fonts", [Sample.s7]); ("#wot", [Sample.s31; Sample.s15])]).
  reflexivity.
Defined.

(** ** Sessions of one channel in the same slot *)

(** The sort is stable at its head: the first element of the result is
    the first element of the array that has the least key. *)
Lemma sort_by_head_first {A} (key : A -> Z) (l : list A) (first : A)
    (others : list A) :
  sort_by key l = first :: others ->
  exists l1 l2,
    l = (l1 ++ first :: l2)%list
    /\ Forall (fun x => key first < key x) l1
    /\ Forall (fun x => key first <= key x) l2.
Proof.
  revert first others. induction l as [|x l IH] using rev_ind;
    intros first others Hsort; [discriminate|].
  rewrite sort_by_snoc in Hsort.
  destruct (sort_by key l) as [|h t] eqn:Hl.
  - assert (l = []) as ->.
    { apply Permutation_nil. rewrite <- Hl. apply sort_by_perm. }
    injection Hsort as <- <-. exists [], []. now repeat split.
  - simpl in Hsort. destruct (Z.leb_spec (key h) (key x)) as [Hle | Hlt].
    + injection Hsort as <- <-.
      destruct (IH h t eq_refl) as (l1 & l2 & -> & H1 & H2).
      exists l1, (l2 ++ [x])%list. rewrite <- app_assoc. split; [reflexivity|].
      split; [assumption|]. apply Forall_app. split; [assumption|].
      now constructor.
    + injection Hsort as <- <-.
      exists l, []. split; [reflexivity|]. split; [|constructor].
      apply Forall_forall. intros y Hy.
      pose proof (sort_by_head key l h t Hl y Hy). lia.
Qed.

Lemma ordered_after {A} (key : A -> Z) (l1 l2 : list A) (x : A) :
  StronglySorted (fun a b => key a <= key b) (l1 ++ x :: l2) ->
  Forall (fun y => key x <= key y) l2.
Proof.
  induction l1 as [|y l1 IH]; simpl; intros H.
  - now apply StronglySorted_inv in H as [_ H].
  - apply StronglySorted_inv in H as [H _]. now apply IH.
Qed.

(** X13. Which session stands for a channel: among the sessions of the
    channel, in their order, the first one whose slot has the least
    index. As [main] sorts the sessions by number before the loop, it is
    the session of the least number among those of the channel whose slot
    has the least index. *)
Theorem representative_of_a_channel (project : Project.t)
    (sessions : list Session.t) (channels : JSObject (list Session.t))
    (channel : string) (representative : Session.t)
    (others : list Session.t) :
  outcome (computeChannels project sessions []) = Return channels ->
  get_own channels channel = Some (representative :: others) ->
  (exists earlier later,
     filter (fun s => getChannel s =? channel) sessions
     = (earlier ++ representative :: later)%list
     /\ Forall (fun s => slotIndex project representative
                         < slotIndex project s) earlier
     /\ Forall (fun s => slotIndex project representative
                         <= slotIndex project s) later)
  /\
  (StronglySorted (fun a b => Session.number a <= Session.number b)
                  sessions ->
   forall s, In s sessions -> getChannel s = channel ->
             slotIndex project s = slotIndex project representative ->
             Session.number representative <= Session.number s).
Proof.
  intros Hrun Hget.
  pose proof (computeChannels_returned _ _ _ _ Hrun) as Hnames.
  destruct (computeChannels_grouped project sessions [] [])
    as (channels0 & Hloop & Hinv); [|assumption|].
  { split; [constructor | reflexivity]. }
  cbn [app] in Hinv.
  assert (channels0 = channels)
    by (rewrite Hloop in Hrun; now injection Hrun).
  subst channels0.
  destruct (grouped_entry _ _ _ _ _ Hinv (get_own_In _ _ _ Hget))
    as (Hgroup & _).
  unfold spec_group in Hgroup. symmetry in Hgroup.
  destruct (sort_by_head_first _ _ _ _ Hgroup)
    as (earlier & later & Hsplit & Hearlier & Hlater).
  split; [now exists earlier, later|].
  intros Hsorted s Hs Hchannel Hslot.
  assert (Hin : In s (filter (fun s => getChannel s =? channel) sessions)).
  { apply filter_In. split; [assumption | now apply String.eqb_eq]. }
  pose proof (filter_ordered Session.number
                (fun s => getChannel s =? channel) sessions Hsorted)
    as Hfiltered.
  rewrite Hsplit in Hin, Hfiltered.
  apply in_app_or in Hin as [Hin | [<- | Hin]].
  - rewrite Forall_forall in Hearlier. specialize (Hearlier s Hin). lia.
  - lia.
  - apply ordered_after in Hfiltered.
    rewrite Forall_forall in Hfiltered. now apply Hfiltered.
Qed.

Lemma representative_of_a_channel_witness :
  exists earlier later,
    filter (fun s => getChannel s =? "#wot")
           [Sample.s7; Sample.s15; Sample.s22; Sample.s31]
    = (earlier ++ Sample.s31 :: later)%list
    /\ Forall (fun s => slotIndex Sample.project Sample.s31
                        < slotIndex Sample.project s) earlier
    /\ Forall (fun s => slotIndex Sample.project Sample.s31
                        <= slotIndex Sample.project s) later.
Proof.
  apply (representative_of_a_channel Sample.project
           [Sample.s7; Sample.s15; Sample.s22; Sample.s31]
           [("#fonts", [Sample.s7]);
            ("#wot", [Sample.s31; Sample.s22; Sample.s15])]
           "#wot" Sample.s31 [Sample.s22; Sample.s15]).
  - reflexivity.
  - reflexivity.
Defined.

(** ** The errors of [main] *)

Lemma bind_thrown {A B} (r : Run A) (k : A -> Run B) (e : Exception) :
  outcome (bind r k) = Throw e ->
  outcome r = Throw e
  \/ exists a, outcome r = Return a /\ outcome (k a) = Throw e.
Proof.
  unfold bind. destruct (outcome r) as [a|e'].
  - intros H. right. now exists a.
  - intros [= ->]. now left.
Qed.

Lemma computeChannels_thrown (project : Project.t)
    (sessions : list Session.t) (channels : JSObject (list Session.t))
    (e : Exception) :
  outcome (computeChannels project sessions channels) = Throw e ->
  e = TypeError "channels[channel].push is not a function"
  /\ exists s, In s sessions /\ inherited (getChannel s) = true.
Proof.
  revert channels. induction sessions as [|s sessions IH];
    intros channels Hrun; [discriminate|].
  cbn [computeChannels] in Hrun.
  apply bind_thrown in Hrun as [Hadd | (channels1 & _ & Hrun)].
  - unfold addSession in Hadd.
    destruct (inherited (getChannel s)) eqn:Hs; [|discriminate].
    injection Hadd as <-. split; [reflexivity|].
    exists s. now split; [left|].
  - destruct (IH _ Hrun) as (He & s' & Hs' & Hinh).
    split; [assumption|]. exists s'. now split; [right|].
Qed.

Lemma representatives_defined (project : Project.t)
    (sessions : list Session.t) (channels : JSObject (list Session.t)) :
  outcome (computeChannels project sessions []) = Return channels ->
  exists reps, all_defined (representatives channels) = Some reps.
Proof.
  intros Hrun.
  pose proof (computeChannels_returned _ _ _ _ Hrun) as Hnames.
  destruct (computeChannels_grouped project sessions [] [])
    as (channels0 & Hloop & Hinv); [|assumption|].
  { split; [constructor | reflexivity]. }
  cbn [app] in Hinv.
  assert (channels0 = channels)
    by (rewrite Hloop in Hrun; now injection Hrun).
  subst channels0.
  destruct (all_defined_Some (representatives channels))
    as (reps & Hreps & _); [|now exists reps].
  intros x Hx. unfold representatives, Object_values in Hx.
  apply in_map_iff in Hx as (g & <- & Hg).
  apply in_map_iff in Hg as ([c g'] & <- & Hin).
  apply (Permutation_in _ (own_entries_perm channels)) in Hin.
  destruct (grouped_entry _ _ _ _ _ Hinv Hin) as (_ & r & others & ->).
  discriminate.
Qed.

Lemma for_of_returns {A} (xs : list A) (body : A -> Run unit) :
  (forall x, outcome (body x) = Return tt) ->
  outcome (for_of xs body) = Return tt.
Proof.
  intros H. induction xs as [|x xs IH]; [reflexivity|].
  cbn [for_of]. now rewrite (bind_return _ _ tt).
Qed.

Lemma bind_returns {A B} (r : Run A) (k : A -> Run B) (a : A) (b : B) :
  outcome r = Return a -> outcome (k a) = Return b ->
  outcome (bind r k) = Return b.
Proof.
  intros Hr Hk. unfold bind. now rewrite Hr.
Qed.

Lemma dryRun_returns (todoStrings : list string) (project : Project.t)
    (onlyCommands dismissBots : bool) (sessions : list Session.t) :
  outcome (dryRun todoStrings project onlyCommands dismissBots sessions)
  = Return tt.
Proof.
  unfold dryRun. apply for_of_returns. intros session.
  unfold dryRunSession, send_commands.
  repeat (apply (bind_returns _ _ tt); [reflexivity|]).
  apply (bind_returns _ _ tt);
    [unfold joinChannel; destruct onlyCommands; reflexivity|].
  apply (bind_returns _ _ tt); [apply sendChannelBotCommands_returns|].
  apply (bind_returns _ _ tt); [|reflexivity].
  destruct (negb dismissBots);
    [apply sendChannelBotCommands_returns | reflexivity].
Qed.

Lemma handle_thrown (todoStrings : list string) (project : Project.t)
    (onlyCommands dismissBots : bool) (sessions : list Session.t)
    (event : Event) (e : Exception) :
  outcome (handle todoStrings project onlyCommands dismissBots sessions
             event) = Throw e ->
  exists err,
    event = ErrorEvent err
    /\ IrcError.command err <> "err_useronchannel"
    /\ e = Rethrown err.
Proof.
  destruct event as [command| |err|c n|c n]; cbn [handle]; intros H.
  - exfalso. apply bind_thrown in H as [H | (_ & _ & H)]; [|discriminate].
    unfold onRegistered in H.
    rewrite !(bind_return _ _ tt) in H by reflexivity.
    rewrite for_of_returns in H; [discriminate|].
    intros s. rewrite !(bind_return _ _ tt) by reflexivity.
    unfold joinChannel. destruct onlyCommands; reflexivity.
  - discriminate.
  - unfold onError, send_commands in H.
    destruct (String.eqb_spec (IrcError.command err) "err_useronchannel")
      as [Hcommand | Hcommand].
    + exfalso.
      destruct (nth_error (IrcError.args err) 1);
        [destruct (nth_error (IrcError.args err) 2)|];
        try discriminate.
      rewrite (bind_return _ _ tt) in H
        by apply sendChannelBotCommands_returns.
      discriminate.
    + exists err. injection H as <-. now repeat split.
  - exfalso. unfold onJoin, send_commands in H.
    rewrite (bind_return _ _ tt) in H
      by apply sendChannelBotCommands_returns.
    discriminate.
  - exfalso. unfold onPart in H.
    destruct (negb (n =? botName)); [discriminate|].
    destruct (find _ sessions); [|discriminate].
    destruct (forallb Session.done (mark_done c sessions)); discriminate.
Qed.

Lemma liveRun_thrown (todoStrings : list string) (project : Project.t)
    (onlyCommands dismissBots : bool) (events : list Event)
    (sessions : list Session.t) (e : Exception) :
  outcome (liveRun todoStrings project onlyCommands dismissBots sessions
             events) = Throw e ->
  exists err,
    In (ErrorEvent err) events
    /\ IrcError.command err <> "err_useronchannel"
    /\ e = Rethrown err.
Proof.
  revert sessions. induction events as [|event events IH];
    intros sessions H; [discriminate|].
  cbn [liveRun] in H.
  apply bind_thrown in H as [H | (sessions' & _ & H)].
  - apply handle_thrown in H as (err & -> & Hcommand & ->).
    exists err. now repeat split; [left|..].
  - destruct (IH _ H) as (err & Hin & Hcommand & ->).
    exists err. now repeat split; [right|..].
Qed.

(** X14. The errors that [main] throws of its own, once the calls that it
    awaits have resolved: the environment keys are read, [fetchProject]
    has resolved to [fetched], and [validateSession] has returned its
    findings (a rejection of one of these calls is no part of the
    statement). Then [main] ends with an error only because the project
    could not be retrieved; or because the retrieval of the sessions
    throws (a requested session is not found, or has errors); or because
    a valid session has an inherited property name as its channel
    identifier; or, in a live run only, because the IRC client reports an
    error other than "already on channel", which is thrown again as it
    is. A dry run with a retrieved project and well-named channels fails
    for no other reason than the retrieval of the sessions. *)
Theorem errors_of_main (todoStrings : list string)
    (validateSession : Z -> Project.t -> list Finding.t)
    (PROJECT_OWNER PROJECT_NUMBER : string) (fetched : option Project.t)
    (args : Args.t) (events : list Event) (e : Exception) :
  outcome (main todoStrings validateSession PROJECT_OWNER PROJECT_NUMBER
             fetched args events) = Throw e ->
  (fetched = None
   /\ e = Error ("Project " ++ (PROJECT_OWNER ++ "/" ++ PROJECT_NUMBER)
                 ++ " could not be retrieved"))
  \/
  exists project,
    fetched = Some project
    /\ let retrieved :=
         outcome (retrieveSessions validateSession PROJECT_OWNER
                    PROJECT_NUMBER project (Args.number args)
                    (Args.slot args)) in
       (retrieved = Throw e
        \/ (exists sessions s,
              retrieved = Return sessions
              /\ In s sessions /\ inherited (getChannel s) = true
              /\ e = TypeError "channels[channel].push is not a function")
        \/ (Args.onlyCommands args = false
            /\ exists err,
                 In (ErrorEvent err) events
                 /\ IrcError.command err <> "err_useronchannel"
                 /\ e = Rethrown err)).
Proof.
  intros H. unfold main in H.
  rewrite !(bind_return _ _ tt) in H by reflexivity.
  cbn [outcome snd] in H.
  destruct fetched as [project|].
  2: { left. injection H as <-. now split. }
  right. exists project. split; [reflexivity|]. intros retrieved.
  apply bind_thrown in H as [H | (sessions & Hretrieved & H)];
    [now left | right].
  rewrite (bind_return _ _ tt) in H by reflexivity.
  apply bind_thrown in H as [H | (channels & Hchannels & H)].
  - left. apply computeChannels_thrown in H as (-> & s & Hs & Hinh).
    now exists sessions, s.
  - right.
    destruct (representatives_defined _ _ _ Hchannels) as (reps & Hreps).
    rewrite Hreps in H.
    rewrite !(bind_return _ _ tt) in H by reflexivity.
    destruct (Args.onlyCommands args).
    + rewrite (bind_return _ _ tt) in H by apply dryRun_returns.
      discriminate.
    + split; [reflexivity|].
      rewrite (bind_return _ _ tt) in H by reflexivity.
      now apply liveRun_thrown in H.
Qed.

Lemma errors_of_main_witness :
  (Some Sample.project = None
   /\ Rethrown (IrcError.mk "err_nosuchnick" ["Zakim"])
      = Error ("Project " ++ ("w3c" ++ "/" ++ "57")
               ++ " could not be retrieved"))
  \/
  exists project,
    Some Sample.project = Some project
    /\ let retrieved :=
         outcome (retrieveSessions Sample.validateSession "w3c" "57"
                    project None None) in
       (retrieved = Throw (Rethrown (IrcError.mk "err_nosuchnick" ["Zakim"]))
        \/ (exists sessions s,
              retrieved = Return sessions
              /\ In s sessions /\ inherited (getChannel s) = true
              /\ Rethrown (IrcError.mk "err_nosuchnick" ["Zakim"])
                 = TypeError "channels[channel].push is not a function")
        \/ (false = false
            /\ exists err,
                 In (ErrorEvent err)
                    [Registered "rpl_welcome";
                     ErrorEvent (IrcError.mk "err_nosuchnick" ["Zakim"])]
                 /\ IrcError.command err <> "err_useronchannel"
                 /\ Rethrown (IrcError.mk "err_nosuchnick" ["Zakim"])
                    = Rethrown err)).
Proof.
  apply (errors_of_main Sample.todoStrings Sample.validateSession
           "w3c" "57" (Some Sample.project) (Args.mk None None false false)
           [Registered "rpl_welcome";
            ErrorEvent (IrcError.mk "err_nosuchnick" ["Zakim"])]
           (Rethrown (IrcError.mk "err_nosuchnick" ["Zakim"]))).
  reflexivity.
Defined.

(** ** When the bot sets a topic and invites the bots *)

Lemma sends_in_send (todoStrings : list string) (project : Project.t)
    (onlyCommands dismissBots : bool) (sessions : list Session.t)
    (channel nick command : string) (args : list string) :
  In (BotSend command args)
     (trace (sendChannelBotCommands todoStrings project onlyCommands
               dismissBots sessions channel nick))
  <->
  onlyCommands = false /\ dismissBots = false /\ nick = botName
  /\ exists session,
       find (fun s => channel =? getChannel s) sessions = Some session
       /\ In (BotSend command args)
             (trace (setTopic project false session)
              ++ [ BotSend "INVITE" ["Zakim"; channel];
                   BotSend "INVITE" ["RRSAgent"; channel] ])%list.
Proof.
  assert (Hsaid : forall msgs,
    ~ In (BotSend command args)
         (said onlyCommands channel msgs
          ++ (if onlyCommands then [] else [BotPart channel]))%list).
  { intros msgs. apply (not_in_trace is_send); [|reflexivity].
    rewrite existsb_app, existsb_said by reflexivity.
    now destruct onlyCommands. }
  destruct (find (fun s => channel =? getChannel s) sessions)
    as [session|] eqn:Hfind.
  2: { rewrite no_session by assumption. split; [intros [] |].
       intros (_ & _ & _ & session & [=] & _). }
  destruct (String.eqb_spec nick botName) as [->|Hbot].
  - destruct dismissBots.
    + rewrite (driving_bot_dismiss _ _ _ _ _ _ Hfind). cbn [trace fst].
      split; [intros H; now apply Hsaid in H|].
      intros (_ & [=] & _).
    + rewrite (driving_bot_setup _ _ _ _ _ _ Hfind). cbn [trace fst].
      destruct (find_channel _ _ _ Hfind) as [_ Hchannel].
      rewrite !inviteBot_run, Hchannel. cbn [trace fst].
      destruct onlyCommands.
      * split; [|intros ([=] & _)].
        intros Hin. exfalso. revert Hin.
        apply (not_in_trace is_send); [|reflexivity].
        unfold setTopic. reflexivity.
      * split.
        -- intros Hin. repeat split. exists session.
           split; [reflexivity|].
           rewrite !in_app_iff in *. simpl in *.
           intuition discriminate.
        -- intros (_ & _ & _ & session' & [= <-] & Hin).
           rewrite !in_app_iff in *. simpl in *. intuition.
  - split.
    + destruct (String.eqb_spec nick "RRSAgent") as [->|Hrrs].
      * rewrite (rrsagent_joined _ _ _ _ _ _ _ Hfind). cbn [trace fst].
        intros H. now apply Hsaid in H.
      * rewrite other_nick_joined by assumption. intros [].
    + intros (_ & _ & Hnick & _). contradiction.
Qed.

(** X15. In a live run the bot sends a raw command to the server in
    response to an event exactly when dismiss mode is off and the event is
    the arrival of the bot itself on the channel of a session; the
    commands are then the topic of this session and the invitations of
    Zakim and of RRSAgent to this channel. The arrival of RRSAgent or of
    Zakim never makes the bot set the topic or invite again. *)
Theorem bot_sends_commands (todoStrings : list string) (project : Project.t)
    (dismissBots : bool) (sessions : list Session.t) (event : Event)
    (command : string) (args : list string) :
  In (BotSend command args)
     (trace (handle todoStrings project false dismissBots sessions event))
  <->
  dismissBots = false
  /\ exists channel session,
       arrival event channel botName
       /\ find (fun s => channel =? getChannel s) sessions = Some session
       /\ In (BotSend command args)
             (trace (setTopic project false session)
              ++ [ BotSend "INVITE" ["Zakim"; channel];
                   BotSend "INVITE" ["RRSAgent"; channel] ])%list.
Proof.
  assert (Hsend : forall c n,
    In (BotSend command args)
       (trace (bind (sendChannelBotCommands todoStrings project false
                       dismissBots sessions c n)
                    (fun _ => ret sessions)))
    <-> dismissBots = false /\ n = botName
        /\ exists session,
             find (fun s => c =? getChannel s) sessions = Some session
             /\ In (BotSend command args)
                   (trace (setTopic project false session)
                    ++ [ BotSend "INVITE" ["Zakim"; c];
                         BotSend "INVITE" ["RRSAgent"; c] ])%list).
  { intros c n.
    rewrite (bind_return _ _ tt) by apply sendChannelBotCommands_returns.
    cbn [trace fst ret]. rewrite app_nil_r, sends_in_send. tauto. }
  destruct event as [cmd| |err|c n|c n]; cbn [handle].
  - split.
    + intros Hin. exfalso. revert Hin.
      apply (not_in_trace is_send); [|reflexivity].
      unfold onRegistered.
      apply bind_existsb; [|reflexivity].
      apply bind_existsb; [reflexivity | intros _].
      apply bind_existsb; [reflexivity | intros _].
      apply for_of_existsb. reflexivity.
    + intros (_ & c & s & [H | (err & H & _)] & _); discriminate.
  - split; [intros [] |].
    intros (_ & c & s & [H | (err & H & _)] & _); discriminate.
  - unfold onError, send_commands.
    destruct (String.eqb_spec (IrcError.command err) "err_useronchannel")
      as [Hcommand | Hcommand].
    + destruct (nth_error (IrcError.args err) 1) as [n|] eqn:Hnick.
      * destruct (nth_error (IrcError.args err) 2) as [c|] eqn:Hchannel.
        -- rewrite Hsend. split.
           ++ intros (Hd & -> & session & Hfind & Hin).
              split; [assumption|]. exists c, session.
              split; [|now split].
              right. exists err. now repeat split.
           ++ intros (Hd & c' & session
                      & [H | (err' & [= <-] & _ & H1 & H2)] & Hfind & Hin);
                [discriminate|].
              rewrite Hnick in H1. rewrite Hchannel in H2.
              injection H1 as ->. injection H2 as ->.
              split; [assumption|]. split; [reflexivity|].
              now exists session.
        -- split; [intros [] |].
           intros (_ & c' & s & [H | (err' & [= <-] & _ & _ & H2)] & _);
             [discriminate | congruence].
      * split; [intros [] |].
        intros (_ & c' & s & [H | (err' & [= <-] & _ & H1 & _)] & _);
          [discriminate | congruence].
    + split; [intros [] |].
      intros (_ & c' & s & [H | (err' & [= <-] & H0 & _)] & _);
        [discriminate | contradiction].
  - unfold onJoin, send_commands. rewrite Hsend. split.
    + intros (Hd & -> & session & Hfind & Hin).
      split; [assumption|]. exists c, session.
      split; [now left | now split].
    + intros (Hd & c' & session & [[= <- <-] | (err & H & _)] & Hfind & Hin);
        [|discriminate].
      split; [assumption|]. split; [reflexivity|]. now exists session.
  - split.
    + intros Hin. exfalso. revert Hin.
      apply (not_in_trace is_send); [|reflexivity].
      unfold onPart.
      destruct (negb (n =? botName)); [reflexivity|].
      destruct (find _ sessions); [|reflexivity].
      destruct (forallb Session.done (mark_done c sessions)); reflexivity.
    + intros (_ & c' & s & [H | (err & H & _)] & _); discriminate.
Qed.

Lemma bot_sends_commands_witness :
  In (BotSend "INVITE" ["RRSAgent"; "#wot"])
     (trace (handle Sample.todoStrings Sample.project false false
               [Sample.s7; Sample.s31] (Join "#wot" botName))).
Proof.
  apply (bot_sends_commands Sample.todoStrings Sample.project false
           [Sample.s7; Sample.s31] (Join "#wot" botName)
           "INVITE" ["RRSAgent"; "#wot"]).
  split; [reflexivity|].
  exists "#wot", Sample.s31.
  split; [now left|]. split; [reflexivity|].
  simpl. tauto.
Defined.

(** ** The blocks of a dry run *)

Lemma send_no_join_line (todoStrings : list string) (project : Project.t)
    (onlyCommands dismissBots : bool) (sessions : list Session.t)
    (channel nick : string) :
  existsb is_join_line
    (trace (sendChannelBotCommands todoStrings project onlyCommands
              dismissBots sessions channel nick)) = false.
Proof.
  assert (Hsaid : forall msgs,
    existsb is_join_line
      (said onlyCommands channel msgs
       ++ (if onlyCommands then [] else [BotPart channel]))%list = false).
  { intros msgs. rewrite existsb_app, existsb_said by reflexivity.
    now destruct onlyCommands. }
  destruct (find (fun s => channel =? getChannel s) sessions)
    as [session|] eqn:Hfind.
  2: now rewrite no_session.
  destruct (String.eqb_spec nick botName) as [->|Hbot].
  - destruct dismissBots.
    + rewrite (driving_bot_dismiss _ _ _ _ _ _ Hfind). apply Hsaid.
    + rewrite (driving_bot_setup _ _ _ _ _ _ Hfind). cbn [trace fst].
      unfold setTopic, inviteBot. destruct onlyCommands; reflexivity.
  - destruct (String.eqb_spec nick "RRSAgent") as [->|Hrrs].
    + rewrite (rrsagent_joined _ _ _ _ _ _ _ Hfind). apply Hsaid.
    + now rewrite other_nick_joined.
Qed.

Lemma filter_nothing {A} (f : A -> bool) (l : list A) :
  existsb f l = false -> filter f l = [].
Proof.
  intros H. apply filter_none. intros x Hx. apply not_true_is_false.
  intros Hfx.
  assert (existsb f l = true) by (apply existsb_exists; now exists x).
  congruence.
Qed.

(** X16. What a dry run prints for the sessions: for each of them, in
    their order, an empty line, "session <number>", a rule, "/join
    <channel>", the lines of the arrival of the bot, outside of dismiss
    mode also the lines of the arrival of RRSAgent, and a rule. It prints
    one "/join" line for each session and throws nothing. *)
Theorem dry_run_blocks (todoStrings : list string) (project : Project.t)
    (dismissBots : bool) (sessions : list Session.t) :
  let lines nick session :=
    trace (sendChannelBotCommands todoStrings project true dismissBots
             sessions (getChannel session) nick) in
  let block session :=
    ([ ConsoleLog "";
       ConsoleLog ("session " ++ show_number (Session.number session));
       ConsoleLog "-----";
       ConsoleLog ("/join " ++ getChannel session) ]
     ++ lines botName session
     ++ (if dismissBots then [] else lines "RRSAgent" session)
     ++ [ConsoleLog "-----"])%list in
  dryRun todoStrings project true dismissBots sessions
  = (flat_map block sessions, Return tt)
  /\ filter is_join_line
       (trace (dryRun todoStrings project true dismissBots sessions))
     = map (fun s => ConsoleLog ("/join " ++ getChannel s)) sessions.
Proof.
  intros lines block.
  assert (Hblock : forall session,
    dryRunSession todoStrings project true dismissBots sessions session
    = (block session, Return tt)).
  { intros session. unfold dryRunSession, send_commands.
    rewrite !(bind_return _ _ tt) by reflexivity.
    rewrite (bind_return _ _ tt) by apply sendChannelBotCommands_returns.
    assert (Hrrs : forall r : Run unit, outcome r = Return tt ->
      bind r (fun _ => console_log "-----")
      = ((trace r ++ [ConsoleLog "-----"])%list, Return tt)).
    { intros r Hr. now rewrite (bind_return _ _ tt). }
    rewrite Hrrs.
    2: { destruct (negb dismissBots);
           [apply sendChannelBotCommands_returns | reflexivity]. }
    subst block lines. cbn [trace outcome fst snd].
    destruct dismissBots; reflexivity. }
  assert (Hrun : forall xs,
    for_of xs (dryRunSession todoStrings project true dismissBots sessions)
    = (flat_map block xs, Return tt)).
  { induction xs as [|x xs IH]; [reflexivity|].
    cbn [for_of flat_map].
    rewrite (bind_return _ _ tt) by now rewrite Hblock.
    now rewrite Hblock, IH. }
  unfold dryRun. rewrite Hrun. split; [reflexivity|].
  cbn [trace fst]. clear Hrun Hblock.
  generalize sessions at 1 2. intros xs.
  induction xs as [|x xs IH]; [reflexivity|].
  cbn [flat_map map]. rewrite filter_app, IH. f_equal.
  subst block lines. cbv beta.
  rewrite !filter_app.
  rewrite (filter_nothing is_join_line
             (trace (sendChannelBotCommands todoStrings project true
                       dismissBots sessions (getChannel x) botName)))
    by apply send_no_join_line.
  assert (Hrrs :
    filter is_join_line
      (if dismissBots then []
       else trace (sendChannelBotCommands todoStrings project true
                     dismissBots sessions (getChannel x) "RRSAgent"))
    = []).
  { destruct dismissBots; [reflexivity|].
    apply filter_nothing, send_no_join_line. }
  rewrite Hrrs. reflexivity.
Qed.

(** ** The meeting and its chairs *)

(** X17. Among the messages that RRSAgent's arrival triggers, exactly one
    names the meeting, with the title of the session, and exactly one
    names the chairs, with their names in their order, separated by a
    comma and a space (and with no name when the session has no
    chair). *)
Theorem meeting_and_chairs (todoStrings : list string) (project : Project.t)
    (onlyCommands dismissBots : bool) (sessions : list Session.t)
    (channel : string) (session : Session.t) :
  find (fun s => channel =? getChannel s) sessions = Some session ->
  let t :=
    trace (sendChannelBotCommands todoStrings project onlyCommands
             dismissBots sessions channel "RRSAgent") in
  filter (announces channel "Meeting: ") t
  = said onlyCommands channel ["Meeting: " ++ Session.title session]
  /\
  filter (announces channel "Chair: ") t
  = said onlyCommands channel
      ["Chair: " ++
       String.concat ", " (map Chair.name (Session.chairs session))]
  /\
  (Session.chairs session = [] ->
   filter (announces channel "Chair: ") t
   = said onlyCommands channel ["Chair: "]).
Proof.
  intros Hfind t. subst t.
  assert (Hchair :
    filter (announces channel "Chair: ")
      (trace (sendChannelBotCommands todoStrings project onlyCommands
                dismissBots sessions channel "RRSAgent"))
    = said onlyCommands channel
        ["Chair: " ++
         String.concat ", " (map Chair.name (Session.chairs session))]).
  { rrsagent_messages Hfind.
    match goal with
    | |- context [if ?c then ("Agenda: " ++ ?a)%string else ?b] =>
        destruct c
    end;
    match goal with
    | |- context [if ?c then [("Slideset: " ++ ?a)%string] else []] =>
        destruct c
    end; reflexivity. }
  split; [|split; [exact Hchair|]].
  - rrsagent_messages Hfind.
    match goal with
    | |- context [if ?c then ("Agenda: " ++ ?a)%string else ?b] =>
        destruct c
    end;
    match goal with
    | |- context [if ?c then [("Slideset: " ++ ?a)%string] else []] =>
        destruct c
    end; reflexivity.
  - intros Hnone. rewrite Hchair, Hnone. reflexivity.
Qed.

Lemma meeting_and_chairs_witness :
  filter (announces "#wot" "Chair: ")
    (trace (sendChannelBotCommands Sample.todoStrings Sample.project true
              false [Sample.s7; Sample.s31] "#wot" "RRSAgent"))
  = [ConsoleLog "/msg #wot Chair: Ada, Grace"].
Proof.
  apply (proj1 (proj2 (meeting_and_chairs Sample.todoStrings Sample.project
                         true false [Sample.s7; Sample.s31] "#wot"
                         Sample.s31 eq_refl))).
Defined.

Lemma completion_signal_witness :
  In BotDisconnect
     (trace (handle Sample.todoStrings Sample.project false true
               [Session.set_done Sample.s7; Sample.s31]
               (Part "#wot" botName))).
Proof.
  apply (proj1 (completion_signal Sample.todoStrings Sample.project false
                  true)
           [Session.set_done Sample.s7; Sample.s31] (Part "#wot" botName)
           BotDisconnect eq_refl).
  exists "#wot". split; [reflexivity|]. split; [discriminate | reflexivity].
Defined.
